(** * Godel's Sky: consequence engines

    A shallow embedding of the three simulation engines of the repository
    (ReputationManager, SystemEconomy / EconomicManager, WitnessSystem) and
    the properties that the design document states about them.

    Modelling conventions, used throughout:
    - a C++ [double] is a rational number [Q]; comparisons are exact, and the
      arithmetic is the exact one (no rounding, no NaN, no infinities);
    - a C++ [int] is an integer [Z]; the one place where the source relies on
      the width of [int] (the shift in [SystemEconomy::PropagateEffects]) is
      written out with its 32-bit wrap-around;
    - [static_cast<int>(double)] truncates toward zero; when the truncated
      value is not an [int], where C++ leaves the result undefined, it gives
      [INT_MIN], as the conversion instruction of x86-64 does;
    - a raw pointer ([const Government *], [const System *], [const Ship *])
      is an address in [N], the null pointer being [0];
    - [std::map] is [gmap], [std::set] is [gset], [std::vector] and
      [std::list] are [list], [std::queue] is a [list] popped at its head and
      pushed at its end;
    - the game's [Date] and [Point] classes are parameters; of its [System],
      [Government] and [Ship] classes an object is the record of the values
      that the engines read from it; the values drawn from [Random] are
      arguments of the step that draws them;
    - of loading and saving ([Load], [Save]) only the loader of the economic
      configuration and the tables of names are modelled. *)

From Stdlib Require Import ZArith QArith Lqa Lia List String.
From stdpp Require Import base gmap list.

Local Open Scope Z_scope.

(** ** Numeric helpers shared by the three engines *)

(** [a < b] on doubles. *)
Definition Qltb (a b : Q) : bool := negb (Qle_bool b a).

(** [std::max(a, b)] is [(a < b) ? b : a]. *)
Definition std_max (a b : Q) : Q := if Qltb a b then b else a.

(** [std::min(a, b)] is [(b < a) ? b : a]. *)
Definition std_min (a b : Q) : Q := if Qltb b a then b else a.

(** The range of the 32-bit [int]. *)
Definition INT_MIN : Z := - 2 ^ 31.
Definition INT_MAX : Z := 2 ^ 31 - 1.

(** [static_cast<int>(x)] on a double: truncation toward zero. When the
    truncated value is not an [int], the result is undefined in C++; the
    conversion instruction that the compilers emit on x86-64 gives [INT_MIN]
    there, and that is the value taken here. *)
Definition static_cast_int (x : Q) : Z :=
  let truncated := Z.quot (Qnum x) (Zpos (Qden x)) in
  if Z.leb INT_MIN truncated && Z.leb truncated INT_MAX then truncated
  else INT_MIN.

(** A pointer is null. *)
Definition is_null (p : N) : bool := N.eqb p 0%N.

(** ** ReputationManager (source/ReputationManager.h, .cpp) *)

Module Reputation.

(** [enum class ReputationThreshold], with the integer value of each
    enumerator. *)
Inductive ReputationThreshold : Type :=
| WAR | HOSTILE | UNFRIENDLY | NEUTRAL | FRIENDLY | ALLIED | HONORED.

(** [static_cast<int>(threshold)]. *)
Definition threshold_int (t : ReputationThreshold) : Z :=
  match t with
  | WAR => -100
  | HOSTILE => -50
  | UNFRIENDLY => -25
  | NEUTRAL => 0
  | FRIENDLY => 25
  | ALLIED => 50
  | HONORED => 100
  end.

Definition ReputationThreshold_eqb (a b : ReputationThreshold) : bool :=
  Z.eqb (threshold_int a) (threshold_int b).

(** [struct ReputationConfig], with its default member initialisers. *)
Record ReputationConfig : Type := {
  positiveDecayRate : Q;
  negativeRecoveryRate : Q;
  neutralPoint : Q;
  atrocityThreshold : Q;
  forgivesAtrocities : bool;
  atrocityForgivenessDays : Z;
  allyReputationFactor : Q;
  memoryStrength : Q
}.

Definition ReputationConfig_default : ReputationConfig := {|
  positiveDecayRate := 1 # 100;
  negativeRecoveryRate := 5 # 1000;
  neutralPoint := 0;
  atrocityThreshold := -50 # 1;
  forgivesAtrocities := false;
  atrocityForgivenessDays := 365;
  allyReputationFactor := 1 # 2;
  memoryStrength := 1 # 2
|}.

Definition MAX_EVENT_HISTORY : Z := 50.

(** [ReputationManager::GetThreshold]. *)
Definition GetThreshold (reputation : Q) : ReputationThreshold :=
  if Qle_bool reputation (inject_Z (threshold_int WAR)) then WAR
  else if Qle_bool reputation (inject_Z (threshold_int HOSTILE)) then HOSTILE
  else if Qle_bool reputation (inject_Z (threshold_int UNFRIENDLY)) then UNFRIENDLY
  else if Qltb reputation (inject_Z (threshold_int FRIENDLY)) then NEUTRAL
  else if Qltb reputation (inject_Z (threshold_int ALLIED)) then FRIENDLY
  else if Qltb reputation (inject_Z (threshold_int HONORED)) then ALLIED
  else HONORED.

(** [ReputationManager::CrossesThreshold]; the two out-parameters are
    returned after the result. *)
Definition CrossesThreshold (oldRep newRep : Q)
  : bool * ReputationThreshold * ReputationThreshold :=
  let from := GetThreshold oldRep in
  let to := GetThreshold newRep in
  (negb (ReputationThreshold_eqb from to), from, to).

Section WithDate.

(** The game's [Date] class: [Date_bool] is its [operator bool] (a date has
    been set), [Date_minus] its [operator-] (days between two dates),
    [Date_default] the default-constructed date. *)
Context {Date : Type}.
Variable Date_bool : Date -> bool.
Variable Date_minus : Date -> Date -> Z.
Variable Date_default : Date.

(** [struct ReputationEvent]. *)
Record ReputationEvent : Type := {
  date : Date;
  change : Q;
  reason : string;
  wasAtrocity : bool;
  wasWitnessed : bool
}.

(** [struct ThresholdCrossing]. *)
Record ThresholdCrossing : Type := {
  government : N;
  fromThreshold : ReputationThreshold;
  toThreshold : ReputationThreshold;
  crossing_date : Date;
  oldReputation : Q;
  newReputation : Q
}.

(** [struct GovernmentReputationState]. *)
Record GovernmentReputationState : Type := {
  lastInteraction : Date;
  hasCommittedAtrocity : bool;
  atrocityDate : Date;
  goodDeedCount : Z;
  recentEvents : list ReputationEvent;
  peakReputation : Q;
  troughReputation : Q;
  daysSincePositiveInteraction : Z
}.

Definition GovernmentReputationState_default : GovernmentReputationState := {|
  lastInteraction := Date_default;
  hasCommittedAtrocity := false;
  atrocityDate := Date_default;
  goodDeedCount := 0;
  recentEvents := [];
  peakReputation := 0;
  troughReputation := 0;
  daysSincePositiveInteraction := 0
|}.

(** [GovernmentReputationState::RecordEvent]. *)
Definition State_RecordEvent (state : GovernmentReputationState)
    (event : ReputationEvent) : GovernmentReputationState :=
  {| lastInteraction := date event;
     hasCommittedAtrocity :=
       if wasAtrocity event then true else hasCommittedAtrocity state;
     atrocityDate :=
       if wasAtrocity event then date event else atrocityDate state;
     goodDeedCount := goodDeedCount state;
     recentEvents := recentEvents state ++ [event];
     peakReputation := peakReputation state;
     troughReputation := troughReputation state;
     daysSincePositiveInteraction :=
       if Qltb 0 (change event) then 0
       else daysSincePositiveInteraction state |}.

(** [GovernmentReputationState::TrimEventHistory]: the oldest events are
    erased until [maxEvents] are left. The source compares the size with
    [static_cast<size_t>(maxEvents)], which for a negative [maxEvents] is
    [maxEvents + 2^64]. *)
Definition TrimEventHistory (state : GovernmentReputationState)
    (maxEvents : Z) : GovernmentReputationState :=
  let size := Z.of_nat (length (recentEvents state)) in
  let limit := if Z.ltb maxEvents 0 then maxEvents + 2 ^ 64 else maxEvents in
  if Z.ltb limit size then
    {| lastInteraction := lastInteraction state;
       hasCommittedAtrocity := hasCommittedAtrocity state;
       atrocityDate := atrocityDate state;
       goodDeedCount := goodDeedCount state;
       recentEvents := drop (Z.to_nat (size - maxEvents)) (recentEvents state);
       peakReputation := peakReputation state;
       troughReputation := troughReputation state;
       daysSincePositiveInteraction := daysSincePositiveInteraction state |}
  else state.

(** [class ReputationManager]: the default configuration and the two maps
    keyed by government. *)
Record ReputationManager : Type := {
  defaultConfig : ReputationConfig;
  configs : gmap N ReputationConfig;
  states : gmap N GovernmentReputationState
}.

Definition ReputationManager_new : ReputationManager := {|
  defaultConfig := ReputationConfig_default;
  configs := ∅;
  states := ∅
|}.

Definition set_states (m : ReputationManager)
    (s : gmap N GovernmentReputationState) : ReputationManager :=
  {| defaultConfig := defaultConfig m; configs := configs m; states := s |}.

(** [ReputationManager::Clear]. *)
Definition Clear (m : ReputationManager) : ReputationManager :=
  {| defaultConfig := defaultConfig m; configs := ∅; states := ∅ |}.

(** [ReputationManager::SetConfig]. *)
Definition SetConfig (m : ReputationManager) (gov : N)
    (config : ReputationConfig) : ReputationManager :=
  if is_null gov then m
  else {| defaultConfig := defaultConfig m;
          configs := <[gov := config]> (configs m);
          states := states m |}.

(** [ReputationManager::GetConfig]. *)
Definition GetConfig (m : ReputationManager) (gov : N) : ReputationConfig :=
  match configs m !! gov with
  | Some c => c
  | None => defaultConfig m
  end.

(** [ReputationManager::GetState]: [None] is the null result. *)
Definition GetState (m : ReputationManager) (gov : N)
  : option GovernmentReputationState := states m !! gov.

(** [ReputationManager::GetOrCreateState]: [states[gov]] inserts a
    default-constructed state when the key is absent. *)
Definition GetOrCreateState (m : ReputationManager) (gov : N)
  : ReputationManager * GovernmentReputationState :=
  match states m !! gov with
  | Some s => (m, s)
  | None =>
      (set_states m (<[gov := GovernmentReputationState_default]> (states m)),
       GovernmentReputationState_default)
  end.

(** [ReputationManager::RecordGoodDeed]. *)
Definition RecordGoodDeed (m : ReputationManager) (gov : N) (d : Date)
  : ReputationManager :=
  if is_null gov then m
  else
    let '(m1, state) := GetOrCreateState m gov in
    set_states m1 (<[gov :=
      {| lastInteraction := d;
         hasCommittedAtrocity := hasCommittedAtrocity state;
         atrocityDate := atrocityDate state;
         goodDeedCount := goodDeedCount state + 1;
         recentEvents := recentEvents state;
         peakReputation := peakReputation state;
         troughReputation := troughReputation state;
         daysSincePositiveInteraction := 0 |}]> (states m1)).

(** [ReputationManager::RecordAtrocity]. *)
Definition RecordAtrocity (m : ReputationManager) (gov : N) (d : Date)
  : ReputationManager :=
  if is_null gov then m
  else
    let '(m1, state) := GetOrCreateState m gov in
    set_states m1 (<[gov :=
      {| lastInteraction := d;
         hasCommittedAtrocity := true;
         atrocityDate := d;
         goodDeedCount := goodDeedCount state;
         recentEvents := recentEvents state;
         peakReputation := peakReputation state;
         troughReputation := troughReputation state;
         daysSincePositiveInteraction :=
           daysSincePositiveInteraction state |}]> (states m1)).

(** [ReputationManager::RecordChange]; [currentRep] is the value of
    [gov->Reputation()] at the call. *)
Definition RecordChange (m : ReputationManager) (gov : N) (currentRep : Q)
    (d : Date) (chg : Q) (why : string) (atrocity witnessed : bool)
  : ReputationManager :=
  if is_null gov then m
  else
    let '(m1, state) := GetOrCreateState m gov in
    let s1 := State_RecordEvent state
      {| date := d; change := chg; reason := why;
         wasAtrocity := atrocity; wasWitnessed := witnessed |} in
    let peak :=
      if Qltb (peakReputation s1) currentRep then currentRep
      else peakReputation s1 in
    let trough :=
      if Qltb currentRep (troughReputation s1) then currentRep
      else troughReputation s1 in
    set_states m1 (<[gov :=
      {| lastInteraction := lastInteraction s1;
         hasCommittedAtrocity := hasCommittedAtrocity s1;
         atrocityDate := atrocityDate s1;
         goodDeedCount := goodDeedCount s1;
         recentEvents := recentEvents s1;
         peakReputation := peak;
         troughReputation := trough;
         daysSincePositiveInteraction :=
           daysSincePositiveInteraction s1 |}]> (states m1)).

(** [ReputationManager::HasUnforgivenAtrocity]. *)
Definition HasUnforgivenAtrocity (m : ReputationManager) (gov : N) : bool :=
  match states m !! gov with
  | None => false
  | Some st =>
      if negb (hasCommittedAtrocity st) then false
      else negb (forgivesAtrocities (GetConfig m gov))
  end.

(** [ReputationManager::GetEffectiveDecayRate]. *)
Definition GetEffectiveDecayRate (m : ReputationManager) (gov : N) : Q :=
  let config := GetConfig m gov in
  let rate := positiveDecayRate config in
  let rate :=
    match states m !! gov with
    | Some state =>
        let rate := (rate * (1 - memoryStrength config))%Q in
        let rate :=
          if Z.ltb 0 (goodDeedCount state) then
            let reduction :=
              std_min (1 # 2) (inject_Z (goodDeedCount state) * (5 # 100)) in
            (rate * (1 - reduction))%Q
          else rate in
        if Z.ltb (daysSincePositiveInteraction state) 7 then
          let reduction :=
            ((3 # 10) *
             (1 - inject_Z (daysSincePositiveInteraction state) / 7))%Q in
          (rate * (1 - reduction))%Q
        else rate
    | None => rate
    end in
  std_max 0 rate.

(** [ReputationManager::GetEffectiveRecoveryRate]. *)
Definition GetEffectiveRecoveryRate (m : ReputationManager) (gov : N) : Q :=
  let config := GetConfig m gov in
  let rate := negativeRecoveryRate config in
  let rate :=
    match states m !! gov with
    | Some state =>
        let rate :=
          if hasCommittedAtrocity state then (rate * (1 # 10))%Q else rate in
        if Z.ltb 30 (daysSincePositiveInteraction state) then
          let bonus :=
            std_min (1 # 2)
              (inject_Z (daysSincePositiveInteraction state - 30) * (1 # 100)) in
          (rate * (1 + bonus))%Q
        else rate
    | None => rate
    end in
  std_max 0 rate.

(** [ReputationManager::ApplyDecay]. *)
Definition ApplyDecay (m : ReputationManager) (gov : N) (currentRep : Q)
    (currentDate : Date) : Q :=
  let config := GetConfig m gov in
  let neutralPoint := neutralPoint config in
  if Qltb neutralPoint currentRep then
    let rate := GetEffectiveDecayRate m gov in
    let decay := ((currentRep - neutralPoint) * rate)%Q in
    let newRep := (currentRep - decay)%Q in
    std_max neutralPoint newRep
  else if Qltb currentRep neutralPoint then
    let rate := GetEffectiveRecoveryRate m gov in
    let recovery := ((neutralPoint - currentRep) * rate)%Q in
    let newRep := (currentRep + recovery)%Q in
    std_min neutralPoint newRep
  else currentRep.

(** The body of the loop of [ReputationManager::StepDaily] for one entry
    [(gov, state)] of [states]. [currentRep] is [gov->Reputation()]; the
    result is the crossing emitted (if any), the reputation handed to
    [gov->SetReputation] (if it changed), and the new state. The rates are
    read from the manager [m1] in which the day counter of this government
    has already been incremented. *)
Definition StepDaily_entry (m : ReputationManager) (gov : N)
    (state : GovernmentReputationState) (currentRep : Q) (currentDate : Date)
  : option ThresholdCrossing * option Q * GovernmentReputationState :=
  let state1 :=
    {| lastInteraction := lastInteraction state;
       hasCommittedAtrocity := hasCommittedAtrocity state;
       atrocityDate := atrocityDate state;
       goodDeedCount := goodDeedCount state;
       recentEvents := recentEvents state;
       peakReputation := peakReputation state;
       troughReputation := troughReputation state;
       daysSincePositiveInteraction :=
         daysSincePositiveInteraction state + 1 |} in
  let m1 := set_states m (<[gov := state1]> (states m)) in
  let oldRep := currentRep in
  let newRep := ApplyDecay m1 gov currentRep currentDate in
  let '(crossed, from, to) := CrossesThreshold oldRep newRep in
  let crossing :=
    if crossed then
      Some {| government := gov; fromThreshold := from; toThreshold := to;
              crossing_date := currentDate;
              oldReputation := oldRep; newReputation := newRep |}
    else None in
  let setRep := if Qeq_bool newRep oldRep then None else Some newRep in
  let forgiven :=
    hasCommittedAtrocity state1 &&
    forgivesAtrocities (GetConfig m1 gov) &&
    Date_bool (atrocityDate state1) &&
    Z.leb (atrocityForgivenessDays (GetConfig m1 gov))
          (Date_minus currentDate (atrocityDate state1)) in
  let state2 :=
    {| lastInteraction := lastInteraction state1;
       hasCommittedAtrocity :=
         if forgiven then false else hasCommittedAtrocity state1;
       atrocityDate := atrocityDate state1;
       goodDeedCount := goodDeedCount state1;
       recentEvents := recentEvents state1;
       peakReputation := peakReputation state1;
       troughReputation := troughReputation state1;
       daysSincePositiveInteraction :=
         daysSincePositiveInteraction state1 |} in
  (crossing, setRep, TrimEventHistory state2 MAX_EVENT_HISTORY).

(** [ReputationManager::StepDaily]. The standing of each government is owned
    by the [Government] object; [reputation] is the table of those values
    (absent: 0) and the calls to [SetReputation] update it. The entries of
    [states] are visited one after the other; the null key is skipped. *)
Definition StepDaily (m : ReputationManager) (reputation : gmap N Q)
    (currentDate : Date)
  : list ThresholdCrossing * ReputationManager * gmap N Q :=
  fold_left
    (fun acc entry =>
       let '(crossings, m0, rep) := acc in
       let gov := fst entry in
       if is_null gov then acc
       else
         match states m0 !! gov with
         | None => acc
         | Some state =>
             let '(crossing, setRep, state') :=
               StepDaily_entry m0 gov state (default 0%Q (rep !! gov))
                 currentDate in
             (crossings ++ match crossing with Some c => [c] | None => [] end,
              set_states m0 (<[gov := state']> (states m0)),
              match setRep with
              | Some r => <[gov := r]> rep
              | None => rep
              end)
         end)
    (map_to_list (states m))
    ([], m, reputation).

End WithDate.

(** [ReputationManager::GetThresholdName]. *)
Definition GetThresholdName (threshold : ReputationThreshold) : string :=
  match threshold with
  | WAR => "at war"
  | HOSTILE => "hostile"
  | UNFRIENDLY => "unfriendly"
  | NEUTRAL => "neutral"
  | FRIENDLY => "friendly"
  | ALLIED => "allied"
  | HONORED => "honored"
  end.

Section Queries.

Context {Date : Type}.

(** [ReputationManager::GetRecentEvents]: the argument [days] is not used by
    the source, which returns every stored event. *)
Definition GetRecentEvents (m : ReputationManager (Date := Date)) (gov : N)
    (days : Z) : list ReputationEvent :=
  match states m !! gov with
  | None => []
  | Some st => recentEvents st
  end.

(** [ReputationManager::GetKnownGovernments]: the keys of [states] other than
    the null pointer, in the order in which the map is traversed. *)
Definition GetKnownGovernments (m : ReputationManager (Date := Date))
  : list N :=
  List.filter (fun gov => negb (is_null gov))
    (map fst (map_to_list (states m))).

End Queries.

End Reputation.

(** ** SystemEconomy and EconomicManager (source/EconomicState.h, .cpp) *)

Module Economy.

(** [enum class EconomicStateType]. *)
Inductive EconomicStateType : Type :=
| STABLE | BOOM | BUST | SHORTAGE | SURPLUS | LOCKDOWN.

(** [enum class EconomicEventType]. *)
Inductive EconomicEventType : Type :=
| MERCHANT_DESTROYED | PIRATE_DESTROYED | TRADE_COMPLETED | LARGE_PURCHASE
| LARGE_SALE | SMUGGLING_DETECTED | CONVOY_ATTACKED | BLOCKADE_ACTIVE
| RELIEF_DELIVERED | WAR_STARTED | WAR_ENDED.

Definition EconomicStateType_eqb (a b : EconomicStateType) : bool :=
  match a, b with
  | STABLE, STABLE | BOOM, BOOM | BUST, BUST | SHORTAGE, SHORTAGE
  | SURPLUS, SURPLUS | LOCKDOWN, LOCKDOWN => true
  | _, _ => false
  end.

(** [struct EconomicConfig], with its default member initialisers. *)
Record EconomicConfig : Type := {
  boomRecoveryDays : Z;
  bustRecoveryDays : Z;
  shortageRecoveryDays : Z;
  surplusRecoveryDays : Z;
  lockdownRecoveryDays : Z;
  merchantLossThreshold : Z;
  pirateLossThreshold : Z;
  tradeVolumeThreshold : Z;
  smugglingThreshold : Z;
  bulkTradeThreshold : Z;
  boomBuyModifier : Q;
  boomSellModifier : Q;
  bustBuyModifier : Q;
  bustSellModifier : Q;
  shortageModifier : Q;
  surplusModifier : Q;
  blackMarketBuyModifier : Q;
  blackMarketSellModifier : Q;
  blackMarketDetectionChance : Q;
  cascadeRadius : Z
}.

Definition EconomicConfig_default : EconomicConfig := {|
  boomRecoveryDays := 14;
  bustRecoveryDays := 14;
  shortageRecoveryDays := 7;
  surplusRecoveryDays := 7;
  lockdownRecoveryDays := 21;
  merchantLossThreshold := 10;
  pirateLossThreshold := 20;
  tradeVolumeThreshold := 5000;
  smugglingThreshold := 50;
  bulkTradeThreshold := 500;
  boomBuyModifier := 90 # 100;
  boomSellModifier := 110 # 100;
  bustBuyModifier := 110 # 100;
  bustSellModifier := 90 # 100;
  shortageModifier := 150 # 100;
  surplusModifier := 70 # 100;
  blackMarketBuyModifier := 150 # 100;
  blackMarketSellModifier := 60 # 100;
  blackMarketDetectionChance := 15 # 100;
  cascadeRadius := 2
|}.

Definition MAX_EVENT_HISTORY : nat := 100.
Definition DAILY_COUNTER_DECAY : Q := 85 # 100.

(** What the engine reads of the game's [System] class through a
    [const System *]: [Links()], [Danger()], [IsInhabited(nullptr)] and
    [DisplayName()]. *)
Record System : Type := {
  Links : list N;
  Danger : Q;
  IsInhabited : bool;
  DisplayName : string
}.

(** The values returned by the calls to [Random::Real()] and
    [Random::Normal()] in [SystemEconomy::SimulateNPCActivity], one per call
    site, in the order of the source. A call site that is not reached does
    not use its value. *)
Record NPCRandom : Type := {
  lossRoll : Q;
  lossSize : Q;
  killRoll : Q;
  killSize : Q;
  trafficNormal : Q
}.

(** The 32-bit [int] of the source: the value of a result that does not fit
    is the one congruent to it modulo [2^32] in the signed range. *)
Definition int_wrap (z : Z) : Z :=
  (z + 2 ^ 31) mod 2 ^ 32 - 2 ^ 31.

(** [1 << k] on [int]. *)
Definition int_shl1 (k : Z) : Z := int_wrap (Z.shiftl 1 k).

(** [magnitude / (1 << (distance + 1))]: integer division truncates. *)
Definition propagatedMagnitude (magnitude distance : Z) : Z :=
  Z.quot magnitude (int_shl1 (distance + 1)).

Section WithDate.

Context {Date : Type}.
Variable Date_default : Date.

(** The [System] object behind each non-null address. *)
Variable system_at : N -> System.

(** [struct EconomicEvent]. *)
Record EconomicEvent : Type := {
  date : Date;
  type : EconomicEventType;
  magnitude : Z;
  commodity : string;
  description : string;
  playerCaused : bool
}.

(** [class SystemEconomy]: its data members. *)
Record SystemEconomy : Type := {
  state : EconomicStateType;
  affectedCommodity : string;
  stateStrength : Z;
  stateChangeDate : Date;
  merchantLosses : Q;
  pirateLosses : Q;
  tradeVolume : Q;
  smugglingLevel : Q;
  recentEvents : list EconomicEvent;
  newsHeadline : string;
  newsDate : Date;
  config : EconomicConfig;
  significantChange : bool
}.

(** [SystemEconomy() = default]. *)
Definition SystemEconomy_new : SystemEconomy := {|
  state := STABLE;
  affectedCommodity := EmptyString;
  stateStrength := 0;
  stateChangeDate := Date_default;
  merchantLosses := 0;
  pirateLosses := 0;
  tradeVolume := 0;
  smugglingLevel := 0;
  recentEvents := [];
  newsHeadline := EmptyString;
  newsDate := Date_default;
  config := EconomicConfig_default;
  significantChange := false
|}.

(** Assignments to single members. *)
Definition set_condition (e : SystemEconomy) (s : EconomicStateType)
    (strength : Z) (d : Date) : SystemEconomy :=
  {| state := s; affectedCommodity := affectedCommodity e;
     stateStrength := strength; stateChangeDate := d;
     merchantLosses := merchantLosses e; pirateLosses := pirateLosses e;
     tradeVolume := tradeVolume e; smugglingLevel := smugglingLevel e;
     recentEvents := recentEvents e; newsHeadline := newsHeadline e;
     newsDate := newsDate e; config := config e;
     significantChange := significantChange e |}.

Definition set_affectedCommodity (e : SystemEconomy) (c : string)
  : SystemEconomy :=
  {| state := state e; affectedCommodity := c;
     stateStrength := stateStrength e; stateChangeDate := stateChangeDate e;
     merchantLosses := merchantLosses e; pirateLosses := pirateLosses e;
     tradeVolume := tradeVolume e; smugglingLevel := smugglingLevel e;
     recentEvents := recentEvents e; newsHeadline := newsHeadline e;
     newsDate := newsDate e; config := config e;
     significantChange := significantChange e |}.

Definition set_stateStrength (e : SystemEconomy) (strength : Z)
  : SystemEconomy :=
  set_condition e (state e) strength (stateChangeDate e).

Definition set_counters (e : SystemEconomy) (ml pl tv sl : Q)
  : SystemEconomy :=
  {| state := state e; affectedCommodity := affectedCommodity e;
     stateStrength := stateStrength e; stateChangeDate := stateChangeDate e;
     merchantLosses := ml; pirateLosses := pl;
     tradeVolume := tv; smugglingLevel := sl;
     recentEvents := recentEvents e; newsHeadline := newsHeadline e;
     newsDate := newsDate e; config := config e;
     significantChange := significantChange e |}.

Definition set_recentEvents (e : SystemEconomy) (l : list EconomicEvent)
  : SystemEconomy :=
  {| state := state e; affectedCommodity := affectedCommodity e;
     stateStrength := stateStrength e; stateChangeDate := stateChangeDate e;
     merchantLosses := merchantLosses e; pirateLosses := pirateLosses e;
     tradeVolume := tradeVolume e; smugglingLevel := smugglingLevel e;
     recentEvents := l; newsHeadline := newsHeadline e;
     newsDate := newsDate e; config := config e;
     significantChange := significantChange e |}.

(** [SystemEconomy::SetNewsHeadline]. *)
Definition SetNewsHeadline (e : SystemEconomy) (headline : string)
  : SystemEconomy :=
  {| state := state e; affectedCommodity := affectedCommodity e;
     stateStrength := stateStrength e; stateChangeDate := stateChangeDate e;
     merchantLosses := merchantLosses e; pirateLosses := pirateLosses e;
     tradeVolume := tradeVolume e; smugglingLevel := smugglingLevel e;
     recentEvents := recentEvents e; newsHeadline := headline;
     newsDate := newsDate e; config := config e;
     significantChange := significantChange e |}.

Definition set_significantChange (e : SystemEconomy) (b : bool)
  : SystemEconomy :=
  {| state := state e; affectedCommodity := affectedCommodity e;
     stateStrength := stateStrength e; stateChangeDate := stateChangeDate e;
     merchantLosses := merchantLosses e; pirateLosses := pirateLosses e;
     tradeVolume := tradeVolume e; smugglingLevel := smugglingLevel e;
     recentEvents := recentEvents e; newsHeadline := newsHeadline e;
     newsDate := newsDate e; config := config e;
     significantChange := b |}.

(** [SystemEconomy::GetState], [GetAffectedCommodity], [GetStateStrength]. *)
Definition GetState (e : SystemEconomy) : EconomicStateType := state e.
Definition GetAffectedCommodity (e : SystemEconomy) : string :=
  affectedCommodity e.
Definition GetStateStrength (e : SystemEconomy) : Z := stateStrength e.

(** [SystemEconomy::GetMerchantLosses] and its three siblings. *)
Definition GetMerchantLosses (e : SystemEconomy) : Z :=
  static_cast_int (merchantLosses e).
Definition GetPirateLosses (e : SystemEconomy) : Z :=
  static_cast_int (pirateLosses e).
Definition GetTradeVolume (e : SystemEconomy) : Z :=
  static_cast_int (tradeVolume e).
Definition GetSmugglingLevel (e : SystemEconomy) : Z :=
  static_cast_int (smugglingLevel e).

(** [SystemEconomy::RecordEvent(const EconomicEvent &)]. *)
Definition RecordEvent_event (e : SystemEconomy) (event : EconomicEvent)
  : SystemEconomy :=
  let events := recentEvents e ++ [event] in
  let events :=
    if Nat.ltb MAX_EVENT_HISTORY (length events) then drop 1 events
    else events in
  let e := set_recentEvents e events in
  let m := inject_Z (magnitude event) in
  match type event with
  | MERCHANT_DESTROYED =>
      set_counters e (merchantLosses e + m) (pirateLosses e)
        (tradeVolume e) (smugglingLevel e)
  | PIRATE_DESTROYED =>
      set_counters e (merchantLosses e) (pirateLosses e + m)
        (tradeVolume e) (smugglingLevel e)
  | TRADE_COMPLETED | LARGE_PURCHASE | LARGE_SALE =>
      set_counters e (merchantLosses e) (pirateLosses e)
        (tradeVolume e + m) (smugglingLevel e)
  | SMUGGLING_DETECTED =>
      set_counters e (merchantLosses e) (pirateLosses e)
        (tradeVolume e) (smugglingLevel e + m)
  | _ => e
  end.

(** [SystemEconomy::RecordEvent(type, magnitude, commodity, playerCaused)]:
    the event carries the default-constructed date. *)
Definition RecordEvent (e : SystemEconomy) (ty : EconomicEventType)
    (mag : Z) (com : string) (player : bool) : SystemEconomy :=
  RecordEvent_event e
    {| date := Date_default; type := ty; magnitude := mag; commodity := com;
       description := EmptyString; playerCaused := player |}.

(** [SystemEconomy::SetState]. *)
Definition SetState (e : SystemEconomy) (newState : EconomicStateType)
    (com : string) (strength : Z) : SystemEconomy :=
  if negb (EconomicStateType_eqb (state e) newState) then
    set_significantChange
      (set_affectedCommodity
         (set_condition e newState strength (stateChangeDate e)) com)
      true
  else
    let e := set_stateStrength e (Z.max (stateStrength e) strength) in
    match com with
    | EmptyString => e
    | _ => set_affectedCommodity e com
    end.

(** [SystemEconomy::GenerateNewsHeadline]; [system] is [None] for the null
    pointer. *)
Definition GenerateNewsHeadline (e : SystemEconomy)
    (oldState newState : EconomicStateType) (system : option System)
  : SystemEconomy :=
  let systemName :=
    match system with
    | Some s => DisplayName s
    | None => "local system"%string
    end in
  let headline :=
    match newState with
    | STABLE =>
        match oldState with
        | BOOM => "Economic growth stabilizes in " ++ systemName ++ "."
        | BUST =>
            "Economy recovers in " ++ systemName ++ " as trade resumes."
        | LOCKDOWN => "Trade restrictions lifted in " ++ systemName ++ "."
        | _ => "Markets return to normal in " ++ systemName ++ "."
        end
    | BOOM =>
        "Trade flourishing in " ++ systemName ++
        ". Merchants report record profits."
    | BUST =>
        "Economic crisis in " ++ systemName ++
        ". Merchants warn of convoy losses."
    | SHORTAGE =>
        "Supply shortage reported in " ++ systemName ++ ". " ++
        affectedCommodity e ++ " prices soaring."
    | SURPLUS =>
        "Market glut in " ++ systemName ++ ". " ++
        affectedCommodity e ++ " prices plummeting."
    | LOCKDOWN =>
        "Authorities impose trade lockdown in " ++ systemName ++
        ". Only black market operating."
    end%string in
  SetNewsHeadline e headline.

(** [SystemEconomy::SimulateNPCActivity]. *)
Definition SimulateNPCActivity (e : SystemEconomy) (d : Date)
    (system : option System) (rnd : NPCRandom) : SystemEconomy :=
  match system with
  | None => e
  | Some s =>
      let danger := Danger s in
      let e :=
        if Qltb 0 danger && Qltb (lossRoll rnd) (danger * (1 # 1000)) then
          let losses :=
            1 + static_cast_int (lossSize rnd * danger * (1 # 100)) in
          set_counters e (merchantLosses e + inject_Z losses)
            (pirateLosses e) (tradeVolume e) (smugglingLevel e)
        else e in
      let e :=
        if Qltb 0 danger && Qltb (killRoll rnd) (1 # 10) then
          let kills := static_cast_int (killSize rnd * 2) in
          if Z.ltb 0 kills then
            set_counters e (merchantLosses e)
              (pirateLosses e + inject_Z kills)
              (tradeVolume e) (smugglingLevel e)
          else e
        else e in
      if IsInhabited s then
        let baseTraffic := (100 + trafficNormal rnd * 50)%Q in
        let baseTraffic :=
          match state e with
          | BOOM => (baseTraffic * (15 # 10))%Q
          | BUST => (baseTraffic * (5 # 10))%Q
          | LOCKDOWN => (baseTraffic * (1 # 10))%Q
          | _ => baseTraffic
          end in
        set_counters e (merchantLosses e) (pirateLosses e)
          (tradeVolume e + std_max 0 baseTraffic) (smugglingLevel e)
      else e
  end.

(** [SystemEconomy::EvaluateStateTransition]. *)
Definition EvaluateStateTransition (e : SystemEconomy) (d : Date)
    (system : option System) : SystemEconomy * bool :=
  let oldState := state e in
  let e :=
    if EconomicStateType_eqb (state e) STABLE
       || EconomicStateType_eqb (state e) BUST then
      if Qle_bool (inject_Z (merchantLossThreshold (config e)))
           (merchantLosses e) then
        set_condition e BUST
          (Z.min 100 (static_cast_int (merchantLosses e * 10))) d
      else e
    else e in
  let e :=
    if EconomicStateType_eqb (state e) STABLE
       || EconomicStateType_eqb (state e) BOOM then
      if Qle_bool (inject_Z (pirateLossThreshold (config e)))
           (pirateLosses e) then
        set_condition e BOOM
          (Z.min 100 (static_cast_int (pirateLosses e * 5))) d
      else if Qle_bool (inject_Z (tradeVolumeThreshold (config e)))
                (tradeVolume e) then
        set_condition e BOOM
          (Z.min 100 (static_cast_int (tradeVolume e / 50))) d
      else e
    else e in
  let e :=
    if Qle_bool (inject_Z (smugglingThreshold (config e)))
         (smugglingLevel e) then
      set_condition e LOCKDOWN
        (Z.min 100 (static_cast_int (smugglingLevel e * 2))) d
    else e in
  if negb (EconomicStateType_eqb (state e) oldState) then
    (GenerateNewsHeadline e oldState (state e) system, true)
  else (e, false).

(** The [switch] of [SystemEconomy::ApplyRecovery] that picks the recovery
    days of the current state, 14 by default. *)
Definition recoveryDays (e : SystemEconomy) : Z :=
  match state e with
  | BOOM => boomRecoveryDays (config e)
  | BUST => bustRecoveryDays (config e)
  | SHORTAGE => shortageRecoveryDays (config e)
  | SURPLUS => surplusRecoveryDays (config e)
  | LOCKDOWN => lockdownRecoveryDays (config e)
  | STABLE => 14
  end.

(** [SystemEconomy::ApplyRecovery]. The quotient [100 / recoveryDays] is the
    truncating integer division; the source leaves it undefined when the
    recovery days are 0, a value that [EconomicConfig::Load] never stores. *)
Definition ApplyRecovery (e : SystemEconomy) (d : Date)
  : SystemEconomy * bool :=
  if EconomicStateType_eqb (state e) STABLE then (e, false)
  else
    let dailyRecovery := Z.max 1 (Z.quot 100 (recoveryDays e)) in
    let e := set_stateStrength e (Z.max 0 (stateStrength e - dailyRecovery)) in
    if Z.leb (stateStrength e) 0 then
      let oldState := state e in
      let e := set_condition e STABLE (stateStrength e) d in
      let e := set_affectedCommodity e EmptyString in
      (GenerateNewsHeadline e oldState (state e) None, true)
    else (e, false).

(** [SystemEconomy::StepDaily]. *)
Definition StepDaily (e : SystemEconomy) (d : Date) (system : option System)
    (rnd : NPCRandom) : SystemEconomy * bool :=
  let e :=
    set_counters e
      (merchantLosses e * DAILY_COUNTER_DECAY)
      (pirateLosses e * DAILY_COUNTER_DECAY)
      (tradeVolume e * DAILY_COUNTER_DECAY)
      (smugglingLevel e * DAILY_COUNTER_DECAY) in
  let e := SimulateNPCActivity e d system rnd in
  let '(e, stateChanged) := EvaluateStateTransition e d system in
  let '(e, stateChanged) :=
    if negb stateChanged && negb (EconomicStateType_eqb (state e) STABLE)
    then ApplyRecovery e d
    else (e, stateChanged) in
  (set_significantChange e stateChanged, stateChanged).

(** *** Cascade propagation *)

(** The locals of [SystemEconomy::PropagateEffects]: the [visited] set and
    the [toVisit] queue, together with the calls of
    [neighborEcon.RecordEvent] made so far (each with the empty commodity
    and not caused by the player), as (neighbour, type, magnitude) in the
    order of the calls. *)
Record Cascade : Type := {
  visited : gset N;
  toVisit : list (N * Z);
  recorded : list (N * EconomicEventType * Z)
}.

(** The body of [for(const System *neighbor : current->Links())]. *)
Definition visit_neighbor (ty : EconomicEventType) (mag distance : Z)
    (c : Cascade) (neighbor : N) : Cascade :=
  if is_null neighbor || bool_decide (neighbor ∈ visited c) then c
  else
    let visited' := {[neighbor]} ∪ visited c in
    let pm := propagatedMagnitude mag distance in
    if Z.leb pm 0 then
      {| visited := visited'; toVisit := toVisit c; recorded := recorded c |}
    else
      {| visited := visited';
         toVisit := toVisit c ++ [(neighbor, distance + 1)];
         recorded := recorded c ++ [(neighbor, ty, pm)] |}.

(** One iteration of [while(!toVisit.empty())]; [None] when the queue is
    empty and the loop is left. *)
Definition cascade_step (radius : Z) (ty : EconomicEventType) (mag : Z)
    (c : Cascade) : option Cascade :=
  match toVisit c with
  | [] => None
  | (current, distance) :: rest =>
      let c :=
        {| visited := visited c; toVisit := rest; recorded := recorded c |} in
      if Z.leb radius distance then Some c
      else
        Some (fold_left (visit_neighbor ty mag distance)
                (Links (system_at current)) c)
  end.

(** The [while] loop, run for at most [fuel] iterations; [None] when the
    iterations allowed do not empty the queue. *)
Fixpoint cascade_loop (fuel : nat) (radius : Z) (ty : EconomicEventType)
    (mag : Z) (c : Cascade) : option Cascade :=
  match cascade_step radius ty mag c with
  | None => Some c
  | Some c' =>
      match fuel with
      | O => None
      | S fuel' => cascade_loop fuel' radius ty mag c'
      end
  end.

(** [SystemEconomy::PropagateEffects], called on the economy [e] of the
    location [system]: the list of the calls to [RecordEvent] it makes on the
    economies of other locations. *)
Definition PropagateEffects (fuel : nat) (e : SystemEconomy) (system : N)
    (ty : EconomicEventType) (mag : Z)
  : option (list (N * EconomicEventType * Z)) :=
  if is_null system || Z.leb (cascadeRadius (config e)) 0 || Z.leb mag 0
  then Some []
  else
    option_map recorded
      (cascade_loop fuel (cascadeRadius (config e)) ty mag
         {| visited := {[system]};
            toVisit := [(system, 0)];
            recorded := [] |}).

(** The vocabulary of the design document for the cascade: a location [n]
    is one hop from [s] when [n] is a non-null element of [s->Links()]; a
    [path k s n] is a chain of [k] hops from [s] to [n]; the hop distance
    from [s] to [n] is the length of a shortest chain. *)
Definition edge (s n : N) : Prop :=
  In n (Links (system_at s)) /\ n <> 0%N.

Inductive path : nat -> N -> N -> Prop :=
| path_here (s : N) : path O s s
| path_hop (k : nat) (s p n : N) :
    path k s p -> edge p n -> path (S k) s n.

Definition hop_distance (s n : N) (d : nat) : Prop :=
  path d s n /\ forall k, path k s n -> (d <= k)%nat.

(** A finite location graph: a list of locations that contains every
    non-null link of each of its elements. *)
Definition closed_under_links (universe : list N) : bool :=
  forallb
    (fun s =>
       forallb (fun n => is_null n || existsb (N.eqb n) universe)
         (Links (system_at s)))
    universe.

(** [class EconomicManager]: its data members. *)
Record EconomicManager : Type := {
  systemEconomies : gmap N SystemEconomy;
  defaultConfig : EconomicConfig;
  blackMarketModifier : Q;
  blackMarketSystems : gset N
}.

Definition set_systemEconomies (m : EconomicManager)
    (s : gmap N SystemEconomy) : EconomicManager :=
  {| systemEconomies := s; defaultConfig := defaultConfig m;
     blackMarketModifier := blackMarketModifier m;
     blackMarketSystems := blackMarketSystems m |}.

(** [EconomicManager::GetSystemEconomy(system)] (the non-const overload):
    [systemEconomies[system]] inserts a default-constructed economy when the
    key is absent. Here the economy is read; the callers write it back. *)
Definition GetSystemEconomy (m : EconomicManager) (system : N)
  : SystemEconomy :=
  default SystemEconomy_new (systemEconomies m !! system).

(** One call of [RecordEvent] on [GetSystemEconomy(neighbor)], with the empty
    commodity and not caused by the player, on the manager. *)
Definition record_at (m : EconomicManager)
    (call : N * EconomicEventType * Z) : EconomicManager :=
  let '(neighbor, ty, mag) := call in
  set_systemEconomies m
    (<[neighbor :=
        RecordEvent (GetSystemEconomy m neighbor) ty mag EmptyString false]>
       (systemEconomies m)).

(** [EconomicManager::RecordEvent]. *)
Definition Manager_RecordEvent (fuel : nat) (m : EconomicManager)
    (system : N) (ty : EconomicEventType) (mag : Z) (com : string)
    (player : bool) : option EconomicManager :=
  if is_null system then Some m
  else
    let economy := RecordEvent (GetSystemEconomy m system) ty mag com player in
    let m := set_systemEconomies m (<[system := economy]> (systemEconomies m)) in
    let shouldCascade :=
      match ty with
      | MERCHANT_DESTROYED | CONVOY_ATTACKED | BLOCKADE_ACTIVE
      | WAR_STARTED | WAR_ENDED => true
      | LARGE_PURCHASE | LARGE_SALE => Z.leb 1000 mag
      | SMUGGLING_DETECTED => Z.leb 100 mag
      | _ => false
      end in
    if shouldCascade then
      match PropagateEffects fuel economy system ty mag with
      | Some calls => Some (fold_left record_at calls m)
      | None => None
      end
    else Some m.

End WithDate.

(** *** Loading a configuration *)

(** What [EconomicConfig::Load] reads of a child of the [DataNode]: its
    first token, its number of tokens and the number that its second token
    holds. *)
Record DataLine : Type := {
  Token0 : string;
  Size : Z;
  Value1 : Q
}.

(** The configuration with one member assigned. *)
Definition set_boomRecoveryDays (c : EconomicConfig) (v : Z)
  : EconomicConfig :=
  {| boomRecoveryDays := v;
     bustRecoveryDays := bustRecoveryDays c;
     shortageRecoveryDays := shortageRecoveryDays c;
     surplusRecoveryDays := surplusRecoveryDays c;
     lockdownRecoveryDays := lockdownRecoveryDays c;
     merchantLossThreshold := merchantLossThreshold c;
     pirateLossThreshold := pirateLossThreshold c;
     tradeVolumeThreshold := tradeVolumeThreshold c;
     smugglingThreshold := smugglingThreshold c;
     bulkTradeThreshold := bulkTradeThreshold c;
     boomBuyModifier := boomBuyModifier c;
     boomSellModifier := boomSellModifier c;
     bustBuyModifier := bustBuyModifier c;
     bustSellModifier := bustSellModifier c;
     shortageModifier := shortageModifier c;
     surplusModifier := surplusModifier c;
     blackMarketBuyModifier := blackMarketBuyModifier c;
     blackMarketSellModifier := blackMarketSellModifier c;
     blackMarketDetectionChance := blackMarketDetectionChance c;
     cascadeRadius := cascadeRadius c |}.

Definition set_bustRecoveryDays (c : EconomicConfig) (v : Z)
  : EconomicConfig :=
  {| boomRecoveryDays := boomRecoveryDays c;
     bustRecoveryDays := v;
     shortageRecoveryDays := shortageRecoveryDays c;
     surplusRecoveryDays := surplusRecoveryDays c;
     lockdownRecoveryDays := lockdownRecoveryDays c;
     merchantLossThreshold := merchantLossThreshold c;
     pirateLossThreshold := pirateLossThreshold c;
     tradeVolumeThreshold := tradeVolumeThreshold c;
     smugglingThreshold := smugglingThreshold c;
     bulkTradeThreshold := bulkTradeThreshold c;
     boomBuyModifier := boomBuyModifier c;
     boomSellModifier := boomSellModifier c;
     bustBuyModifier := bustBuyModifier c;
     bustSellModifier := bustSellModifier c;
     shortageModifier := shortageModifier c;
     surplusModifier := surplusModifier c;
     blackMarketBuyModifier := blackMarketBuyModifier c;
     blackMarketSellModifier := blackMarketSellModifier c;
     blackMarketDetectionChance := blackMarketDetectionChance c;
     cascadeRadius := cascadeRadius c |}.

Definition set_shortageRecoveryDays (c : EconomicConfig) (v : Z)
  : EconomicConfig :=
  {| boomRecoveryDays := boomRecoveryDays c;
     bustRecoveryDays := bustRecoveryDays c;
     shortageRecoveryDays := v;
     surplusRecoveryDays := surplusRecoveryDays c;
     lockdownRecoveryDays := lockdownRecoveryDays c;
     merchantLossThreshold := merchantLossThreshold c;
     pirateLossThreshold := pirateLossThreshold c;
     tradeVolumeThreshold := tradeVolumeThreshold c;
     smugglingThreshold := smugglingThreshold c;
     bulkTradeThreshold := bulkTradeThreshold c;
     boomBuyModifier := boomBuyModifier c;
     boomSellModifier := boomSellModifier c;
     bustBuyModifier := bustBuyModifier c;
     bustSellModifier := bustSellModifier c;
     shortageModifier := shortageModifier c;
     surplusModifier := surplusModifier c;
     blackMarketBuyModifier := blackMarketBuyModifier c;
     blackMarketSellModifier := blackMarketSellModifier c;
     blackMarketDetectionChance := blackMarketDetectionChance c;
     cascadeRadius := cascadeRadius c |}.

Definition set_surplusRecoveryDays (c : EconomicConfig) (v : Z)
  : EconomicConfig :=
  {| boomRecoveryDays := boomRecoveryDays c;
     bustRecoveryDays := bustRecoveryDays c;
     shortageRecoveryDays := shortageRecoveryDays c;
     surplusRecoveryDays := v;
     lockdownRecoveryDays := lockdownRecoveryDays c;
     merchantLossThreshold := merchantLossThreshold c;
     pirateLossThreshold := pirateLossThreshold c;
     tradeVolumeThreshold := tradeVolumeThreshold c;
     smugglingThreshold := smugglingThreshold c;
     bulkTradeThreshold := bulkTradeThreshold c;
     boomBuyModifier := boomBuyModifier c;
     boomSellModifier := boomSellModifier c;
     bustBuyModifier := bustBuyModifier c;
     bustSellModifier := bustSellModifier c;
     shortageModifier := shortageModifier c;
     surplusModifier := surplusModifier c;
     blackMarketBuyModifier := blackMarketBuyModifier c;
     blackMarketSellModifier := blackMarketSellModifier c;
     blackMarketDetectionChance := blackMarketDetectionChance c;
     cascadeRadius := cascadeRadius c |}.

Definition set_lockdownRecoveryDays (c : EconomicConfig) (v : Z)
  : EconomicConfig :=
  {| boomRecoveryDays := boomRecoveryDays c;
     bustRecoveryDays := bustRecoveryDays c;
     shortageRecoveryDays := shortageRecoveryDays c;
     surplusRecoveryDays := surplusRecoveryDays c;
     lockdownRecoveryDays := v;
     merchantLossThreshold := merchantLossThreshold c;
     pirateLossThreshold := pirateLossThreshold c;
     tradeVolumeThreshold := tradeVolumeThreshold c;
     smugglingThreshold := smugglingThreshold c;
     bulkTradeThreshold := bulkTradeThreshold c;
     boomBuyModifier := boomBuyModifier c;
     boomSellModifier := boomSellModifier c;
     bustBuyModifier := bustBuyModifier c;
     bustSellModifier := bustSellModifier c;
     shortageModifier := shortageModifier c;
     surplusModifier := surplusModifier c;
     blackMarketBuyModifier := blackMarketBuyModifier c;
     blackMarketSellModifier := blackMarketSellModifier c;
     blackMarketDetectionChance := blackMarketDetectionChance c;
     cascadeRadius := cascadeRadius c |}.

Definition set_merchantLossThreshold (c : EconomicConfig) (v : Z)
  : EconomicConfig :=
  {| boomRecoveryDays := boomRecoveryDays c;
     bustRecoveryDays := bustRecoveryDays c;
     shortageRecoveryDays := shortageRecoveryDays c;
     surplusRecoveryDays := surplusRecoveryDays c;
     lockdownRecoveryDays := lockdownRecoveryDays c;
     merchantLossThreshold := v;
     pirateLossThreshold := pirateLossThreshold c;
     tradeVolumeThreshold := tradeVolumeThreshold c;
     smugglingThreshold := smugglingThreshold c;
     bulkTradeThreshold := bulkTradeThreshold c;
     boomBuyModifier := boomBuyModifier c;
     boomSellModifier := boomSellModifier c;
     bustBuyModifier := bustBuyModifier c;
     bustSellModifier := bustSellModifier c;
     shortageModifier := shortageModifier c;
     surplusModifier := surplusModifier c;
     blackMarketBuyModifier := blackMarketBuyModifier c;
     blackMarketSellModifier := blackMarketSellModifier c;
     blackMarketDetectionChance := blackMarketDetectionChance c;
     cascadeRadius := cascadeRadius c |}.

Definition set_pirateLossThreshold (c : EconomicConfig) (v : Z)
  : EconomicConfig :=
  {| boomRecoveryDays := boomRecoveryDays c;
     bustRecoveryDays := bustRecoveryDays c;
     shortageRecoveryDays := shortageRecoveryDays c;
     surplusRecoveryDays := surplusRecoveryDays c;
     lockdownRecoveryDays := lockdownRecoveryDays c;
     merchantLossThreshold := merchantLossThreshold c;
     pirateLossThreshold := v;
     tradeVolumeThreshold := tradeVolumeThreshold c;
     smugglingThreshold := smugglingThreshold c;
     bulkTradeThreshold := bulkTradeThreshold c;
     boomBuyModifier := boomBuyModifier c;
     boomSellModifier := boomSellModifier c;
     bustBuyModifier := bustBuyModifier c;
     bustSellModifier := bustSellModifier c;
     shortageModifier := shortageModifier c;
     surplusModifier := surplusModifier c;
     blackMarketBuyModifier := blackMarketBuyModifier c;
     blackMarketSellModifier := blackMarketSellModifier c;
     blackMarketDetectionChance := blackMarketDetectionChance c;
     cascadeRadius := cascadeRadius c |}.

Definition set_tradeVolumeThreshold (c : EconomicConfig) (v : Z)
  : EconomicConfig :=
  {| boomRecoveryDays := boomRecoveryDays c;
     bustRecoveryDays := bustRecoveryDays c;
     shortageRecoveryDays := shortageRecoveryDays c;
     surplusRecoveryDays := surplusRecoveryDays c;
     lockdownRecoveryDays := lockdownRecoveryDays c;
     merchantLossThreshold := merchantLossThreshold c;
     pirateLossThreshold := pirateLossThreshold c;
     tradeVolumeThreshold := v;
     smugglingThreshold := smugglingThreshold c;
     bulkTradeThreshold := bulkTradeThreshold c;
     boomBuyModifier := boomBuyModifier c;
     boomSellModifier := boomSellModifier c;
     bustBuyModifier := bustBuyModifier c;
     bustSellModifier := bustSellModifier c;
     shortageModifier := shortageModifier c;
     surplusModifier := surplusModifier c;
     blackMarketBuyModifier := blackMarketBuyModifier c;
     blackMarketSellModifier := blackMarketSellModifier c;
     blackMarketDetectionChance := blackMarketDetectionChance c;
     cascadeRadius := cascadeRadius c |}.

Definition set_smugglingThreshold (c : EconomicConfig) (v : Z)
  : EconomicConfig :=
  {| boomRecoveryDays := boomRecoveryDays c;
     bustRecoveryDays := bustRecoveryDays c;
     shortageRecoveryDays := shortageRecoveryDays c;
     surplusRecoveryDays := surplusRecoveryDays c;
     lockdownRecoveryDays := lockdownRecoveryDays c;
     merchantLossThreshold := merchantLossThreshold c;
     pirateLossThreshold := pirateLossThreshold c;
     tradeVolumeThreshold := tradeVolumeThreshold c;
     smugglingThreshold := v;
     bulkTradeThreshold := bulkTradeThreshold c;
     boomBuyModifier := boomBuyModifier c;
     boomSellModifier := boomSellModifier c;
     bustBuyModifier := bustBuyModifier c;
     bustSellModifier := bustSellModifier c;
     shortageModifier := shortageModifier c;
     surplusModifier := surplusModifier c;
     blackMarketBuyModifier := blackMarketBuyModifier c;
     blackMarketSellModifier := blackMarketSellModifier c;
     blackMarketDetectionChance := blackMarketDetectionChance c;
     cascadeRadius := cascadeRadius c |}.

Definition set_bulkTradeThreshold (c : EconomicConfig) (v : Z)
  : EconomicConfig :=
  {| boomRecoveryDays := boomRecoveryDays c;
     bustRecoveryDays := bustRecoveryDays c;
     shortageRecoveryDays := shortageRecoveryDays c;
     surplusRecoveryDays := surplusRecoveryDays c;
     lockdownRecoveryDays := lockdownRecoveryDays c;
     merchantLossThreshold := merchantLossThreshold c;
     pirateLossThreshold := pirateLossThreshold c;
     tradeVolumeThreshold := tradeVolumeThreshold c;
     smugglingThreshold := smugglingThreshold c;
     bulkTradeThreshold := v;
     boomBuyModifier := boomBuyModifier c;
     boomSellModifier := boomSellModifier c;
     bustBuyModifier := bustBuyModifier c;
     bustSellModifier := bustSellModifier c;
     shortageModifier := shortageModifier c;
     surplusModifier := surplusModifier c;
     blackMarketBuyModifier := blackMarketBuyModifier c;
     blackMarketSellModifier := blackMarketSellModifier c;
     blackMarketDetectionChance := blackMarketDetectionChance c;
     cascadeRadius := cascadeRadius c |}.

Definition set_boomBuyModifier (c : EconomicConfig) (v : Q)
  : EconomicConfig :=
  {| boomRecoveryDays := boomRecoveryDays c;
     bustRecoveryDays := bustRecoveryDays c;
     shortageRecoveryDays := shortageRecoveryDays c;
     surplusRecoveryDays := surplusRecoveryDays c;
     lockdownRecoveryDays := lockdownRecoveryDays c;
     merchantLossThreshold := merchantLossThreshold c;
     pirateLossThreshold := pirateLossThreshold c;
     tradeVolumeThreshold := tradeVolumeThreshold c;
     smugglingThreshold := smugglingThreshold c;
     bulkTradeThreshold := bulkTradeThreshold c;
     boomBuyModifier := v;
     boomSellModifier := boomSellModifier c;
     bustBuyModifier := bustBuyModifier c;
     bustSellModifier := bustSellModifier c;
     shortageModifier := shortageModifier c;
     surplusModifier := surplusModifier c;
     blackMarketBuyModifier := blackMarketBuyModifier c;
     blackMarketSellModifier := blackMarketSellModifier c;
     blackMarketDetectionChance := blackMarketDetectionChance c;
     cascadeRadius := cascadeRadius c |}.

Definition set_boomSellModifier (c : EconomicConfig) (v : Q)
  : EconomicConfig :=
  {| boomRecoveryDays := boomRecoveryDays c;
     bustRecoveryDays := bustRecoveryDays c;
     shortageRecoveryDays := shortageRecoveryDays c;
     surplusRecoveryDays := surplusRecoveryDays c;
     lockdownRecoveryDays := lockdownRecoveryDays c;
     merchantLossThreshold := merchantLossThreshold c;
     pirateLossThreshold := pirateLossThreshold c;
     tradeVolumeThreshold := tradeVolumeThreshold c;
     smugglingThreshold := smugglingThreshold c;
     bulkTradeThreshold := bulkTradeThreshold c;
     boomBuyModifier := boomBuyModifier c;
     boomSellModifier := v;
     bustBuyModifier := bustBuyModifier c;
     bustSellModifier := bustSellModifier c;
     shortageModifier := shortageModifier c;
     surplusModifier := surplusModifier c;
     blackMarketBuyModifier := blackMarketBuyModifier c;
     blackMarketSellModifier := blackMarketSellModifier c;
     blackMarketDetectionChance := blackMarketDetectionChance c;
     cascadeRadius := cascadeRadius c |}.

Definition set_bustBuyModifier (c : EconomicConfig) (v : Q)
  : EconomicConfig :=
  {| boomRecoveryDays := boomRecoveryDays c;
     bustRecoveryDays := bustRecoveryDays c;
     shortageRecoveryDays := shortageRecoveryDays c;
     surplusRecoveryDays := surplusRecoveryDays c;
     lockdownRecoveryDays := lockdownRecoveryDays c;
     merchantLossThreshold := merchantLossThreshold c;
     pirateLossThreshold := pirateLossThreshold c;
     tradeVolumeThreshold := tradeVolumeThreshold c;
     smugglingThreshold := smugglingThreshold c;
     bulkTradeThreshold := bulkTradeThreshold c;
     boomBuyModifier := boomBuyModifier c;
     boomSellModifier := boomSellModifier c;
     bustBuyModifier := v;
     bustSellModifier := bustSellModifier c;
     shortageModifier := shortageModifier c;
     surplusModifier := surplusModifier c;
     blackMarketBuyModifier := blackMarketBuyModifier c;
     blackMarketSellModifier := blackMarketSellModifier c;
     blackMarketDetectionChance := blackMarketDetectionChance c;
     cascadeRadius := cascadeRadius c |}.

Definition set_bustSellModifier (c : EconomicConfig) (v : Q)
  : EconomicConfig :=
  {| boomRecoveryDays := boomRecoveryDays c;
     bustRecoveryDays := bustRecoveryDays c;
     shortageRecoveryDays := shortageRecoveryDays c;
     surplusRecoveryDays := surplusRecoveryDays c;
     lockdownRecoveryDays := lockdownRecoveryDays c;
     merchantLossThreshold := merchantLossThreshold c;
     pirateLossThreshold := pirateLossThreshold c;
     tradeVolumeThreshold := tradeVolumeThreshold c;
     smugglingThreshold := smugglingThreshold c;
     bulkTradeThreshold := bulkTradeThreshold c;
     boomBuyModifier := boomBuyModifier c;
     boomSellModifier := boomSellModifier c;
     bustBuyModifier := bustBuyModifier c;
     bustSellModifier := v;
     shortageModifier := shortageModifier c;
     surplusModifier := surplusModifier c;
     blackMarketBuyModifier := blackMarketBuyModifier c;
     blackMarketSellModifier := blackMarketSellModifier c;
     blackMarketDetectionChance := blackMarketDetectionChance c;
     cascadeRadius := cascadeRadius c |}.

Definition set_shortageModifier (c : EconomicConfig) (v : Q)
  : EconomicConfig :=
  {| boomRecoveryDays := boomRecoveryDays c;
     bustRecoveryDays := bustRecoveryDays c;
     shortageRecoveryDays := shortageRecoveryDays c;
     surplusRecoveryDays := surplusRecoveryDays c;
     lockdownRecoveryDays := lockdownRecoveryDays c;
     merchantLossThreshold := merchantLossThreshold c;
     pirateLossThreshold := pirateLossThreshold c;
     tradeVolumeThreshold := tradeVolumeThreshold c;
     smugglingThreshold := smugglingThreshold c;
     bulkTradeThreshold := bulkTradeThreshold c;
     boomBuyModifier := boomBuyModifier c;
     boomSellModifier := boomSellModifier c;
     bustBuyModifier := bustBuyModifier c;
     bustSellModifier := bustSellModifier c;
     shortageModifier := v;
     surplusModifier := surplusModifier c;
     blackMarketBuyModifier := blackMarketBuyModifier c;
     blackMarketSellModifier := blackMarketSellModifier c;
     blackMarketDetectionChance := blackMarketDetectionChance c;
     cascadeRadius := cascadeRadius c |}.

Definition set_surplusModifier (c : EconomicConfig) (v : Q)
  : EconomicConfig :=
  {| boomRecoveryDays := boomRecoveryDays c;
     bustRecoveryDays := bustRecoveryDays c;
     shortageRecoveryDays := shortageRecoveryDays c;
     surplusRecoveryDays := surplusRecoveryDays c;
     lockdownRecoveryDays := lockdownRecoveryDays c;
     merchantLossThreshold := merchantLossThreshold c;
     pirateLossThreshold := pirateLossThreshold c;
     tradeVolumeThreshold := tradeVolumeThreshold c;
     smugglingThreshold := smugglingThreshold c;
     bulkTradeThreshold := bulkTradeThreshold c;
     boomBuyModifier := boomBuyModifier c;
     boomSellModifier := boomSellModifier c;
     bustBuyModifier := bustBuyModifier c;
     bustSellModifier := bustSellModifier c;
     shortageModifier := shortageModifier c;
     surplusModifier := v;
     blackMarketBuyModifier := blackMarketBuyModifier c;
     blackMarketSellModifier := blackMarketSellModifier c;
     blackMarketDetectionChance := blackMarketDetectionChance c;
     cascadeRadius := cascadeRadius c |}.

Definition set_cascadeRadius (c : EconomicConfig) (v : Z)
  : EconomicConfig :=
  {| boomRecoveryDays := boomRecoveryDays c;
     bustRecoveryDays := bustRecoveryDays c;
     shortageRecoveryDays := shortageRecoveryDays c;
     surplusRecoveryDays := surplusRecoveryDays c;
     lockdownRecoveryDays := lockdownRecoveryDays c;
     merchantLossThreshold := merchantLossThreshold c;
     pirateLossThreshold := pirateLossThreshold c;
     tradeVolumeThreshold := tradeVolumeThreshold c;
     smugglingThreshold := smugglingThreshold c;
     bulkTradeThreshold := bulkTradeThreshold c;
     boomBuyModifier := boomBuyModifier c;
     boomSellModifier := boomSellModifier c;
     bustBuyModifier := bustBuyModifier c;
     bustSellModifier := bustSellModifier c;
     shortageModifier := shortageModifier c;
     surplusModifier := surplusModifier c;
     blackMarketBuyModifier := blackMarketBuyModifier c;
     blackMarketSellModifier := blackMarketSellModifier c;
     blackMarketDetectionChance := blackMarketDetectionChance c;
     cascadeRadius := v |}.

(** The body of the loop of [EconomicConfig::Load] for one child: the chain
    of [else if] on the key, each link also asking for two tokens. *)
Definition Load_line (c : EconomicConfig) (child : DataLine)
  : EconomicConfig :=
  let key := Token0 child in
  let two := Z.leb 2 (Size child) in
  if String.eqb key "boom recovery days" && two then
    set_boomRecoveryDays c (Z.max 1 (static_cast_int (Value1 child)))
  else if String.eqb key "bust recovery days" && two then
    set_bustRecoveryDays c (Z.max 1 (static_cast_int (Value1 child)))
  else if String.eqb key "shortage recovery days" && two then
    set_shortageRecoveryDays c (Z.max 1 (static_cast_int (Value1 child)))
  else if String.eqb key "surplus recovery days" && two then
    set_surplusRecoveryDays c (Z.max 1 (static_cast_int (Value1 child)))
  else if String.eqb key "lockdown recovery days" && two then
    set_lockdownRecoveryDays c (Z.max 1 (static_cast_int (Value1 child)))
  else if String.eqb key "merchant loss threshold" && two then
    set_merchantLossThreshold c (Z.max 1 (static_cast_int (Value1 child)))
  else if String.eqb key "pirate loss threshold" && two then
    set_pirateLossThreshold c (Z.max 1 (static_cast_int (Value1 child)))
  else if String.eqb key "trade volume threshold" && two then
    set_tradeVolumeThreshold c (Z.max 1 (static_cast_int (Value1 child)))
  else if String.eqb key "smuggling threshold" && two then
    set_smugglingThreshold c (Z.max 1 (static_cast_int (Value1 child)))
  else if String.eqb key "bulk trade threshold" && two then
    set_bulkTradeThreshold c (Z.max 1 (static_cast_int (Value1 child)))
  else if String.eqb key "boom buy modifier" && two then
    set_boomBuyModifier c (Value1 child)
  else if String.eqb key "boom sell modifier" && two then
    set_boomSellModifier c (Value1 child)
  else if String.eqb key "bust buy modifier" && two then
    set_bustBuyModifier c (Value1 child)
  else if String.eqb key "bust sell modifier" && two then
    set_bustSellModifier c (Value1 child)
  else if String.eqb key "shortage modifier" && two then
    set_shortageModifier c (Value1 child)
  else if String.eqb key "surplus modifier" && two then
    set_surplusModifier c (Value1 child)
  else if String.eqb key "cascade radius" && two then
    set_cascadeRadius c (Z.max 0 (static_cast_int (Value1 child)))
  else c.

(** [EconomicConfig::Load]: the children of the node, in order. *)
Definition EconomicConfig_Load (c : EconomicConfig) (node : list DataLine)
  : EconomicConfig :=
  fold_left Load_line node c.

(** *** Names written to and read from the saved game *)

(** The [switch] of [SystemEconomy::Save] that names the state. *)
Definition Save_stateName (s : EconomicStateType) : string :=
  match s with
  | STABLE => "stable"
  | BOOM => "boom"
  | BUST => "bust"
  | SHORTAGE => "shortage"
  | SURPLUS => "surplus"
  | LOCKDOWN => "lockdown"
  end.

(** The chain of [if] of [SystemEconomy::Load] that reads the name of the
    state: a name that is not known leaves the state as it is. *)
Definition Load_stateName (stateName : string) (current : EconomicStateType)
  : EconomicStateType :=
  if String.eqb stateName "stable" then STABLE
  else if String.eqb stateName "boom" then BOOM
  else if String.eqb stateName "bust" then BUST
  else if String.eqb stateName "shortage" then SHORTAGE
  else if String.eqb stateName "surplus" then SURPLUS
  else if String.eqb stateName "lockdown" then LOCKDOWN
  else current.

(** The [switch] of [SystemEconomy::Save] that names the type of an event. *)
Definition Save_typeName (ty : EconomicEventType) : string :=
  match ty with
  | MERCHANT_DESTROYED => "merchant destroyed"
  | PIRATE_DESTROYED => "pirate destroyed"
  | TRADE_COMPLETED => "trade completed"
  | LARGE_PURCHASE => "large purchase"
  | LARGE_SALE => "large sale"
  | SMUGGLING_DETECTED => "smuggling detected"
  | CONVOY_ATTACKED => "convoy attacked"
  | BLOCKADE_ACTIVE => "blockade active"
  | RELIEF_DELIVERED => "relief delivered"
  | WAR_STARTED => "war started"
  | WAR_ENDED => "war ended"
  end.

(** The chain of [if] of [SystemEconomy::Load] that reads the type of an
    event. *)
Definition Load_typeName (typeName : string) (current : EconomicEventType)
  : EconomicEventType :=
  if String.eqb typeName "merchant destroyed" then MERCHANT_DESTROYED
  else if String.eqb typeName "pirate destroyed" then PIRATE_DESTROYED
  else if String.eqb typeName "trade completed" then TRADE_COMPLETED
  else if String.eqb typeName "large purchase" then LARGE_PURCHASE
  else if String.eqb typeName "large sale" then LARGE_SALE
  else if String.eqb typeName "smuggling detected" then SMUGGLING_DETECTED
  else if String.eqb typeName "convoy attacked" then CONVOY_ATTACKED
  else if String.eqb typeName "blockade active" then BLOCKADE_ACTIVE
  else if String.eqb typeName "relief delivered" then RELIEF_DELIVERED
  else if String.eqb typeName "war started" then WAR_STARTED
  else if String.eqb typeName "war ended" then WAR_ENDED
  else current.

(** [SystemEconomy::GetStateName]. *)
Definition GetStateName (s : EconomicStateType) : string :=
  match s with
  | STABLE => "Stable"
  | BOOM => "Booming"
  | BUST => "Depressed"
  | SHORTAGE => "Shortage"
  | SURPLUS => "Surplus"
  | LOCKDOWN => "Lockdown"
  end.

Section Queries.

Context {Date : Type}.
Variable Date_default : Date.
Variable system_at : N -> System.

(** [SystemEconomy::Clear]; the configuration is kept. *)
Definition Clear (e : SystemEconomy (Date := Date))
  : SystemEconomy (Date := Date) :=
  {| state := STABLE; affectedCommodity := EmptyString; stateStrength := 0;
     stateChangeDate := Date_default;
     merchantLosses := 0; pirateLosses := 0; tradeVolume := 0;
     smugglingLevel := 0;
     recentEvents := []; newsHeadline := EmptyString;
     newsDate := Date_default; config := config e;
     significantChange := false |}.

(** [SystemEconomy::GetPriceModifier]. *)
Definition GetPriceModifier (e : SystemEconomy (Date := Date))
    (com : string) (buying : bool) : Q :=
  let modifier :=
    match state e with
    | STABLE => 1%Q
    | BOOM =>
        if buying then boomBuyModifier (config e)
        else boomSellModifier (config e)
    | BUST =>
        if buying then bustBuyModifier (config e)
        else bustSellModifier (config e)
    | SHORTAGE =>
        if String.eqb com (affectedCommodity e)
        then shortageModifier (config e) else 1%Q
    | SURPLUS =>
        if String.eqb com (affectedCommodity e)
        then surplusModifier (config e) else 1%Q
    | LOCKDOWN => 1%Q
    end in
  let strengthFactor := (inject_Z (stateStrength e) / 100)%Q in
  (1 + (modifier - 1) * strengthFactor)%Q.

(** [SystemEconomy::GetReputationModifier]. *)
Definition GetReputationModifier (reputation : Q) (buying : bool) : Q :=
  if Qle_bool (1000 # 1) reputation then
    if buying then 85 # 100 else 115 # 100
  else if Qle_bool (100 # 1) reputation then
    if buying then 90 # 100 else 110 # 100
  else if Qle_bool (10 # 1) reputation then
    if buying then 95 # 100 else 105 # 100
  else if Qle_bool reputation (-1000 # 1) then
    if buying then 120 # 100 else 80 # 100
  else if Qle_bool reputation (-100 # 1) then
    if buying then 115 # 100 else 85 # 100
  else if Qle_bool reputation (-10 # 1) then
    if buying then 105 # 100 else 95 # 100
  else 1%Q.

(** [SystemEconomy::IsTradingAllowed], [IsBlackMarketOnly]. *)
Definition IsTradingAllowed (e : SystemEconomy (Date := Date)) : bool :=
  negb (EconomicStateType_eqb (state e) LOCKDOWN).

Definition IsBlackMarketOnly (e : SystemEconomy (Date := Date)) : bool :=
  EconomicStateType_eqb (state e) LOCKDOWN.

(** [SystemEconomy::GetBlackMarketModifier],
    [GetBlackMarketDetectionChance]. *)
Definition GetBlackMarketModifier (e : SystemEconomy (Date := Date))
    (buying : bool) : Q :=
  if buying then blackMarketBuyModifier (config e)
  else blackMarketSellModifier (config e).

Definition GetBlackMarketDetectionChance (e : SystemEconomy (Date := Date))
  : Q := blackMarketDetectionChance (config e).

(** The [const System *] handed to [SystemEconomy::StepDaily] for the key
    [s] of the map. *)
Definition system_of (s : N) : option System :=
  if is_null s then None else Some (system_at s).

(** [EconomicManager::StepDaily]. [rnd s] holds the random values drawn while
    the location [s] is stepped. The headlines are those of the locations
    whose state changed, in the order in which the map is traversed. *)
Definition Manager_StepDaily (m : EconomicManager (Date := Date)) (d : Date)
    (rnd : N -> NPCRandom) : list string * EconomicManager :=
  let stepped :=
    map_imap (fun s e => Some (StepDaily e d (system_of s) (rnd s)))
      (systemEconomies m) in
  (omap (fun entry : N * (SystemEconomy * bool) =>
           let '(_, (e, changed)) := entry in
           if changed then
             match newsHeadline e with
             | EmptyString => None
             | headline => Some headline
             end
           else None)
        (map_to_list stepped),
   set_systemEconomies m (fst <$> stepped)).

(** [EconomicManager::Clear]. *)
Definition Manager_Clear (m : EconomicManager (Date := Date))
  : EconomicManager (Date := Date) :=
  {| systemEconomies := ∅; defaultConfig := defaultConfig m;
     blackMarketModifier := blackMarketModifier m;
     blackMarketSystems := ∅ |}.

(** [EconomicManager::GetSystemEconomy(system) const]: [None] is the null
    result. *)
Definition FindSystemEconomy (m : EconomicManager (Date := Date)) (s : N)
  : option SystemEconomy := systemEconomies m !! s.

(** [EconomicManager::GetSystemsInState]. *)
Definition GetSystemsInState (m : EconomicManager (Date := Date))
    (st : EconomicStateType) : list N :=
  map fst
    (List.filter (fun entry : N * SystemEconomy =>
                    EconomicStateType_eqb (GetState (snd entry)) st)
       (map_to_list (systemEconomies m))).

(** [EconomicManager::GetActiveEconomies]. *)
Definition GetActiveEconomies (m : EconomicManager (Date := Date)) : list N :=
  map fst
    (List.filter (fun entry : N * SystemEconomy =>
                    negb (EconomicStateType_eqb (GetState (snd entry)) STABLE))
       (map_to_list (systemEconomies m))).

(** [EconomicManager::SetDefaultConfig], [GetDefaultConfig]. *)
Definition SetDefaultConfig (m : EconomicManager (Date := Date))
    (c : EconomicConfig) : EconomicManager (Date := Date) :=
  {| systemEconomies := systemEconomies m; defaultConfig := c;
     blackMarketModifier := blackMarketModifier m;
     blackMarketSystems := blackMarketSystems m |}.

Definition GetDefaultConfig (m : EconomicManager (Date := Date))
  : EconomicConfig := defaultConfig m.

(** [EconomicManager::HasBlackMarket]. *)
Definition HasBlackMarket (m : EconomicManager (Date := Date)) (s : N)
  : bool :=
  if bool_decide (s ∈ blackMarketSystems m) then true
  else
    match FindSystemEconomy m s with
    | Some econ => IsBlackMarketOnly econ
    | None => false
    end.

End Queries.

End Economy.

(** ** WitnessSystem (source/WitnessSystem.h, .cpp) *)

Module Witness.

(** [namespace WitnessConstants]. *)
Definition DEFAULT_WITNESS_RANGE : Q := 5000 # 1.
Definition CLOAK_WITNESS_THRESHOLD : Q := 5 # 10.
Definition OBSERVER_CLOAK_THRESHOLD : Q := 8 # 10.
Definition REPORT_TRANSMISSION_TIME : Z := 60.
Definition CIVILIAN_REPORT_CHANCE : Q := 7 # 10.
Definition MILITARY_REPORT_CHANCE : Q := 95 # 100.
Definition SENSOR_RANGE_MULTIPLIER : Q := 15 # 10.

(** [name.find(part) != string::npos]. *)
Definition contains (name part : string) : bool :=
  match index 0 part name with
  | Some _ => true
  | None => false
  end.

(** What the engine reads of the game's [Government] class: the address of
    the object, [IsEnemy()] (of the player), [TrueName()] and
    [IsEnemy(other)]. *)
Record Government : Type := {
  gov_addr : N;
  IsEnemy : bool;
  TrueName : string;
  IsEnemyOf : N -> bool
}.

(** The pointer held in an optional government. *)
Definition gov_ptr (g : option Government) : N :=
  match g with
  | Some g => gov_addr g
  | None => 0%N
  end.

Section WithPoint.

(** The game's [Point] class and its [Distance] member. *)
Context {Point : Type}.
Variable Distance : Point -> Point -> Q.

(** What the engine reads of the game's [Ship] class: the address of the
    object (what [shared_ptr::get] returns), [IsDestroyed()],
    [IsDisabled()], [Position()], [Cloaking()], [Attributes().Get(name)] and
    [GetGovernment()] ([None] for the null pointer). *)
Record Ship : Type := {
  ship_addr : N;
  IsDestroyed : bool;
  IsDisabled : bool;
  Position : Point;
  Cloaking : Q;
  Attributes : string -> Q;
  GetGovernment : option Government
}.

(** The pointer held in a [const Ship *] argument; [None] is null. *)
Definition ship_ptr (s : option Ship) : N :=
  match s with
  | Some s => ship_addr s
  | None => 0%N
  end.

(** [struct WitnessInfo]. *)
Record WitnessInfo : Type := {
  ship : Ship;
  government : N;
  distance : Q;
  canReport : bool;
  hasSensors : bool;
  clarity : Q
}.

(** [class WitnessResult]. *)
Record WitnessResult : Type := {
  witnesses : list WitnessInfo
}.

Definition WitnessResult_new : WitnessResult := {| witnesses := [] |}.

(** [WitnessResult::AddWitness]. *)
Definition AddWitness (r : WitnessResult) (w : WitnessInfo) : WitnessResult :=
  {| witnesses := witnesses r ++ [w] |}.

(** [WitnessResult::HasWitnesses], [WitnessCount], [HasWitnessFrom]. *)
Definition HasWitnesses (r : WitnessResult) : bool :=
  match witnesses r with
  | [] => false
  | _ :: _ => true
  end.

Definition WitnessCount (r : WitnessResult) : nat := length (witnesses r).

Definition HasWitnessFrom (r : WitnessResult) (gov : N) : bool :=
  existsb (fun w => N.eqb (government w) gov) (witnesses r).

(** [WitnessResult::WasClearlyWitnessed], [GetMaxClarity]. *)
Definition WasClearlyWitnessed (r : WitnessResult) (threshold : Q) : bool :=
  existsb (fun w => Qle_bool threshold (clarity w)) (witnesses r).

Definition GetMaxClarity (r : WitnessResult) : Q :=
  fold_left (fun acc w => std_max acc (clarity w)) (witnesses r) 0%Q.

(** [WitnessSystem::HasEnhancedSensors]. *)
Definition HasEnhancedSensors (s : Ship) : bool :=
  Qltb 0 (Attributes s "cargo scan power"%string)
  || Qltb 0 (Attributes s "outfit scan power"%string)
  || Qltb 0 (Attributes s "tactical scan power"%string).

(** [WitnessSystem::GetWitnessRange]. *)
Definition GetWitnessRange (s : Ship) : Q :=
  let range := DEFAULT_WITNESS_RANGE in
  if HasEnhancedSensors s then (range * SENSOR_RANGE_MULTIPLIER)%Q
  else range.

(** [WitnessSystem::CanWitness]. *)
Definition CanWitness (observer : Ship) (eventLocation : Point)
    (perpetrator : option Ship) (range : Q) : bool :=
  let distance := Distance (Position observer) eventLocation in
  if Qltb range distance then false
  else if Qle_bool OBSERVER_CLOAK_THRESHOLD (Cloaking observer) then false
  else
    match perpetrator with
    | Some p =>
        if Qle_bool CLOAK_WITNESS_THRESHOLD (Cloaking p) then false
        else true
    | None => true
    end.

(** [WitnessSystem::CalculateClarity]. For a range other than 0 the
    quotient [distance / range] is the one of [Q]. For the range 0 the
    quotient of the doubles is an infinity or a NaN, and the clamp
    [max(0.0, min(1.0, clarity))] turns [1.0 - distance / range] into 0 for
    a positive distance (it is minus infinity) and into 1 otherwise (it is
    plus infinity, or a NaN, on which both comparisons of [std::min] and
    [std::max] are false). *)
Definition CalculateClarity (observer : Ship) (eventLocation : Point)
    (perpetrator : option Ship) (range : Q) : Q :=
  let distance := Distance (Position observer) eventLocation in
  let clarity :=
    if Qeq_bool range 0 then
      if Qltb 0 distance then 0%Q else 1%Q
    else
      let clarity := (1 - distance / range)%Q in
      std_max 0 (std_min 1 clarity) in
  let clarity :=
    match perpetrator with
    | Some p => (clarity * (1 - Cloaking p * (8 # 10)))%Q
    | None => clarity
    end in
  if HasEnhancedSensors observer then std_min 1 (clarity * (13 # 10))
  else clarity.

(** [WitnessSystem::WouldReport]; [victimGov] is a pointer. *)
Definition WouldReport (witness : Ship) (victimGov : N) : bool :=
  match GetGovernment witness with
  | None => false
  | Some witnessGov =>
      let reportChance := CIVILIAN_REPORT_CHANCE in
      let reportChance :=
        if IsEnemy witnessGov
           || contains (TrueName witnessGov) "Navy"
           || contains (TrueName witnessGov) "Militia"
           || contains (TrueName witnessGov) "Police"
        then MILITARY_REPORT_CHANCE
        else reportChance in
      if IsEnemy witnessGov then false
      else
        let reportChance :=
          if negb (is_null victimGov) && negb (IsEnemyOf witnessGov victimGov)
          then 1%Q
          else reportChance in
        Qle_bool (1 # 2) reportChance
  end.

(** The body of the loop of [WitnessSystem::CheckWitnesses] for one ship of
    [nearbyShips]: the witness added, if any. *)
Definition check_ship (eventLocation : Point) (perpetrator victim : option Ship)
    (customRange : Q) (s : Ship) : option WitnessInfo :=
  if N.eqb (ship_addr s) (ship_ptr perpetrator)
     || N.eqb (ship_addr s) (ship_ptr victim) then None
  else if IsDestroyed s || IsDisabled s then None
  else
    let range := GetWitnessRange s in
    let range := if Qltb 0 customRange then customRange else range in
    if negb (CanWitness s eventLocation perpetrator range) then None
    else
      let distance := Distance (Position s) eventLocation in
      let clarity := CalculateClarity s eventLocation perpetrator range in
      let gov := gov_ptr (GetGovernment s) in
      let canReport :=
        WouldReport s
          (match victim with
           | Some v => gov_ptr (GetGovernment v)
           | None => 0%N
           end) in
      let hasSensors := HasEnhancedSensors s in
      Some {| ship := s; government := gov; distance := distance;
              canReport := canReport; hasSensors := hasSensors;
              clarity := clarity |}.

(** [WitnessSystem::CheckWitnesses]. *)
Definition CheckWitnesses (eventLocation : Point)
    (perpetrator victim : option Ship) (nearbyShips : list Ship)
    (customRange : Q) : WitnessResult :=
  fold_left
    (fun result s =>
       match check_ship eventLocation perpetrator victim customRange s with
       | Some w => AddWitness result w
       | None => result
       end)
    nearbyShips WitnessResult_new.

End WithPoint.

(** [struct WitnessReport]. A [shared_ptr<Ship>] of [activeWitnesses] is the
    address it holds, which is all that the report compares. *)
Record WitnessReport : Type := {
  reportingGov : N;
  victimGov : N;
  eventType : Z;
  framesRemaining : Z;
  system : N;
  reputationImpact : Q;
  canBeSuppressed : bool;
  activeWitnesses : list N
}.

(** The six-argument constructor of [WitnessReport]: the two members it does
    not mention keep their default member initialisers. *)
Definition WitnessReport_new (reportingGov victimGov : N) (eventType frames : Z)
    (system : N) (impact : Q) : WitnessReport :=
  {| reportingGov := reportingGov; victimGov := victimGov;
     eventType := eventType; framesRemaining := frames; system := system;
     reputationImpact := impact;
     canBeSuppressed := true; activeWitnesses := [] |}.

Definition set_framesRemaining (r : WitnessReport) (frames : Z)
  : WitnessReport :=
  {| reportingGov := reportingGov r; victimGov := victimGov r;
     eventType := eventType r; framesRemaining := frames; system := system r;
     reputationImpact := reputationImpact r;
     canBeSuppressed := canBeSuppressed r;
     activeWitnesses := activeWitnesses r |}.

Definition set_activeWitnesses (r : WitnessReport) (l : list N)
  : WitnessReport :=
  {| reportingGov := reportingGov r; victimGov := victimGov r;
     eventType := eventType r; framesRemaining := framesRemaining r;
     system := system r; reputationImpact := reputationImpact r;
     canBeSuppressed := canBeSuppressed r;
     activeWitnesses := l |}.

(** [WitnessReport::Step]. *)
Definition Step (r : WitnessReport) : WitnessReport * bool :=
  let r :=
    if Z.ltb 0 (framesRemaining r)
    then set_framesRemaining r (framesRemaining r - 1)
    else r in
  (r, Z.leb (framesRemaining r) 0).

(** [WitnessReport::AllWitnessesEliminated]. *)
Definition AllWitnessesEliminated (r : WitnessReport) : bool :=
  canBeSuppressed r &&
  match activeWitnesses r with
  | [] => true
  | _ :: _ => false
  end.

(** [find_if] followed by [erase]: the first element equal to [s] is
    removed. *)
Fixpoint erase_first (s : N) (l : list N) : list N :=
  match l with
  | [] => []
  | x :: rest => if N.eqb x s then rest else x :: erase_first s rest
  end.

(** [WitnessReport::EliminateWitness]. *)
Definition EliminateWitness (r : WitnessReport) (s : N)
  : WitnessReport * bool :=
  if negb (canBeSuppressed r) then (r, false)
  else
    let r := set_activeWitnesses r (erase_first s (activeWitnesses r)) in
    (r, AllWitnessesEliminated r).

(** [class WitnessSystem]. *)
Record WitnessSystem : Type := {
  pendingReports : list WitnessReport
}.

Definition WitnessSystem_new : WitnessSystem := {| pendingReports := [] |}.

(** [WitnessSystem::QueueReport]. *)
Definition QueueReport (w : WitnessSystem) (r : WitnessReport)
  : WitnessSystem :=
  {| pendingReports := pendingReports w ++ [r] |}.

(** What the body of the loop of [WitnessSystem::StepReports] does with the
    report under the iterator. *)
Inductive Sweep : Type :=
| Discarded
| Ready (r : WitnessReport)
| Pending (r : WitnessReport).

Definition sweep_report (r : WitnessReport) : Sweep :=
  if AllWitnessesEliminated r then Discarded
  else
    let '(r', done) := Step r in
    if done then Ready r' else Pending r'.

(** The loop of [WitnessSystem::StepReports] from the iterator to the end of
    [pendingReports]: the reports pushed on [ready] and the reports left in
    the vector, both in the order of the vector. *)
Fixpoint sweep (pending : list WitnessReport)
  : list WitnessReport * list WitnessReport :=
  match pending with
  | [] => ([], [])
  | r :: rest =>
      let '(ready, kept) := sweep rest in
      match sweep_report r with
      | Discarded => (ready, kept)
      | Ready r' => (r' :: ready, kept)
      | Pending r' => (ready, r' :: kept)
      end
  end.

(** [WitnessSystem::StepReports]: the reports ready to be processed, and the
    system afterwards. *)
Definition StepReports (w : WitnessSystem)
  : list WitnessReport * WitnessSystem :=
  let '(ready, kept) := sweep (pendingReports w) in
  (ready, {| pendingReports := kept |}).

(** [WitnessSystem::NotifyShipDestroyed]. *)
Definition NotifyShipDestroyed (w : WitnessSystem) (s : N) : WitnessSystem :=
  {| pendingReports :=
       map (fun r => fst (EliminateWitness r s)) (pendingReports w) |}.

(** [WitnessSystem::Clear]. *)
Definition Clear (w : WitnessSystem) : WitnessSystem :=
  {| pendingReports := [] |}.

End Witness.
Lemma Qltb_true (a b : Q) : Qltb a b = true <-> (a < b)%Q.
Proof.
  unfold Qltb. rewrite negb_true_iff. split.
  - intros H. apply Qnot_le_lt. intros Hle.
    apply Qle_bool_iff in Hle. congruence.
  - intros H. destruct (Qle_bool b a) eqn:E; [|reflexivity].
    apply Qle_bool_iff in E. exfalso. apply (Qlt_not_le _ _ H E).
Qed.

Lemma Qltb_false (a b : Q) : Qltb a b = false <-> (b <= a)%Q.
Proof.
  unfold Qltb. rewrite negb_false_iff. apply Qle_bool_iff.
Qed.

Lemma Qle_bool_false (a b : Q) : Qle_bool a b = false <-> (b < a)%Q.
Proof.
  split.
  - intros H. apply Qnot_le_lt. intros Hle.
    apply Qle_bool_iff in Hle. congruence.
  - intros H. destruct (Qle_bool a b) eqn:E; [|reflexivity].
    apply Qle_bool_iff in E. exfalso. apply (Qlt_not_le _ _ H E).
Qed.

Lemma std_max_lower (a b : Q) : (a <= std_max a b)%Q.
Proof.
  unfold std_max. destruct (Qltb a b) eqn:E.
  - apply Qltb_true in E. apply Qlt_le_weak. exact E.
  - apply Qle_refl.
Qed.

Lemma std_min_upper (a b : Q) : (std_min a b <= a)%Q.
Proof.
  unfold std_min. destruct (Qltb b a) eqn:E.
  - apply Qltb_true in E. apply Qlt_le_weak. exact E.
  - apply Qle_refl.
Qed.

Lemma std_max_nonneg (b : Q) : (0 <= std_max 0 b)%Q.
Proof. apply std_max_lower. Qed.


(** The conversion always gives an [int]. *)
Lemma static_cast_int_range (x : Q) :
  INT_MIN <= static_cast_int x <= INT_MAX.
Proof.
  unfold static_cast_int. cbv zeta.
  destruct (Z.leb_spec INT_MIN (Z.quot (Qnum x) (Zpos (Qden x))));
    destruct (Z.leb_spec (Z.quot (Qnum x) (Zpos (Qden x))) INT_MAX);
    cbn [andb]; unfold INT_MIN, INT_MAX in *; lia.
Qed.

(** Below [2^31] the conversion of a value that is not negative is its
    integer part. *)
Lemma static_cast_int_lower (k : Z) (x : Q) :
  0 <= k -> (inject_Z k <= x)%Q -> (x < inject_Z (2 ^ 31))%Q ->
  k <= static_cast_int x.
Proof.
  intros Hk Hle Hlt. unfold static_cast_int. cbv zeta.
  destruct x as [p q]. unfold Qle in Hle. unfold Qlt in Hlt. simpl in *.
  rewrite Z.mul_1_r in Hle, Hlt.
  assert (Hp : 0 <= p) by nia.
  rewrite Z.quot_div_nonneg by lia.
  assert (Hlow : k <= p / Z.pos q) by (apply Z.div_le_lower_bound; lia).
  assert (Hup : p / Z.pos q < 2147483648)
    by (apply Z.div_lt_upper_bound; lia).
  destruct (Z.leb_spec INT_MIN (p / Z.pos q)) as [H1|H1];
    destruct (Z.leb_spec (p / Z.pos q) INT_MAX) as [H2|H2];
    cbn [andb]; unfold INT_MIN, INT_MAX in *; lia.
Qed.

Lemma static_cast_int_nonneg (x : Q) :
  (0 <= x)%Q -> (x < inject_Z (2 ^ 31))%Q -> 0 <= static_cast_int x.
Proof. intros H Hlt. apply static_cast_int_lower; [lia|exact H|exact Hlt]. Qed.

Lemma static_cast_int_inject (k : Z) :
  INT_MIN <= k <= INT_MAX -> static_cast_int (inject_Z k) = k.
Proof.
  intros [H1 H2]. unfold static_cast_int. simpl. rewrite Z.quot_1_r.
  apply Z.leb_le in H1, H2. rewrite H1, H2. reflexivity.
Qed.

Lemma std_max_lub (a b c : Q) : (a <= c)%Q -> (b <= c)%Q -> (std_max a b <= c)%Q.
Proof. intros Ha Hb. unfold std_max. destruct (Qltb a b); assumption. Qed.

Lemma std_min_glb (a b c : Q) : (c <= a)%Q -> (c <= b)%Q -> (c <= std_min a b)%Q.
Proof. intros Ha Hb. unfold std_min. destruct (Qltb b a); assumption. Qed.

Lemma std_max_upper (a b : Q) : (b <= std_max a b)%Q.
Proof.
  unfold std_max. destruct (Qltb a b) eqn:E; [apply Qle_refl|].
  apply Qltb_false in E. exact E.
Qed.

Lemma std_min_lower (a b : Q) : (std_min a b <= b)%Q.
Proof.
  unfold std_min. destruct (Qltb b a) eqn:E; [apply Qle_refl|].
  apply Qltb_false in E. exact E.
Qed.

Lemma std_max_nonneg_eq (b : Q) : (0 <= b)%Q -> (std_max 0 b == b)%Q.
Proof.
  intros Hb. unfold std_max. destruct (Qltb 0 b) eqn:E; [reflexivity|].
  apply Qltb_false in E. apply Qle_antisym; assumption.
Qed.

(** ** Properties of the reputation engine *)

Module ReputationFacts.
Import Reputation.

(** Turns the outcome of every comparison made by [GetThreshold] into an
    order fact of [Q]. *)
Ltac threshold_cases :=
  repeat match goal with
  | |- context [Qle_bool ?a ?b] =>
      let E := fresh "E" in
      destruct (Qle_bool a b) eqn:E;
      [apply Qle_bool_iff in E | apply Qle_bool_false in E]
  | |- context [Qltb ?a ?b] =>
      let E := fresh "E" in
      destruct (Qltb a b) eqn:E;
      [apply Qltb_true in E | apply Qltb_false in E]
  end.

Lemma GetThreshold_monotone (v1 v2 : Q) :
  (v1 <= v2)%Q ->
  threshold_int (GetThreshold v1) <= threshold_int (GetThreshold v2).
Proof.
  intros Hle. unfold GetThreshold.
  threshold_cases; simpl in *; try lia; exfalso; lra.
Qed.

Lemma threshold_int_inj (a b : ReputationThreshold) :
  threshold_int a = threshold_int b -> a = b.
Proof. destruct a, b; simpl; intros H; try reflexivity; discriminate H. Qed.

(** C1. [GetThreshold] is monotonic non-decreasing in the standing value, for
    the order WAR < HOSTILE < UNFRIENDLY < NEUTRAL < FRIENDLY < ALLIED <
    HONORED given by the enumerators' integer values; and it is a function of
    the value alone: it takes no manager and returns none, and two calls on
    equal values give the same threshold. *)
Theorem GetThreshold_monotone_pure (v1 v2 : Q) :
  (v1 <= v2)%Q ->
  threshold_int (GetThreshold v1) <= threshold_int (GetThreshold v2)
  /\ ((v2 <= v1)%Q -> GetThreshold v1 = GetThreshold v2).
Proof.
  intros Hle. split.
  - apply GetThreshold_monotone, Hle.
  - intros Hge. apply threshold_int_inj.
    apply Z.le_antisymm; apply GetThreshold_monotone; assumption.
Qed.

Lemma GetThreshold_monotone_pure_witness :
  (threshold_int (GetThreshold (20 # 1)) <= threshold_int (GetThreshold (30 # 1))
   /\ ((30 # 1 <= 20 # 1)%Q -> GetThreshold (20 # 1) = GetThreshold (30 # 1)))
  /\ GetThreshold (20 # 1) = NEUTRAL /\ GetThreshold (30 # 1) = FRIENDLY.
Proof.
  split.
  - apply (GetThreshold_monotone_pure (20 # 1) (30 # 1)).
    unfold Qle; simpl; lia.
  - split; reflexivity.
Defined.

(** The seven bands of [GetThreshold], as the header describes them. *)
Lemma GetThreshold_bands (v : Q) :
  match GetThreshold v with
  | WAR => (v <= -100 # 1)%Q
  | HOSTILE => (-100 # 1 < v /\ v <= -50 # 1)%Q
  | UNFRIENDLY => (-50 # 1 < v /\ v <= -25 # 1)%Q
  | NEUTRAL => (-25 # 1 < v /\ v < 25 # 1)%Q
  | FRIENDLY => (25 # 1 <= v /\ v < 50 # 1)%Q
  | ALLIED => (50 # 1 <= v /\ v < 100 # 1)%Q
  | HONORED => (100 # 1 <= v)%Q
  end.
Proof.
  unfold GetThreshold. threshold_cases; simpl in *;
    unfold inject_Z in *; try match goal with |- _ /\ _ => split end; lra.
Qed.

Section WithDate.

Context {Date : Type}.
Variable Date_default : Date.

(** C2. Decay of a standing strictly above the neutral point never ends
    below the neutral point, and recovery of a standing strictly below it
    never ends above it, whatever the configured and effective rates are
    (the manager, hence the rates, are arbitrary; they may exceed 1). *)
Theorem ApplyDecay_never_overshoots (m : ReputationManager (Date := Date))
    (gov : N) (currentRep : Q) (currentDate : Date) :
  ((neutralPoint (GetConfig m gov) < currentRep)%Q ->
   (neutralPoint (GetConfig m gov) <= ApplyDecay m gov currentRep currentDate)%Q)
  /\
  ((currentRep < neutralPoint (GetConfig m gov))%Q ->
   (ApplyDecay m gov currentRep currentDate <= neutralPoint (GetConfig m gov))%Q).
Proof.
  unfold ApplyDecay. split; intros H.
  - apply Qltb_true in H. rewrite H. apply std_max_lower.
  - assert (Hn : Qltb (neutralPoint (GetConfig m gov)) currentRep = false).
    { apply Qltb_false. apply Qlt_le_weak. exact H. }
    rewrite Hn. apply Qltb_true in H. rewrite H. apply std_min_upper.
Qed.

(** The effective rates are never negative. *)
Lemma GetEffectiveDecayRate_nonneg (m : ReputationManager (Date := Date))
    (gov : N) : (0 <= GetEffectiveDecayRate m gov)%Q.
Proof. unfold GetEffectiveDecayRate. apply std_max_nonneg. Qed.

Lemma GetEffectiveRecoveryRate_nonneg (m : ReputationManager (Date := Date))
    (gov : N) : (0 <= GetEffectiveRecoveryRate m gov)%Q.
Proof. unfold GetEffectiveRecoveryRate. apply std_max_nonneg. Qed.

Lemma GetConfig_RecordAtrocity (m : ReputationManager (Date := Date))
    (gov g : N) (d : Date) :
  GetConfig (RecordAtrocity Date_default m gov d) g = GetConfig m g.
Proof.
  unfold RecordAtrocity, GetConfig, GetOrCreateState.
  destruct (is_null gov); [reflexivity|].
  destruct (states m !! gov); reflexivity.
Qed.

(** C10. [HasUnforgivenAtrocity] is true exactly when the state of the
    government records a committed atrocity and its effective configuration
    never forgives atrocities. So under a configuration that does forgive,
    it is false for every manager, also for the one that [RecordAtrocity]
    has just returned, whatever the forgiveness window is. *)
Theorem HasUnforgivenAtrocity_iff (m : ReputationManager (Date := Date))
    (gov : N) :
  (HasUnforgivenAtrocity m gov = true <->
   (exists st, states m !! gov = Some st /\ hasCommittedAtrocity st = true)
   /\ forgivesAtrocities (GetConfig m gov) = false)
  /\
  (forgivesAtrocities (GetConfig m gov) = true ->
   HasUnforgivenAtrocity m gov = false
   /\ forall d : Date,
        HasUnforgivenAtrocity (RecordAtrocity Date_default m gov d) gov = false).
Proof.
  assert (Hiff : forall m' : ReputationManager (Date := Date),
    HasUnforgivenAtrocity m' gov = true <->
    (exists st, states m' !! gov = Some st /\ hasCommittedAtrocity st = true)
    /\ forgivesAtrocities (GetConfig m' gov) = false).
  { intros m'. unfold HasUnforgivenAtrocity.
    destruct (states m' !! gov) as [st|] eqn:Est.
    - destruct (hasCommittedAtrocity st) eqn:Ea; simpl.
      + rewrite negb_true_iff. split.
        * intros Hf. split; [exists st; split; [reflexivity|exact Ea]|exact Hf].
        * intros [_ Hf]. exact Hf.
      + split; [discriminate|].
        intros [[st' [Hst' Ha]] _]. congruence.
    - split; [discriminate|].
      intros [[st' [Hst' _]] _]. discriminate Hst'. }
  split; [apply Hiff|].
  intros Hf.
  assert (Hno : forall m' : ReputationManager (Date := Date),
    forgivesAtrocities (GetConfig m' gov) = true ->
    HasUnforgivenAtrocity m' gov = false).
  { intros m' Hf'. destruct (HasUnforgivenAtrocity m' gov) eqn:E; [|reflexivity].
    apply Hiff in E. destruct E as [_ E]. congruence. }
  split; [apply Hno, Hf|].
  intros d. apply Hno. rewrite GetConfig_RecordAtrocity. exact Hf.
Qed.

(** [RecordAtrocity] on a non-null government does record the atrocity. *)
Lemma RecordAtrocity_records (m : ReputationManager (Date := Date))
    (gov : N) (d : Date) :
  gov <> 0%N ->
  exists st, states (RecordAtrocity Date_default m gov d) !! gov = Some st
             /\ hasCommittedAtrocity st = true /\ atrocityDate st = d.
Proof.
  intros Hgov. unfold RecordAtrocity, is_null.
  destruct (N.eqb_spec gov 0) as [->|_]; [congruence|].
  unfold GetOrCreateState.
  destruct (states m !! gov) as [st|]; simpl;
    rewrite lookup_insert_eq; eexists; split; try reflexivity; split; reflexivity.
Qed.

End WithDate.

(** A manager whose government 7 forgives atrocities after 365 days and
    decays three times the distance to the neutral point each day. *)
Definition sample_config : ReputationConfig := {|
  positiveDecayRate := 3 # 1;
  negativeRecoveryRate := 3 # 1;
  neutralPoint := 0;
  atrocityThreshold := -50 # 1;
  forgivesAtrocities := true;
  atrocityForgivenessDays := 365;
  allyReputationFactor := 1 # 2;
  memoryStrength := 0
|}.

Definition sample_manager : ReputationManager (Date := Z) :=
  SetConfig ReputationManager_new 7%N sample_config.

Lemma ApplyDecay_never_overshoots_witness :
  ((0 <= ApplyDecay sample_manager 7%N (20 # 1) 0%Z)%Q
   /\ (ApplyDecay sample_manager 7%N (-20 # 1) 0%Z <= 0)%Q)
  /\ (1 < GetEffectiveDecayRate sample_manager 7%N)%Q.
Proof.
  split; [split|].
  - apply (proj1 (ApplyDecay_never_overshoots sample_manager 7%N (20 # 1) 0)).
    reflexivity.
  - apply (proj2 (ApplyDecay_never_overshoots sample_manager 7%N (-20 # 1) 0)).
    reflexivity.
  - reflexivity.
Defined.

Lemma HasUnforgivenAtrocity_iff_witness :
  HasUnforgivenAtrocity (RecordAtrocity 0 sample_manager 7%N 100) 7%N = false.
Proof.
  apply (proj2 (HasUnforgivenAtrocity_iff 0 sample_manager 7%N)).
  reflexivity.
Defined.

(** With the default configuration, which never forgives, the atrocity just
    recorded against a non-null government is unforgiven. *)
Example HasUnforgivenAtrocity_default :
  HasUnforgivenAtrocity
    (RecordAtrocity 0 (ReputationManager_new (Date := Z)) 7%N 100) 7%N = true.
Proof. reflexivity. Qed.

(** The design document's scenario: a standing of 20 under the decay rate
    0.01 with no memory moves to 19.8 and stays NEUTRAL. *)
Example ApplyDecay_scenario :
  let m := SetConfig (ReputationManager_new (Date := Z)) 7%N
             {| positiveDecayRate := 1 # 100;
                negativeRecoveryRate := 5 # 1000;
                neutralPoint := 0;
                atrocityThreshold := -50 # 1;
                forgivesAtrocities := false;
                atrocityForgivenessDays := 365;
                allyReputationFactor := 1 # 2;
                memoryStrength := 0 |} in
  (ApplyDecay m 7%N (20 # 1) 0%Z == 198 # 10)%Q
  /\ CrossesThreshold (20 # 1) (ApplyDecay m 7%N (20 # 1) 0)
     = (false, NEUTRAL, NEUTRAL).
Proof. split; reflexivity. Qed.

(** The cases of the unit tests of [GetThreshold] and [CrossesThreshold]. *)
Example GetThreshold_tests :
  GetThreshold (-150 # 1) = WAR /\ GetThreshold (-60 # 1) = HOSTILE
  /\ GetThreshold (-30 # 1) = UNFRIENDLY /\ GetThreshold 0 = NEUTRAL
  /\ GetThreshold (30 # 1) = FRIENDLY /\ GetThreshold (60 # 1) = ALLIED
  /\ GetThreshold (150 # 1) = HONORED.
Proof. repeat split. Qed.

Example CrossesThreshold_tests :
  CrossesThreshold (10 # 1) (15 # 1) = (false, NEUTRAL, NEUTRAL)
  /\ CrossesThreshold (20 # 1) (30 # 1) = (true, NEUTRAL, FRIENDLY)
  /\ CrossesThreshold (30 # 1) (-60 # 1) = (true, FRIENDLY, HOSTILE).
Proof. repeat split. Qed.

End ReputationFacts.

(** ** Properties of the economic state machine *)

Module EconomyFacts.
Import Economy.

Lemma EconomicStateType_eqb_eq (a b : EconomicStateType) :
  EconomicStateType_eqb a b = true <-> a = b.
Proof. destruct a, b; simpl; split; intros H; congruence. Qed.

Lemma EconomicStateType_eqb_neq (a b : EconomicStateType) :
  EconomicStateType_eqb a b = false <-> a <> b.
Proof. destruct a, b; simpl; split; intros H; congruence. Qed.

Section WithDate.

Context {Date : Type}.
Variable Date_default : Date.

Abbreviation SystemEconomy := (SystemEconomy (Date := Date)).

(** *** Recovery *)

Lemma ApplyRecovery_strength_nonneg (e : SystemEconomy) (d : Date) :
  state e <> STABLE -> 0 <= stateStrength (fst (ApplyRecovery e d)).
Proof.
  intros Hs. unfold ApplyRecovery.
  apply EconomicStateType_eqb_neq in Hs. rewrite Hs. simpl.
  match goal with
  | |- context [Z.leb ?x 0] => destruct (Z.leb_spec x 0)
  end; simpl; lia.
Qed.

(** C4. When [ApplyRecovery], run on an economy that is not STABLE (and
    whose recovery days are not 0, as for every configuration that is loaded
    or default), leaves the state strength at 0, the economy is STABLE and
    its affected commodity is the empty string; the call reports a change of
    state. *)
Theorem ApplyRecovery_zero_strength_is_stable (e : SystemEconomy) (d : Date) :
  GetState e <> STABLE ->
  recoveryDays e <> 0 ->
  GetStateStrength (fst (ApplyRecovery e d)) = 0 ->
  GetState (fst (ApplyRecovery e d)) = STABLE
  /\ GetAffectedCommodity (fst (ApplyRecovery e d)) = EmptyString
  /\ snd (ApplyRecovery e d) = true.
Proof.
  unfold GetState, GetStateStrength, GetAffectedCommodity, ApplyRecovery.
  intros Hs _. apply EconomicStateType_eqb_neq in Hs. rewrite Hs. simpl.
  match goal with
  | |- context [Z.leb ?x 0] => destruct (Z.leb_spec x 0) as [Hle|Hgt]
  end; simpl.
  - intros _. repeat split.
  - intros H0. lia.
Qed.

(** The strength that [ApplyRecovery] leaves is 0 as soon as the daily
    recovery step covers what was left of it. *)
Lemma ApplyRecovery_reaches_zero (e : SystemEconomy) (d : Date) :
  state e <> STABLE ->
  stateStrength e <= Z.max 1 (Z.quot 100 (recoveryDays e)) ->
  stateStrength (fst (ApplyRecovery e d)) = 0.
Proof.
  intros Hs Hle. unfold ApplyRecovery.
  apply EconomicStateType_eqb_neq in Hs. rewrite Hs. simpl.
  match goal with
  | |- context [Z.leb ?x 0] => destruct (Z.leb_spec x 0) as [H0|Hgt]
  end; simpl; lia.
Qed.

(** *** The daily step after merchant losses *)

(** [n] calls [RecordEvent(MERCHANT_DESTROYED, 1)] on a new economy. *)
Definition merchant_losses (n : nat) : SystemEconomy :=
  Nat.iter n
    (fun e => RecordEvent Date_default e MERCHANT_DESTROYED 1 EmptyString true)
    (SystemEconomy_new Date_default).

Lemma merchant_losses_fields (n : nat) :
  state (merchant_losses n) = STABLE
  /\ config (merchant_losses n) = EconomicConfig_default
  /\ (merchantLosses (merchant_losses n) == inject_Z (Z.of_nat n))%Q
  /\ (pirateLosses (merchant_losses n) == 0)%Q
  /\ (tradeVolume (merchant_losses n) == 0)%Q
  /\ (smugglingLevel (merchant_losses n) == 0)%Q
  /\ stateStrength (merchant_losses n) = 0.
Proof.
  induction n as [|n IH].
  - simpl. repeat split; reflexivity.
  - destruct IH as (Hs & Hc & Hm & Hp & Ht & Hsm & Hst).
    unfold merchant_losses in *. rewrite Nat.iter_succ.
    set (e := Nat.iter n _ _) in *.
    unfold RecordEvent, RecordEvent_event. simpl.
    repeat split; try assumption.
    rewrite Hm. rewrite Nat2Z.inj_succ. unfold Z.succ.
    rewrite inject_Z_plus. reflexivity.
Qed.

(** [SimulateNPCActivity] writes the counters of merchant losses, pirate
    losses and trade volume, and nothing else. *)
Lemma SimulateNPCActivity_fields (e : SystemEconomy) (d : Date)
    (system : option System) (rnd : NPCRandom) :
  state (SimulateNPCActivity e d system rnd) = state e
  /\ config (SimulateNPCActivity e d system rnd) = config e
  /\ stateStrength (SimulateNPCActivity e d system rnd) = stateStrength e
  /\ smugglingLevel (SimulateNPCActivity e d system rnd) = smugglingLevel e.
Proof.
  unfold SimulateNPCActivity.
  destruct system as [s|]; [|repeat split].
  destruct (Qltb 0 (Danger s)); simpl.
  - destruct (Qltb (lossRoll rnd) _); destruct (Qltb (killRoll rnd) _);
      try destruct (Z.ltb 0 _); destruct (IsInhabited s); simpl;
      repeat split.
  - destruct (IsInhabited s); simpl; repeat split.
Qed.

(** The daily step simulates no merchant loss of its own: the system is the
    null pointer, or the roll for losses misses. *)
Definition no_simulated_loss (d : Date) (system : option System)
    (rnd : NPCRandom) : Prop :=
  forall e : SystemEconomy,
    merchantLosses (SimulateNPCActivity e d system rnd) = merchantLosses e.

(** What the daily step simulates of pirate kills and of trade on a STABLE
    economy stays below 20 and 5000, the thresholds of a BOOM in the default
    configuration. *)
Definition simulated_below_boom (d : Date) (system : option System)
    (rnd : NPCRandom) : Prop :=
  forall e : SystemEconomy, state e = STABLE ->
    (pirateLosses (SimulateNPCActivity e d system rnd)
     < pirateLosses e + 20)%Q
    /\ (tradeVolume (SimulateNPCActivity e d system rnd)
        < tradeVolume e + 5000)%Q.

(** The daily step of a STABLE economy whose merchant losses, once decayed,
    still reach both the threshold and 10, with ten times their value an
    [int], and whose decayed smuggling level stays under its threshold: the
    economy is BUST with strength 100. *)
Lemma StepDaily_bust (e : SystemEconomy) (d : Date) (system : option System)
    (rnd : NPCRandom) :
  no_simulated_loss d system rnd ->
  state e = STABLE ->
  (inject_Z (merchantLossThreshold (config e))
   <= merchantLosses e * DAILY_COUNTER_DECAY)%Q ->
  (10 <= merchantLosses e * DAILY_COUNTER_DECAY)%Q ->
  (merchantLosses e * DAILY_COUNTER_DECAY * 10 < inject_Z (2 ^ 31))%Q ->
  (smugglingLevel e * DAILY_COUNTER_DECAY
   < inject_Z (smugglingThreshold (config e)))%Q ->
  GetState (fst (StepDaily e d system rnd)) = BUST
  /\ GetStateStrength (fst (StepDaily e d system rnd)) = 100.
Proof.
  intros Hno Hs Hthr H10 Hint Hsm.
  unfold StepDaily.
  set (e1 := set_counters e _ _ _ _).
  destruct (SimulateNPCActivity_fields e1 d system rnd)
    as (Es & Ec & Est & Esm).
  pose proof (Hno e1) as Eml.
  set (e2 := SimulateNPCActivity e1 d system rnd) in *.
  simpl in Es, Ec, Est, Esm, Eml.
  unfold EvaluateStateTransition.
  rewrite Es, Hs. simpl.
  assert (Hq : Qle_bool (inject_Z (merchantLossThreshold (config e2)))
                 (merchantLosses e2) = true).
  { apply Qle_bool_iff. rewrite Ec, Eml. exact Hthr. }
  rewrite Hq. simpl.
  assert (Hq2 : Qle_bool (inject_Z (smugglingThreshold (config e2)))
                  (smugglingLevel e2) = false).
  { apply Qle_bool_false. rewrite Ec, Esm. exact Hsm. }
  rewrite Hq2. simpl.
  split; [reflexivity|].
  assert (100 <= static_cast_int (merchantLosses e2 * 10)).
  { rewrite Eml. apply static_cast_int_lower; [lia| |exact Hint].
    unfold inject_Z. lra. }
  unfold GetStateStrength. simpl. lia.
Qed.

(** The daily step of a STABLE economy on which no counter, once decayed
    and with what the step simulates, reaches its threshold: the economy
    stays STABLE and keeps its strength. *)
Lemma StepDaily_stable (e : SystemEconomy) (d : Date) (system : option System)
    (rnd : NPCRandom) :
  no_simulated_loss d system rnd ->
  simulated_below_boom d system rnd ->
  state e = STABLE ->
  (merchantLosses e * DAILY_COUNTER_DECAY
   < inject_Z (merchantLossThreshold (config e)))%Q ->
  (pirateLosses e * DAILY_COUNTER_DECAY + 20
   <= inject_Z (pirateLossThreshold (config e)))%Q ->
  (tradeVolume e * DAILY_COUNTER_DECAY + 5000
   <= inject_Z (tradeVolumeThreshold (config e)))%Q ->
  (smugglingLevel e * DAILY_COUNTER_DECAY
   < inject_Z (smugglingThreshold (config e)))%Q ->
  GetState (fst (StepDaily e d system rnd)) = STABLE
  /\ GetStateStrength (fst (StepDaily e d system rnd)) = stateStrength e.
Proof.
  intros Hno Hcalm Hs Hml Hpl Htv Hsm.
  unfold StepDaily.
  set (e1 := set_counters e _ _ _ _).
  destruct (SimulateNPCActivity_fields e1 d system rnd)
    as (Es & Ec & Est & Esm).
  pose proof (Hno e1) as Eml.
  destruct (Hcalm e1 Hs) as [Epl Etv].
  set (e2 := SimulateNPCActivity e1 d system rnd) in *.
  simpl in Es, Ec, Est, Esm, Eml, Epl, Etv.
  assert (Hq1 : Qle_bool (inject_Z (merchantLossThreshold (config e2)))
                  (merchantLosses e2) = false).
  { apply Qle_bool_false. rewrite Ec, Eml. exact Hml. }
  assert (Hq2 : Qle_bool (inject_Z (pirateLossThreshold (config e2)))
                  (pirateLosses e2) = false).
  { apply Qle_bool_false. rewrite Ec. lra. }
  assert (Hq3 : Qle_bool (inject_Z (tradeVolumeThreshold (config e2)))
                  (tradeVolume e2) = false).
  { apply Qle_bool_false. rewrite Ec. lra. }
  assert (Hq4 : Qle_bool (inject_Z (smugglingThreshold (config e2)))
                  (smugglingLevel e2) = false).
  { apply Qle_bool_false. rewrite Ec, Esm. exact Hsm. }
  assert (Hev : EvaluateStateTransition e2 d system = (e2, false)).
  { unfold EvaluateStateTransition.
    rewrite Es, Hs. cbn [EconomicStateType_eqb orb].
    rewrite Hq1. rewrite Es, Hs. cbn [EconomicStateType_eqb orb].
    rewrite Hq2, Hq3, Hq4. rewrite Es, Hs. reflexivity. }
  rewrite Hev. rewrite Es, Hs. cbn.
  split; [rewrite Es; exact Hs|exact Est].
Qed.

(** C5, as the code has it. The counters are decayed before the thresholds
    are tested, so the losses recorded during the day count for 0.85 each at
    the next daily step. Take a new economy (STABLE, threshold 10) that has
    recorded [n] merchant-loss events of magnitude 1, and a daily step that
    simulates no merchant loss of its own. From [n = 12] on (the decayed
    counter is then at least 10.2) the step sets BUST with strength
    min(100, 10 x counter) = 100, as long as 10 x counter is an [int], that
    is up to [n = 252645135]. With fewer than 12 events, 10 among them, the
    decayed counter stays below the threshold, and the economy stays STABLE
    with strength 0 whenever what the step simulates of pirate kills and of
    trade does not make a BOOM of it. *)
Theorem StepDaily_merchant_losses_bust (n : nat) (d : Date)
    (system : option System) (rnd : NPCRandom) :
  no_simulated_loss d system rnd ->
  (12 <= Z.of_nat n <= 252645135 ->
   GetState (fst (StepDaily (merchant_losses n) d system rnd)) = BUST
   /\ GetStateStrength (fst (StepDaily (merchant_losses n) d system rnd)) = 100)
  /\
  ((n < 12)%nat ->
   simulated_below_boom d system rnd ->
   GetState (fst (StepDaily (merchant_losses n) d system rnd)) = STABLE
   /\ GetStateStrength (fst (StepDaily (merchant_losses n) d system rnd)) = 0).
Proof.
  intros Hno.
  destruct (merchant_losses_fields n) as (Hs & Hc & Hm & Hp & Ht & Hsm & Hst).
  split.
  - intros [Hlow Hup].
    assert (Hlow' : (12 <= inject_Z (Z.of_nat n))%Q).
    { change (12%Q) with (inject_Z 12). rewrite <- Zle_Qle. exact Hlow. }
    assert (Hup' : (inject_Z (Z.of_nat n) <= 252645135)%Q).
    { change (252645135%Q) with (inject_Z 252645135). rewrite <- Zle_Qle.
      exact Hup. }
    apply StepDaily_bust; try assumption.
    + rewrite Hc, Hm. unfold DAILY_COUNTER_DECAY. simpl. unfold inject_Z at 1.
      lra.
    + rewrite Hm. unfold DAILY_COUNTER_DECAY. lra.
    + rewrite Hm. unfold DAILY_COUNTER_DECAY.
      change (inject_Z (2 ^ 31)) with (2147483648 # 1). lra.
    + rewrite Hc, Hsm. reflexivity.
  - intros Hn Hcalm.
    assert (Hn' : (inject_Z (Z.of_nat n) <= 11)%Q).
    { change (11%Q) with (inject_Z 11). rewrite <- Zle_Qle. lia. }
    rewrite <- Hst.
    apply StepDaily_stable; try assumption.
    + rewrite Hc, Hm. unfold DAILY_COUNTER_DECAY. simpl. unfold inject_Z at 2.
      lra.
    + rewrite Hc, Hp. unfold DAILY_COUNTER_DECAY. simpl. unfold inject_Z. lra.
    + rewrite Hc, Ht. unfold DAILY_COUNTER_DECAY. simpl. unfold inject_Z. lra.
    + rewrite Hc, Hsm. reflexivity.
Qed.

(** *** Strength and counters *)

(** [SetState] stores the strength it is given when the state changes. *)
Lemma SetState_strength (e : SystemEconomy) (newState : EconomicStateType)
    (com : string) (strength : Z) :
  state e <> newState ->
  GetStateStrength (SetState e newState com strength) = strength.
Proof.
  intros Hs. unfold SetState.
  apply EconomicStateType_eqb_neq in Hs. rewrite Hs. reflexivity.
Qed.

End WithDate.

(** An economy in state BUST with strength 5. *)
Definition bust5 : SystemEconomy (Date := Z) :=
  SetState (SystemEconomy_new 0) BUST EmptyString 5.

Lemma ApplyRecovery_zero_strength_is_stable_witness :
  GetState (fst (ApplyRecovery bust5 1)) = STABLE
  /\ GetAffectedCommodity (fst (ApplyRecovery bust5 1)) = EmptyString
  /\ snd (ApplyRecovery bust5 1) = true.
Proof.
  apply (ApplyRecovery_zero_strength_is_stable bust5 1).
  - discriminate.
  - discriminate.
  - reflexivity.
Defined.

Definition no_random : NPCRandom :=
  {| lossRoll := 0; lossSize := 0; killRoll := 0; killSize := 0;
     trafficNormal := 0 |}.

(** C5, as stated, fails: after 10 merchant-loss events of magnitude 1 on a
    new economy (threshold 10), the daily step first decays the counter to
    8.5, which is below the threshold, and the economy is still STABLE with
    strength 0, not BUST with strength 100. *)
Lemma StepDaily_ten_losses_not_bust :
  merchantLossThreshold (config (merchant_losses 0%Z 10)) = 10
  /\ GetMerchantLosses (merchant_losses 0%Z 10) = 10
  /\ ~ (GetState (fst (StepDaily (merchant_losses 0%Z 10) 1 None no_random)) = BUST
        /\ GetStateStrength
             (fst (StepDaily (merchant_losses 0%Z 10) 1 None no_random)) = 100)
  /\ GetState (fst (StepDaily (merchant_losses 0%Z 10) 1 None no_random)) = STABLE
  /\ (merchantLosses (fst (StepDaily (merchant_losses 0%Z 10) 1%Z None no_random))
      == 85 # 10)%Q.
Proof.
  split; [reflexivity|]. split; [reflexivity|]. split.
  - intros [H _]. vm_compute in H. discriminate H.
  - split; reflexivity.
Qed.

(** A system with some danger and inhabitants, and draws on which the rolls
    for losses and for kills both miss and the traffic is the average one. *)
Definition calm_system : System :=
  {| Links := []; Danger := 5; IsInhabited := true;
     DisplayName := "Sol" |}.

Definition calm_random : NPCRandom :=
  {| lossRoll := 1 # 2; lossSize := 1 # 2; killRoll := 1 # 2;
     killSize := 1 # 2; trafficNormal := 0 |}.

Lemma StepDaily_merchant_losses_bust_witness :
  (GetState (fst (StepDaily (merchant_losses 0%Z 12) 1 (Some calm_system)
                    calm_random)) = BUST
   /\ GetStateStrength
        (fst (StepDaily (merchant_losses 0%Z 12) 1 (Some calm_system)
                calm_random)) = 100)
  /\ (GetState (fst (StepDaily (merchant_losses 0%Z 10) 1 (Some calm_system)
                       calm_random)) = STABLE
      /\ GetStateStrength
           (fst (StepDaily (merchant_losses 0%Z 10) 1 (Some calm_system)
                   calm_random)) = 0).
Proof.
  assert (Hno : no_simulated_loss (Date := Z) 1 (Some calm_system)
                  calm_random).
  { intros e. reflexivity. }
  assert (Hcalm : simulated_below_boom (Date := Z) 1 (Some calm_system)
                    calm_random).
  { intros e He. unfold SimulateNPCActivity. cbn.
    repeat match goal with
    | |- context [if ?b then _ else _] =>
        let v := eval vm_compute in b in
        match v with
        | true => change b with true
        | false => change b with false
        end; cbv iota
    end.
    cbn. rewrite He. unfold std_max.
    change (Qltb 0 (100 + 0 * 50)) with true. cbv iota. split; lra. }
  split.
  - apply (proj1 (StepDaily_merchant_losses_bust 0%Z 12 1 (Some calm_system)
                    calm_random Hno)).
    cbn. lia.
  - apply (proj2 (StepDaily_merchant_losses_bust 0%Z 10 1 (Some calm_system)
                    calm_random Hno)).
    + lia.
    + exact Hcalm.
Defined.

(** Why the simulated trade matters below 12 events: on an inhabited system
    with a traffic draw of 100, the step adds 5100 to the trade volume and
    the economy booms. *)
Example StepDaily_simulated_trade_boom :
  GetState
    (fst (StepDaily (merchant_losses 0%Z 10) 1
            (Some {| Links := []; Danger := 0; IsInhabited := true;
                     DisplayName := "Sol" |})
            {| lossRoll := 0; lossSize := 0; killRoll := 0; killSize := 0;
               trafficNormal := 100 |}))
  = BOOM.
Proof. reflexivity. Qed.

(** Out of the range of [int] the strength is not 100: merchant losses of
    300 000 000 decay to 255 000 000, ten times which is no [int], and the
    strength that the daily step stores is [min(100, INT_MIN)]. *)
Example StepDaily_strength_out_of_int :
  let e := RecordEvent 0%Z (SystemEconomy_new 0%Z) MERCHANT_DESTROYED
             300000000 EmptyString true in
  GetState (fst (StepDaily e 1 None no_random)) = BUST
  /\ GetStateStrength (fst (StepDaily e 1 None no_random)) = INT_MIN.
Proof. split; reflexivity. Qed.

(** C8 at the failing input: [SetState] to BOOM with the strength 150, on a
    new economy, leaves a state strength of 150, outside of [[0, 100]]; a
    negative strength is stored in the same way. *)
Theorem SetState_strength_out_of_range :
  GetStateStrength (SetState (SystemEconomy_new 0%Z) BOOM EmptyString 150) = 150
  /\ GetStateStrength (SetState (SystemEconomy_new 0%Z) BOOM EmptyString (-5)) = -5.
Proof. split; reflexivity. Qed.

(** A negative magnitude handed to [RecordEvent] leaves the counter negative
    after the daily decay. *)
Lemma RecordEvent_negative_counter :
  (merchantLosses
     (fst (StepDaily
             (RecordEvent 0%Z (SystemEconomy_new 0%Z) MERCHANT_DESTROYED (-5)
                EmptyString true)
             1%Z None no_random)) < 0)%Q.
Proof. reflexivity. Qed.

End EconomyFacts.

(** ** Properties of the cascade propagation *)

Module CascadeFacts.
Import Economy.

(** *** The arithmetic of [magnitude / (1 << (distance + 1))] *)

Lemma int_shl1_small (k : Z) : 0 <= k <= 30 -> int_shl1 k = 2 ^ k.
Proof.
  intros Hk. unfold int_shl1, int_wrap.
  rewrite Z.shiftl_1_l.
  assert (H1 : 0 < 2 ^ k) by (apply Z.pow_pos_nonneg; lia).
  assert (H2 : 2 ^ k <= 2 ^ 30) by (apply Z.pow_le_mono_r; lia).
  rewrite Z.mod_small; lia.
Qed.

Lemma int_shl1_31 : int_shl1 31 = - 2 ^ 31.
Proof. reflexivity. Qed.

Lemma int_shl1_large (k : Z) : 32 <= k -> int_shl1 k = 0.
Proof.
  intros Hk. unfold int_shl1, int_wrap.
  rewrite Z.shiftl_1_l.
  replace k with (32 + (k - 32)) by lia.
  rewrite Z.pow_add_r by lia.
  rewrite Z.add_comm, Z.mul_comm, Z.mod_add by lia.
  reflexivity.
Qed.

(** On a positive [int] magnitude the quotient of the source is the floor of
    [magnitude / 2^(distance + 1)], for every distance. *)
Lemma propagatedMagnitude_floor (mag : Z) (d : nat) :
  0 < mag < 2 ^ 31 ->
  propagatedMagnitude mag (Z.of_nat d) = mag / 2 ^ Z.of_nat (S d).
Proof.
  intros Hm. unfold propagatedMagnitude.
  rewrite Nat2Z.inj_succ. unfold Z.succ.
  set (k := Z.of_nat d + 1).
  assert (Hk : 1 <= k) by lia.
  destruct (Z.le_gt_cases k 30) as [H30|H30].
  - rewrite int_shl1_small by lia.
    apply Z.quot_div_nonneg; [lia|apply Z.pow_pos_nonneg; lia].
  - assert (Hbig : mag / 2 ^ k = 0).
    { apply Z.div_small. split; [lia|].
      assert (2 ^ 31 <= 2 ^ k) by (apply Z.pow_le_mono_r; lia). lia. }
    rewrite Hbig.
    destruct (Z.eq_dec k 31) as [->|Hne].
    + rewrite int_shl1_31. rewrite Z.quot_opp_r by lia.
      rewrite Z.quot_small by lia. reflexivity.
    + rewrite int_shl1_large by lia. destruct mag; reflexivity.
Qed.

(** *** The invariant of the traversal *)

Section Cascade.

Variable system_at : N -> System.
Variables (A : N) (R : Z) (ty : EconomicEventType) (m : Z).
Hypothesis HR : 1 <= R.
Hypothesis Hm : 0 < m < 2 ^ 31.

Local Abbreviation dist := (hop_distance system_at A).
Local Abbreviation hop := (edge system_at).

(** The magnitude that reaches hop distance [d]. *)
Definition mag_at (d : nat) : Z := m / 2 ^ Z.of_nat d.

Lemma mag_at_O : mag_at 0 = m.
Proof. unfold mag_at. simpl. apply Z.div_1_r. Qed.

Lemma mag_at_antitone (d1 d2 : nat) :
  (d1 <= d2)%nat -> mag_at d2 <= mag_at d1.
Proof.
  intros Hle. unfold mag_at.
  apply Z.div_le_compat_l; [lia|]. split.
  - apply Z.pow_pos_nonneg; lia.
  - apply Z.pow_le_mono_r; lia.
Qed.

Lemma dist_unique (s : N) (d1 d2 : nat) : dist s d1 -> dist s d2 -> d1 = d2.
Proof.
  intros [P1 M1] [P2 M2]. apply Nat.le_antisymm; [apply M1, P2|apply M2, P1].
Qed.

Lemma dist_start : dist A 0.
Proof. split; [constructor|intros; lia]. Qed.

Lemma path_O_eq (s : N) : path system_at 0 A s -> s = A.
Proof. intros H. inversion H. reflexivity. Qed.

Lemma dist_pos (s : N) (d : nat) : dist s d -> s <> A -> (1 <= d)%nat.
Proof.
  intros [P _] Hne. destruct d; [|lia].
  apply path_O_eq in P. contradiction.
Qed.

(** The queue holds at most two consecutive levels, in order. *)
Fixpoint levels_ok (q : list (N * Z)) : Prop :=
  match q with
  | [] => True
  | (_, j) :: rest =>
      (forall w i, In (w, i) rest -> j <= i <= j + 1) /\ levels_ok rest
  end.

Lemma levels_ok_push (q : list (N * Z)) (n : N) (j : Z) :
  levels_ok q ->
  (forall w i, In (w, i) q -> j <= i <= j + 1) ->
  levels_ok (q ++ [(n, j + 1)]).
Proof.
  induction q as [|[w0 i0] q IH]; intros Hok Hq.
  - simpl. split; [intros ? ? []|exact I].
  - simpl in *. destruct Hok as [Hhd Hok]. split.
    + intros w i Hin. apply in_app_or in Hin. destruct Hin as [Hin|Hin].
      * apply (Hhd w i Hin).
      * destruct Hin as [Heq|[]]. inversion Heq; subst.
        specialize (Hq w0 i0 (or_introl eq_refl)). lia.
    + apply IH; [exact Hok|]. intros w i Hin. apply (Hq w i). right. exact Hin.
Qed.

(** The part of the invariant that holds at every point of the loop. *)
Record Core (c : Cascade) : Prop := {
  core_start : A ∈ visited c;
  core_dist : forall s, s ∈ visited c ->
    exists d, dist s d /\ Z.of_nat d <= R
      /\ (s <> A -> 0 < mag_at d -> In (s, ty, mag_at d) (recorded c));
  core_queue : forall v j, In (v, j) (toVisit c) ->
    v ∈ visited c
    /\ exists d, j = Z.of_nat d /\ dist v d /\ 0 < mag_at d;
  core_rec : forall s t g, In (s, t, g) (recorded c) ->
    s ∈ visited c /\ s <> A /\ t = ty /\ 0 < g
    /\ exists d, dist s d /\ g = mag_at d;
  core_nodup : NoDup (map (fun x => fst (fst x)) (recorded c))
}.

(** The invariant between two iterations of the [while] loop. A visited
    location from which the cascade goes on is either still queued or has all
    its neighbours visited. *)
Record Inv (c : Cascade) : Prop := {
  inv_core : Core c;
  inv_levels : levels_ok (toVisit c);
  inv_done : forall p d, p ∈ visited c -> dist p d ->
    Z.of_nat d < R -> 0 < mag_at d ->
    In (p, Z.of_nat d) (toVisit c) \/ forall n, hop p n -> n ∈ visited c
}.

(** The invariant inside the [for] loop over the links of [v], popped at
    level [d], once the links [pre] have been handled. *)
Record Inner (v : N) (d : nat) (pre : list N) (c : Cascade) : Prop := {
  inn_core : Core c;
  inn_levels : levels_ok (toVisit c);
  inn_range : forall w i, In (w, i) (toVisit c) ->
    Z.of_nat d <= i <= Z.of_nat d + 1;
  inn_done : forall p dp, p ∈ visited c -> dist p dp ->
    Z.of_nat dp < R -> 0 < mag_at dp ->
    p = v \/ In (p, Z.of_nat dp) (toVisit c)
    \/ forall n, hop p n -> n ∈ visited c;
  inn_closure : forall k s, path system_at k A s -> (k <= d)%nat ->
    s ∈ visited c;
  inn_pre : forall n, In n pre -> n <> 0%N -> n ∈ visited c
}.

(** Every location within [D] hops is visited, as soon as nothing below
    level [D] is left in the queue and the cascade reaches level [D]. *)
Lemma visited_within (c : Cascade) (D : nat) :
  Inv c ->
  (forall w i, In (w, i) (toVisit c) -> Z.of_nat D <= i) ->
  Z.of_nat D <= R -> 0 < mag_at D ->
  forall k s, path system_at k A s -> (k <= D)%nat -> s ∈ visited c.
Proof.
  intros HI Hq HD Hlive. induction k as [|k IH]; intros s Hp Hk.
  - apply path_O_eq in Hp. subst s. apply (core_start c (inv_core c HI)).
  - inversion Hp as [|k' s0 p n Hp' He]; subst.
    assert (Hpv : p ∈ visited c) by (apply IH; [exact Hp'|lia]).
    destruct (core_dist c (inv_core c HI) p Hpv) as (dp & Hdp & _ & _).
    assert (Hdpk : (dp <= k)%nat) by (apply (proj2 Hdp), Hp').
    assert (Hlp : 0 < mag_at dp).
    { pose proof (mag_at_antitone dp D ltac:(lia)). lia. }
    destruct (inv_done c HI p dp Hpv Hdp ltac:(lia) Hlp) as [Hin|Hall].
    + apply Hq in Hin. lia.
    + apply Hall, He.
Qed.

(** A newly visited location whose magnitude is 0: it is marked and nothing
    else happens. *)
Lemma Core_mark (c : Cascade) (n : N) (dn : nat) :
  Core c -> n ∉ visited c -> dist n dn -> Z.of_nat dn <= R ->
  mag_at dn <= 0 ->
  Core {| visited := {[n]} ∪ visited c;
          toVisit := toVisit c;
          recorded := recorded c |}.
Proof.
  intros HC Hnv Hdn HdR Hdead. constructor; simpl.
  - apply elem_of_union_r, (core_start c HC).
  - intros s Hs. apply elem_of_union in Hs. destruct Hs as [Hs|Hs].
    + apply elem_of_singleton in Hs. subst s.
      exists dn. repeat split; try apply Hdn; try assumption.
      intros _ Hlive. lia.
    + apply (core_dist c HC s Hs).
  - intros v j Hin. destruct (core_queue c HC v j Hin) as [Hv Hd].
    split; [apply elem_of_union_r, Hv|exact Hd].
  - intros s t g Hin. destruct (core_rec c HC s t g Hin) as [Hs Hrest].
    split; [apply elem_of_union_r, Hs|exact Hrest].
  - apply (core_nodup c HC).
Qed.

(** A newly visited location whose magnitude is positive: it is marked, its
    event is recorded and it is queued. *)
Lemma Core_record (c : Cascade) (n : N) (dn : nat) (j : Z) :
  Core c -> n ∉ visited c -> dist n dn -> Z.of_nat dn <= R ->
  0 < mag_at dn -> j = Z.of_nat dn ->
  Core {| visited := {[n]} ∪ visited c;
          toVisit := toVisit c ++ [(n, j)];
          recorded := recorded c ++ [(n, ty, mag_at dn)] |}.
Proof.
  intros HC Hnv Hdn HdR Hlive Hj.
  assert (HnA : n <> A).
  { intros ->. apply Hnv, (core_start c HC). }
  constructor; simpl.
  - apply elem_of_union_r, (core_start c HC).
  - intros s Hs. apply elem_of_union in Hs. destruct Hs as [Hs|Hs].
    + apply elem_of_singleton in Hs. subst s.
      exists dn. repeat split; try apply Hdn; try assumption.
      intros _ _. apply in_or_app. right. left. reflexivity.
    + destruct (core_dist c HC s Hs) as (d & Hd & HR' & Hrec).
      exists d. repeat split; try apply Hd; try assumption.
      intros H1 H2. apply in_or_app. left. apply Hrec; assumption.
  - intros v i Hin. apply in_app_or in Hin. destruct Hin as [Hin|Hin].
    + destruct (core_queue c HC v i Hin) as [Hv Hd].
      split; [apply elem_of_union_r, Hv|exact Hd].
    + destruct Hin as [Heq|[]]. inversion Heq; subst v i.
      split; [apply elem_of_union_l, elem_of_singleton; reflexivity|].
      exists dn. repeat split; try apply Hdn; assumption.
  - intros s t g Hin. apply in_app_or in Hin. destruct Hin as [Hin|Hin].
    + destruct (core_rec c HC s t g Hin) as [Hs Hrest].
      split; [apply elem_of_union_r, Hs|exact Hrest].
    + destruct Hin as [Heq|[]]. inversion Heq; subst s t g.
      split; [apply elem_of_union_l, elem_of_singleton; reflexivity|].
      repeat split; try assumption.
      exists dn. split; [exact Hdn|reflexivity].
  - rewrite map_app. simpl.
    apply NoDup_app. split; [apply (core_nodup c HC)|]. split.
    + intros x Hx Hx'. apply list_elem_of_In in Hx, Hx'.
      destruct Hx' as [<-|[]].
      apply in_map_iff in Hx. destruct Hx as ([[s t] g] & Hfst & Hin).
      simpl in Hfst. subst s.
      apply Hnv. apply (core_rec c HC n t g Hin).
    + apply NoDup_singleton.
Qed.

(** One link of [v] handled by the body of the [for] loop. *)
Lemma visit_neighbor_Inner (v : N) (d : nat) (pre : list N) (c : Cascade)
    (n : N) :
  dist v d -> Z.of_nat d < R ->
  In n (Links (system_at v)) ->
  Inner v d pre c ->
  Inner v d (pre ++ [n]) (visit_neighbor ty m (Z.of_nat d) c n).
Proof.
  intros Hv HdR Hlink HI. unfold visit_neighbor, is_null.
  destruct (N.eqb_spec n 0) as [Hn0|Hn0]; simpl.
  { destruct HI. constructor; try assumption.
    intros n' Hin Hne. apply in_app_or in Hin. destruct Hin as [Hin|Hin].
    - apply inn_pre0; assumption.
    - destruct Hin as [<-|[]]. contradiction. }
  destruct (bool_decide (n ∈ visited c)) eqn:Hvis.
  { apply bool_decide_eq_true in Hvis.
    destruct HI. constructor; try assumption.
    intros n' Hin Hne. apply in_app_or in Hin. destruct Hin as [Hin|Hin].
    - apply inn_pre0; assumption.
    - destruct Hin as [<-|[]]. exact Hvis. }
  apply bool_decide_eq_false in Hvis.
  rewrite (propagatedMagnitude_floor m d Hm). fold (mag_at (S d)).
  assert (Hdn : dist n (S d)).
  { split.
    - apply path_hop with (p := v); [apply Hv|split; assumption].
    - intros k Hk. destruct (Nat.le_gt_cases (S d) k) as [Hle|Hgt]; [exact Hle|].
      exfalso. apply Hvis. apply (inn_closure v d pre c HI k n Hk). lia. }
  assert (HdR' : Z.of_nat (S d) <= R) by lia.
  assert (Hpre : forall n', In n' (pre ++ [n]) -> n' <> 0%N ->
                 n' ∈ {[n]} ∪ visited c).
  { intros n' Hin Hne. apply in_app_or in Hin. destruct Hin as [Hin|Hin].
    - apply elem_of_union_r, (inn_pre v d pre c HI); assumption.
    - destruct Hin as [<-|[]]. apply elem_of_union_l, elem_of_singleton.
      reflexivity. }
  assert (Hclo : forall k s, path system_at k A s -> (k <= d)%nat ->
                 s ∈ {[n]} ∪ visited c).
  { intros k s Hp Hk. apply elem_of_union_r, (inn_closure v d pre c HI k s Hp Hk). }
  destruct (Z.leb_spec (mag_at (S d)) 0) as [Hdead|Hlive].
  - constructor; simpl; try assumption.
    + apply (Core_mark c n (S d)); try assumption. apply (inn_core v d pre c HI).
    + apply (inn_levels v d pre c HI).
    + apply (inn_range v d pre c HI).
    + intros p dp Hp Hdp HpR Hlp.
      apply elem_of_union in Hp. destruct Hp as [Hp|Hp].
      * apply elem_of_singleton in Hp. subst p.
        rewrite (dist_unique n dp (S d) Hdp Hdn) in Hlp. lia.
      * destruct (inn_done v d pre c HI p dp Hp Hdp HpR Hlp) as [H|[H|H]].
        -- left. exact H.
        -- right. left. exact H.
        -- right. right. intros n' Hn'. apply elem_of_union_r, H, Hn'.
  - constructor; simpl; try assumption.
    + apply (Core_record c n (S d)); try assumption.
      * apply (inn_core v d pre c HI).
      * lia.
    + apply levels_ok_push; [apply (inn_levels v d pre c HI)|].
      apply (inn_range v d pre c HI).
    + intros w i Hin. apply in_app_or in Hin. destruct Hin as [Hin|Hin].
      * apply (inn_range v d pre c HI w i Hin).
      * destruct Hin as [Heq|[]]. inversion Heq; subst. lia.
    + intros p dp Hp Hdp HpR Hlp.
      apply elem_of_union in Hp. destruct Hp as [Hp|Hp].
      * apply elem_of_singleton in Hp. subst p.
        rewrite (dist_unique n dp (S d) Hdp Hdn).
        right. left. apply in_or_app. right. left.
        f_equal. lia.
      * destruct (inn_done v d pre c HI p dp Hp Hdp HpR Hlp) as [H|[H|H]].
        -- left. exact H.
        -- right. left. apply in_or_app. left. exact H.
        -- right. right. intros n' Hn'. apply elem_of_union_r, H, Hn'.
Qed.

Lemma fold_visit_Inner (v : N) (d : nat) :
  dist v d -> Z.of_nat d < R ->
  forall (ns pre : list N) (c : Cascade),
    (forall n, In n ns -> In n (Links (system_at v))) ->
    Inner v d pre c ->
    Inner v d (pre ++ ns)
      (fold_left (visit_neighbor ty m (Z.of_nat d)) ns c).
Proof.
  intros Hv HdR. induction ns as [|n ns IH]; intros pre c Hns HI; simpl.
  - rewrite app_nil_r. exact HI.
  - replace (pre ++ n :: ns) with ((pre ++ [n]) ++ ns)
      by (rewrite <- app_assoc; reflexivity).
    apply IH.
    + intros n' Hn'. apply Hns. right. exact Hn'.
    + apply visit_neighbor_Inner; try assumption. apply Hns. left. reflexivity.
Qed.

Lemma Core_pop (c : Cascade) (x : N * Z) (rest : list (N * Z)) :
  Core c -> toVisit c = x :: rest ->
  Core {| visited := visited c; toVisit := rest; recorded := recorded c |}.
Proof.
  intros HC Hq. destruct HC. constructor; simpl; try assumption.
  intros v j Hin. apply core_queue0. rewrite Hq. right. exact Hin.
Qed.

(** One iteration of the [while] loop keeps the invariant. *)
Lemma cascade_step_Inv (c c' : Cascade) :
  Inv c -> cascade_step system_at R ty m c = Some c' -> Inv c'.
Proof.
  intros HI Hstep. unfold cascade_step in Hstep.
  destruct (toVisit c) as [|[v j] rest] eqn:Hq; [discriminate|].
  assert (Hhead : In (v, j) (toVisit c)) by (rewrite Hq; left; reflexivity).
  destruct (core_queue c (inv_core c HI) v j Hhead)
    as [Hv (d & -> & Hdv & Hlv)].
  pose proof (inv_levels c HI) as Hlev. rewrite Hq in Hlev.
  destruct Hlev as [Hrange Hlev].
  pose proof (Core_pop c (v, Z.of_nat d) rest (inv_core c HI) Hq) as HC0.
  set (c0 := {| visited := visited c; toVisit := rest;
                recorded := recorded c |}) in *.
  assert (Hdone0 : forall p dp, p ∈ visited c0 -> dist p dp ->
            Z.of_nat dp < R -> 0 < mag_at dp ->
            p = v \/ In (p, Z.of_nat dp) (toVisit c0)
            \/ forall n, hop p n -> n ∈ visited c0).
  { intros p dp Hp Hdp HpR Hlp.
    destruct (inv_done c HI p dp Hp Hdp HpR Hlp) as [Hin|Hall].
    - rewrite Hq in Hin. destruct Hin as [Heq|Hin].
      + left. inversion Heq. reflexivity.
      + right. left. exact Hin.
    - right. right. exact Hall. }
  destruct (Z.leb_spec R (Z.of_nat d)) as [Hfar|Hnear].
  - inversion Hstep; subst c'. constructor; try assumption.
    intros p dp Hp Hdp HpR Hlp.
    destruct (Hdone0 p dp Hp Hdp HpR Hlp) as [->|[H|H]].
    + rewrite (dist_unique v dp d Hdp Hdv) in HpR. lia.
    + left. exact H.
    + right. exact H.
  - inversion Hstep as [Hc']. clear Hstep.
    assert (HI0 : Inner v d [] c0).
    { constructor; try assumption.
      - apply (visited_within c d HI); try lia; try assumption.
        intros w i Hin. rewrite Hq in Hin. destruct Hin as [Heq|Hin].
        + inversion Heq. lia.
        + specialize (Hrange w i Hin). lia.
      - intros n []. }
    pose proof (fold_visit_Inner v d Hdv Hnear (Links (system_at v)) [] c0
                  (fun n H => H) HI0) as HI1.
    simpl in HI1.
    set (c1 := fold_left _ _ c0) in *.
    constructor.
    + apply (inn_core v d _ c1 HI1).
    + apply (inn_levels v d _ c1 HI1).
    + intros p dp Hp Hdp HpR Hlp.
      destruct (inn_done v d _ c1 HI1 p dp Hp Hdp HpR Hlp) as [->|[H|H]].
      * right. intros n [Hin Hn0]. apply (inn_pre v d _ c1 HI1 n Hin Hn0).
      * left. exact H.
      * right. exact H.
Qed.

Lemma cascade_step_None (c : Cascade) :
  cascade_step system_at R ty m c = None -> toVisit c = [].
Proof.
  unfold cascade_step. destruct (toVisit c) as [|[v j] rest]; [reflexivity|].
  destruct (Z.leb R j); discriminate.
Qed.

(** The loop keeps the invariant, and leaves with an empty queue. *)
Lemma cascade_loop_Inv (fuel : nat) :
  forall c c', Inv c ->
    cascade_loop system_at fuel R ty m c = Some c' ->
    Inv c' /\ toVisit c' = [].
Proof.
  induction fuel as [|fuel IH]; intros c c' HI Hloop; simpl in Hloop;
    destruct (cascade_step system_at R ty m c) as [c1|] eqn:Hstep.
  - discriminate.
  - inversion Hloop; subst c'. split; [exact HI|].
    apply cascade_step_None, Hstep.
  - apply (IH c1 c'); [|exact Hloop]. apply (cascade_step_Inv c c1 HI Hstep).
  - inversion Hloop; subst c'. split; [exact HI|].
    apply cascade_step_None, Hstep.
Qed.

(** The state in which the loop is entered. *)
Definition cascade_init : Cascade :=
  {| visited := {[A]}; toVisit := [(A, 0)]; recorded := [] |}.

Lemma cascade_init_Inv : Inv cascade_init.
Proof.
  constructor; [constructor|..]; simpl.
  - apply elem_of_singleton. reflexivity.
  - intros s Hs. apply elem_of_singleton in Hs. subst s.
    exists O. split; [apply dist_start|]. split; [simpl; lia|].
    intros Hne. contradiction.
  - intros v j [Heq|[]]. inversion Heq as [[Hv Hj]]. rewrite <- Hv.
    split; [apply elem_of_singleton; reflexivity|].
    exists O. split; [reflexivity|]. split; [apply dist_start|].
    rewrite mag_at_O. lia.
  - intros s t g [].
  - constructor.
  - split; [intros ? ? []|exact I].
  - intros p d Hp Hd _ _. apply elem_of_singleton in Hp. subst p.
    rewrite (dist_unique A d O Hd dist_start). left. left. reflexivity.
Qed.

(** What the loop has recorded when it is left. *)
Lemma cascade_result (c : Cascade) :
  Inv c -> toVisit c = [] ->
  NoDup (map (fun x => fst (fst x)) (recorded c))
  /\ forall s t g,
       In (s, t, g) (recorded c) <->
       s <> A /\ t = ty /\ 0 < g
       /\ exists d, dist s d /\ Z.of_nat d <= R /\ g = mag_at d.
Proof.
  intros HI Hq. split; [apply (core_nodup c (inv_core c HI))|].
  intros s t g. split.
  - intros Hin.
    destruct (core_rec c (inv_core c HI) s t g Hin)
      as (Hs & HsA & Ht & Hg & d & Hd & Hgd).
    repeat split; try assumption. exists d. split; [exact Hd|].
    split; [|exact Hgd].
    destruct (core_dist c (inv_core c HI) s Hs) as (d' & Hd' & HR' & _).
    rewrite (dist_unique s d d' Hd Hd'). exact HR'.
  - intros (HsA & -> & Hg & d & Hd & HdR & ->).
    assert (Hs : s ∈ visited c).
    { apply (visited_within c d HI) with (k := d); try assumption.
      - rewrite Hq. intros w i [].
      - apply Hd.
      - lia. }
    destruct (core_dist c (inv_core c HI) s Hs) as (d' & Hd' & _ & Hrec).
    rewrite (dist_unique s d d' Hd Hd') in *.
    apply Hrec; assumption.
Qed.

(** *** Termination on a finite graph *)

Variable universe : list N.
Hypothesis Hclosed : closed_under_links system_at universe = true.

Lemma universe_link (s n : N) :
  In s universe -> In n (Links (system_at s)) -> n <> 0%N -> In n universe.
Proof.
  intros Hs Hn Hn0. unfold closed_under_links in Hclosed.
  rewrite forallb_forall in Hclosed. specialize (Hclosed s Hs).
  rewrite forallb_forall in Hclosed. specialize (Hclosed n Hn).
  apply orb_true_iff in Hclosed. destruct Hclosed as [H|H].
  - unfold is_null in H. apply N.eqb_eq in H. contradiction.
  - apply existsb_exists in H. destruct H as (x & Hx & Heq).
    apply N.eqb_eq in Heq. subst x. exact Hx.
Qed.

(** The locations of the graph that are not visited yet. *)
Definition unvisited (l : list N) (vis : gset N) : nat :=
  length (List.filter (fun u => negb (bool_decide (u ∈ vis))) l).

Lemma unvisited_mark_le (l : list N) (vis : gset N) (n : N) :
  (unvisited l ({[n]} ∪ vis) <= unvisited l vis)%nat.
Proof.
  unfold unvisited. induction l as [|u l IH]; simpl; [lia|].
  destruct (bool_decide (u ∈ vis)) eqn:E1;
    destruct (bool_decide (u ∈ {[n]} ∪ vis)) eqn:E2; simpl; try lia.
  apply bool_decide_eq_true in E1. apply bool_decide_eq_false in E2.
  exfalso. apply E2, elem_of_union_r, E1.
Qed.

Lemma unvisited_mark_lt (l : list N) (vis : gset N) (n : N) :
  In n l -> n ∉ vis ->
  (unvisited l ({[n]} ∪ vis) < unvisited l vis)%nat.
Proof.
  unfold unvisited. induction l as [|u l IH]; intros Hin Hnv; [destruct Hin|].
  simpl. destruct Hin as [->|Hin].
  - assert (E1 : bool_decide (n ∈ vis) = false)
      by (apply bool_decide_eq_false; exact Hnv).
    assert (E2 : bool_decide (n ∈ {[n]} ∪ vis) = true).
    { apply bool_decide_eq_true, elem_of_union_l, elem_of_singleton.
      reflexivity. }
    rewrite E1, E2. simpl.
    pose proof (unvisited_mark_le l vis n) as Hle. unfold unvisited in Hle.
    lia.
  - specialize (IH Hin Hnv).
    destruct (bool_decide (u ∈ vis)) eqn:E1;
      destruct (bool_decide (u ∈ {[n]} ∪ vis)) eqn:E2; simpl; try lia.
    apply bool_decide_eq_true in E1. apply bool_decide_eq_false in E2.
    exfalso. apply E2, elem_of_union_r, E1.
Qed.

(** The measure that each iteration of the [while] loop decreases. *)
Definition measure (c : Cascade) : nat :=
  (unvisited universe (visited c) + length (toVisit c))%nat.

Definition queue_in_universe (c : Cascade) : Prop :=
  forall v j, In (v, j) (toVisit c) -> In v universe.

Lemma visit_neighbor_measure (d : Z) (c : Cascade) (n : N) :
  (n <> 0%N -> In n universe) ->
  queue_in_universe c ->
  (measure (visit_neighbor ty m d c n) <= measure c)%nat
  /\ queue_in_universe (visit_neighbor ty m d c n).
Proof.
  intros Hn Hq. unfold visit_neighbor, is_null.
  destruct (N.eqb_spec n 0) as [Hn0|Hn0]; simpl; [split; [lia|exact Hq]|].
  destruct (bool_decide (n ∈ visited c)) eqn:Hvis; [split; [lia|exact Hq]|].
  apply bool_decide_eq_false in Hvis.
  pose proof (unvisited_mark_lt universe (visited c) n (Hn Hn0) Hvis) as Hlt.
  destruct (Z.leb (propagatedMagnitude m d) 0); unfold measure; simpl.
  - split; [lia|exact Hq].
  - rewrite length_app. simpl. split; [lia|].
    intros v j Hin. apply in_app_or in Hin. destruct Hin as [Hin|[Heq|[]]].
    + apply (Hq v j Hin).
    + inversion Heq; subst. apply Hn, Hn0.
Qed.

Lemma fold_visit_measure (d : Z) (ns : list N) :
  forall c, (forall n, In n ns -> n <> 0%N -> In n universe) ->
    queue_in_universe c ->
    (measure (fold_left (visit_neighbor ty m d) ns c) <= measure c)%nat
    /\ queue_in_universe (fold_left (visit_neighbor ty m d) ns c).
Proof.
  induction ns as [|n ns IH]; intros c Hns Hq; simpl; [split; [lia|exact Hq]|].
  destruct (visit_neighbor_measure d c n) as [Hle Hq'];
    [apply Hns; left; reflexivity|exact Hq|].
  destruct (IH (visit_neighbor ty m d c n)) as [Hle' Hq''];
    [intros n' Hn'; apply Hns; right; exact Hn'|exact Hq'|].
  split; [lia|exact Hq''].
Qed.

Lemma cascade_step_measure (c c' : Cascade) :
  queue_in_universe c ->
  cascade_step system_at R ty m c = Some c' ->
  (measure c' < measure c)%nat /\ queue_in_universe c'.
Proof.
  intros Hq Hstep. unfold cascade_step in Hstep.
  destruct (toVisit c) as [|[v j] rest] eqn:Eq; [discriminate|].
  assert (Hv : In v universe) by (apply (Hq v j); rewrite Eq; left; reflexivity).
  set (c0 := {| visited := visited c; toVisit := rest;
                recorded := recorded c |}) in *.
  assert (Hm0 : S (measure c0) = measure c).
  { unfold measure. rewrite Eq. simpl. lia. }
  assert (Hq0 : queue_in_universe c0).
  { intros w i Hin. apply (Hq w i). rewrite Eq. right. exact Hin. }
  destruct (Z.leb R j).
  - inversion Hstep; subst c'. split; [lia|exact Hq0].
  - inversion Hstep as [Hc']. clear Hstep.
    destruct (fold_visit_measure j (Links (system_at v)) c0) as [Hle Hq1];
      [intros n Hn Hn0; apply (universe_link v n Hv Hn Hn0)|exact Hq0|].
    split; [lia|exact Hq1].
Qed.

(** With at least as much fuel as the measure, the loop is left. *)
Lemma cascade_loop_terminates (fuel : nat) :
  forall c, queue_in_universe c -> (measure c <= fuel)%nat ->
    exists c', cascade_loop system_at fuel R ty m c = Some c'.
Proof.
  induction fuel as [|fuel IH]; intros c Hq Hfuel; simpl;
    destruct (cascade_step system_at R ty m c) as [c1|] eqn:Hstep;
    try (exists c; reflexivity).
  - destruct (cascade_step_measure c c1 Hq Hstep) as [Hlt _]. lia.
  - destruct (cascade_step_measure c c1 Hq Hstep) as [Hlt Hq1].
    apply IH; [exact Hq1|lia].
Qed.

(** More fuel does not change the result. *)
Lemma cascade_loop_fuel (fuel : nat) :
  forall c c' fuel', (fuel <= fuel')%nat ->
    cascade_loop system_at fuel R ty m c = Some c' ->
    cascade_loop system_at fuel' R ty m c = Some c'.
Proof.
  induction fuel as [|fuel IH]; intros c c' fuel' Hle Hloop; simpl in Hloop;
    destruct (cascade_step system_at R ty m c) as [c1|] eqn:Hstep;
    try discriminate.
  - destruct fuel'; simpl; rewrite Hstep; exact Hloop.
  - destruct fuel' as [|fuel']; [lia|]. simpl. rewrite Hstep.
    apply IH; [lia|exact Hloop].
  - destruct fuel'; simpl; rewrite Hstep; exact Hloop.
Qed.

Lemma cascade_init_measure :
  In A universe -> (measure cascade_init <= length universe)%nat.
Proof.
  intros HA. unfold measure, cascade_init. simpl.
  assert (Hlt : (unvisited universe ({[A]} ∪ ∅) < unvisited universe ∅)%nat).
  { apply unvisited_mark_lt; [exact HA|]. apply not_elem_of_empty. }
  rewrite (right_id_L ∅ (∪)) in Hlt.
  assert (Hle : (unvisited universe ∅ <= length universe)%nat).
  { unfold unvisited. apply filter_length_le. }
  lia.
Qed.

End Cascade.

Section WithDate.

Context {Date : Type}.
Variable system_at : N -> System.

(** C3. On a finite location graph (cyclic or not), for a start [A], a
    cascade radius of at least 1 and a positive magnitude [m],
    [PropagateEffects] terminates, and the events it records downstream are
    exactly these: one event, of the type given, at each location other than
    [A] whose hop distance [d] from [A] is at most the radius and whose
    share floor(m / 2^d) of the magnitude is not 0, with that share as its
    magnitude. So nothing is recorded at [A], nothing farther than the radius,
    and nothing from the distance on at which the share is 0. *)
Theorem PropagateEffects_cascade (e : SystemEconomy (Date := Date)) (A : N)
    (ty : EconomicEventType) (m : Z) (universe : list N) :
  A <> 0%N ->
  1 <= cascadeRadius (config e) ->
  0 < m < 2 ^ 31 ->
  In A universe ->
  closed_under_links system_at universe = true ->
  exists calls,
    (forall fuel, (length universe <= fuel)%nat ->
       PropagateEffects system_at fuel e A ty m = Some calls)
    /\ NoDup (map (fun x => fst (fst x)) calls)
    /\ forall s t g,
         In (s, t, g) calls <->
         s <> A /\ t = ty /\ 0 < g
         /\ exists d, hop_distance system_at A s d
                      /\ Z.of_nat d <= cascadeRadius (config e)
                      /\ g = m / 2 ^ Z.of_nat d.
Proof.
  intros HA HR Hm HAu Hclosed.
  set (R := cascadeRadius (config e)) in *.
  destruct (cascade_loop_terminates system_at R ty m universe Hclosed
              (length universe) (cascade_init A)) as [c' Hc'].
  { intros v j [Heq|[]]. inversion Heq; subst. exact HAu. }
  { apply cascade_init_measure; assumption. }
  pose proof (cascade_init_Inv system_at A R ty m HR Hm) as Hinit.
  assert (HIq : Inv system_at A R ty m c' /\ toVisit c' = []).
  { eapply cascade_loop_Inv; eassumption. }
  destruct HIq as [HI Hq].
  destruct (cascade_result system_at A R ty m Hm c' HI Hq) as [Hnd Hiff].
  exists (recorded c'). split; [|split; [exact Hnd|exact Hiff]].
  intros fuel Hfuel. unfold PropagateEffects, is_null.
  destruct (N.eqb_spec A 0) as [->|_]; [congruence|].
  fold R.
  destruct (Z.leb_spec R 0) as [Hbad|_]; [lia|].
  destruct (Z.leb_spec m 0) as [Hbad|_]; [lia|].
  cbn [orb].
  change {| visited := {[A]}; toVisit := [(A, 0)]; recorded := [] |}
    with (cascade_init A).
  rewrite (cascade_loop_fuel system_at R ty m (length universe)
             (cascade_init A) c' fuel Hfuel Hc').
  reflexivity.
Qed.

(** The shift of the source is never asked for more than 31 bits: a
    location is expanded only if its own share of the magnitude is positive,
    which bounds its distance by 30. *)
Lemma expanded_distance_bound (m : Z) (d : nat) :
  0 < m < 2 ^ 31 -> 0 < m / 2 ^ Z.of_nat d -> (d <= 30)%nat.
Proof.
  intros Hm Hlive. destruct (Nat.le_gt_cases d 30) as [H|H]; [exact H|].
  exfalso. rewrite Z.div_small in Hlive; [lia|].
  split; [lia|].
  assert (2 ^ 31 <= 2 ^ Z.of_nat d) by (apply Z.pow_le_mono_r; lia). lia.
Qed.

End WithDate.

(** A cyclic graph of five locations: 1 - 2 - 4 - 5 in a chain, 3 linked
    from 1 and 2, every link back and forth, and a null link at 1. *)
Definition sample_links (s : N) : list N :=
  match s with
  | 1 => [2; 3; 0]
  | 2 => [1; 3; 4]
  | 3 => [1; 2]
  | 4 => [5; 2]
  | 5 => [4]
  | _ => []
  end%N.

Definition sample_system_at (s : N) : System :=
  {| Links := sample_links s; Danger := 0; IsInhabited := true;
     DisplayName := EmptyString |}.

Definition sample_universe : list N := [1; 2; 3; 4; 5]%N.

Lemma PropagateEffects_cascade_witness :
  exists calls,
    (forall fuel, (5 <= fuel)%nat ->
       PropagateEffects sample_system_at fuel (SystemEconomy_new 0) 1%N
         MERCHANT_DESTROYED 5 = Some calls)
    /\ NoDup (map (fun x => fst (fst x)) calls)
    /\ forall s t g,
         In (s, t, g) calls <->
         s <> 1%N /\ t = MERCHANT_DESTROYED /\ 0 < g
         /\ exists d, hop_distance sample_system_at 1%N s d
                      /\ Z.of_nat d <= 2
                      /\ g = 5 / 2 ^ Z.of_nat d.
Proof.
  apply (PropagateEffects_cascade sample_system_at (SystemEconomy_new 0) 1%N
           MERCHANT_DESTROYED 5 sample_universe).
  - discriminate.
  - simpl. lia.
  - lia.
  - left. reflexivity.
  - reflexivity.
Defined.

(** On that graph, a loss of magnitude 5 at location 1 with the default
    radius 2 records 2 at the neighbours 2 and 3, and 1 at location 4; the
    location 5, three hops away, gets nothing. *)
Example PropagateEffects_sample :
  PropagateEffects sample_system_at 5 (SystemEconomy_new 0) 1%N
    MERCHANT_DESTROYED 5
  = Some [(2%N, MERCHANT_DESTROYED, 2); (3%N, MERCHANT_DESTROYED, 2);
          (4%N, MERCHANT_DESTROYED, 1)].
Proof. vm_compute. reflexivity. Qed.

End CascadeFacts.

(** ** Properties of the witness engine *)

Module WitnessFacts.
Import Witness.

(** *** The delayed report queue *)

(** The calls [EliminateWitness(s)] made on one report for the ships
    [ships], in order. *)
Definition eliminate_all (ships : list N) (r : WitnessReport) : WitnessReport :=
  fold_left (fun r s => fst (EliminateWitness r s)) ships r.

(** A run of the queue, sweep after sweep: before each sweep,
    [NotifyShipDestroyed] is called for the ships of one element of [days].
    The result lists what each sweep has returned as ready, and gives the
    system after the last sweep. *)
Fixpoint run (days : list (list N)) (w : WitnessSystem)
  : list (list WitnessReport) * WitnessSystem :=
  match days with
  | [] => ([], w)
  | ships :: rest =>
      let '(ready, w) := StepReports (fold_left NotifyShipDestroyed ships w) in
      let '(readies, w) := run rest w in
      (ready :: readies, w)
  end.

Lemma NotifyShipDestroyed_all (ships : list N) :
  forall w,
    pendingReports (fold_left NotifyShipDestroyed ships w)
    = map (eliminate_all ships) (pendingReports w).
Proof.
  induction ships as [|s ships IH]; intros w; simpl.
  - symmetry. apply map_id.
  - rewrite IH. unfold NotifyShipDestroyed. simpl. rewrite map_map.
    reflexivity.
Qed.

Lemma sweep_app (l1 l2 : list WitnessReport) :
  sweep (l1 ++ l2)
  = (fst (sweep l1) ++ fst (sweep l2), snd (sweep l1) ++ snd (sweep l2)).
Proof.
  induction l1 as [|r l1 IH]; simpl.
  - destruct (sweep l2); reflexivity.
  - rewrite IH. destruct (sweep l1) as [ready kept]. simpl.
    destruct (sweep_report r); reflexivity.
Qed.

(** The sweep treats each report of the queue on its own: it returns the
    reports that are ready and keeps those that are pending, in order. *)
Lemma sweep_per_report (l : list WitnessReport) :
  sweep l
  = (omap (fun r => match sweep_report r with
                    | Ready r' => Some r'
                    | _ => None
                    end) l,
     omap (fun r => match sweep_report r with
                    | Pending r' => Some r'
                    | _ => None
                    end) l).
Proof.
  induction l as [|r l IH]; simpl; [reflexivity|].
  rewrite IH. destruct (sweep_report r); reflexivity.
Qed.

(** A report that the sweep discards leaves no trace: the sweep returns and
    keeps what it would without it. *)
Lemma sweep_discarded (l1 l2 : list WitnessReport) (r : WitnessReport) :
  sweep_report r = Discarded -> sweep (l1 ++ r :: l2) = sweep (l1 ++ l2).
Proof.
  intros Hr. rewrite !sweep_app. simpl. rewrite Hr.
  destruct (sweep l2); reflexivity.
Qed.

Lemma sweep_report_discarded (r : WitnessReport) :
  canBeSuppressed r = true -> activeWitnesses r = [] ->
  sweep_report r = Discarded.
Proof.
  intros Hs Hw. unfold sweep_report, AllWitnessesEliminated.
  rewrite Hs, Hw. reflexivity.
Qed.

Lemma canBeSuppressed_eliminate_all (ships : list N) :
  forall r, canBeSuppressed (eliminate_all ships r) = canBeSuppressed r.
Proof.
  induction ships as [|s ships IH]; intros r; simpl; [reflexivity|].
  unfold eliminate_all in IH. rewrite IH. unfold EliminateWitness.
  destruct (canBeSuppressed r) eqn:E; simpl; exact E.
Qed.

Lemma erase_first_absent (s : N) (l : list N) :
  ~ In s l -> erase_first s l = l.
Proof.
  induction l as [|x l IH]; intros Hn; simpl; [reflexivity|].
  destruct (N.eqb_spec x s) as [->|Hne].
  - exfalso. apply Hn. left. reflexivity.
  - f_equal. apply IH. intros Hin. apply Hn. right. exact Hin.
Qed.

Lemma erase_first_In (s x : N) (l : list N) :
  In x (erase_first s l) -> In x l.
Proof.
  induction l as [|y l IH]; simpl; [tauto|].
  destruct (N.eqb_spec y s) as [->|Hne]; simpl; [tauto|].
  intros [H|H]; [left; exact H|right; apply IH, H].
Qed.

(** [erase_first] takes one occurrence of the ship away, if there is one. *)
Lemma erase_first_count (s x : N) (l : list N) :
  count_occ N.eq_dec (erase_first s l) x
  = if N.eqb x s then Nat.pred (count_occ N.eq_dec l x)
    else count_occ N.eq_dec l x.
Proof.
  induction l as [|y l IH]; simpl.
  - destruct (N.eqb x s); reflexivity.
  - destruct (N.eqb_spec y s) as [->|Hys].
    + destruct (N.eq_dec s x) as [->|Hsx].
      * rewrite N.eqb_refl. reflexivity.
      * destruct (N.eqb_spec x s) as [->|_]; [congruence|reflexivity].
    + simpl. rewrite IH.
      destruct (N.eq_dec y x) as [->|Hyx].
      * destruct (N.eqb_spec x s) as [->|_]; [congruence|reflexivity].
      * reflexivity.
Qed.

(** What is left of the witness list of a suppressible report after the
    eliminations [ships]: each ship as many times as it was listed, less the
    number of times it was eliminated. *)
Lemma eliminate_all_count (ships : list N) :
  forall r x,
    canBeSuppressed r = true ->
    count_occ N.eq_dec (activeWitnesses (eliminate_all ships r)) x
    = (count_occ N.eq_dec (activeWitnesses r) x
       - count_occ N.eq_dec ships x)%nat.
Proof.
  induction ships as [|s ships IH]; intros r x Hs; simpl.
  - lia.
  - unfold eliminate_all in IH. rewrite IH.
    + unfold EliminateWitness. rewrite Hs. simpl.
      rewrite erase_first_count.
      destruct (N.eq_dec s x) as [->|Hsx].
      * rewrite N.eqb_refl. lia.
      * destruct (N.eqb_spec x s) as [->|_]; [congruence|reflexivity].
    + unfold EliminateWitness. rewrite Hs. simpl. exact Hs.
Qed.

(** A suppressible report is discarded by the sweep exactly when the
    eliminations cover its witness list, entry by entry. *)
Lemma sweep_report_eliminated (ships : list N) (r : WitnessReport) :
  canBeSuppressed r = true ->
  sweep_report (eliminate_all ships r) = Discarded
  <-> forall s,
        (count_occ N.eq_dec (activeWitnesses r) s
         <= count_occ N.eq_dec ships s)%nat.
Proof.
  intros Hs.
  pose proof (canBeSuppressed_eliminate_all ships r) as Hs'.
  rewrite Hs in Hs'.
  assert (Hnil : activeWitnesses (eliminate_all ships r) = []
                 <-> forall s,
                       (count_occ N.eq_dec (activeWitnesses r) s
                        <= count_occ N.eq_dec ships s)%nat).
  { rewrite <- (count_occ_inv_nil N.eq_dec). split; intros H x.
    - specialize (H x). rewrite eliminate_all_count in H by exact Hs. lia.
    - rewrite eliminate_all_count by exact Hs. specialize (H x). lia. }
  rewrite <- Hnil. split.
  - intros H. unfold sweep_report in H.
    destruct (AllWitnessesEliminated (eliminate_all ships r)) eqn:E.
    + unfold AllWitnessesEliminated in E. rewrite Hs' in E.
      destruct (activeWitnesses (eliminate_all ships r));
        [reflexivity|discriminate E].
    + destruct (Step (eliminate_all ships r)) as [r' done].
      destruct done; discriminate H.
  - apply sweep_report_discarded. exact Hs'.
Qed.

(** For a witness list that names no ship twice, the eliminations cover it
    as soon as every ship of the list is among them. *)
Lemma NoDup_covered (l ships : list N) :
  NoDup l -> (forall s, In s l -> In s ships) ->
  forall s, (count_occ N.eq_dec l s <= count_occ N.eq_dec ships s)%nat.
Proof.
  intros Hnd Hall s.
  apply NoDup_ListNoDup in Hnd.
  pose proof (proj1 (NoDup_count_occ N.eq_dec l) Hnd s) as H1.
  destruct (in_dec N.eq_dec s l) as [Hin|Hout].
  - apply Hall in Hin. apply (count_occ_In N.eq_dec) in Hin. lia.
  - apply (count_occ_not_In N.eq_dec) in Hout. lia.
Qed.

Lemma EliminateWitness_not_suppressible (r : WitnessReport) (s : N) :
  canBeSuppressed r = false -> EliminateWitness r s = (r, false).
Proof. intros Hs. unfold EliminateWitness. rewrite Hs. reflexivity. Qed.

Lemma eliminate_all_not_suppressible (ships : list N) (r : WitnessReport) :
  canBeSuppressed r = false -> eliminate_all ships r = r.
Proof.
  intros Hs. induction ships as [|s ships IH]; simpl; [reflexivity|].
  rewrite EliminateWitness_not_suppressible by exact Hs. exact IH.
Qed.

Lemma sweep_report_not_suppressible (r : WitnessReport) :
  canBeSuppressed r = false ->
  sweep_report r =
    if Z.leb (framesRemaining r) 1
    then Ready (if Z.ltb 0 (framesRemaining r)
                then set_framesRemaining r (framesRemaining r - 1) else r)
    else Pending (set_framesRemaining r (framesRemaining r - 1)).
Proof.
  intros Hs. unfold sweep_report, AllWitnessesEliminated, Step.
  rewrite Hs. simpl.
  destruct (Z.ltb_spec 0 (framesRemaining r)) as [Hpos|Hneg]; simpl.
  - destruct (Z.leb_spec (framesRemaining r - 1) 0);
      destruct (Z.leb_spec (framesRemaining r) 1); try lia; reflexivity.
  - destruct (Z.leb_spec (framesRemaining r) 0);
      destruct (Z.leb_spec (framesRemaining r) 1); try lia; reflexivity.
Qed.

(** One sweep, with the eliminations before it, treats the reports of the
    queue one by one. *)
Lemma StepReports_after (ships : list N) (l : list WitnessReport) :
  StepReports (fold_left NotifyShipDestroyed ships {| pendingReports := l |})
  = (fst (sweep (map (eliminate_all ships) l)),
     {| pendingReports := snd (sweep (map (eliminate_all ships) l)) |}).
Proof.
  unfold StepReports. rewrite NotifyShipDestroyed_all. simpl.
  destruct (sweep _). reflexivity.
Qed.

(** In a run, the reports of the queue do not influence one another: the
    run of a queue in two pieces is made of the runs of the pieces. *)
Lemma run_app (days : list (list N)) :
  forall l1 l2 : list WitnessReport,
    fst (run days {| pendingReports := l1 ++ l2 |})
    = zip_with app (fst (run days {| pendingReports := l1 |}))
        (fst (run days {| pendingReports := l2 |}))
    /\ pendingReports (snd (run days {| pendingReports := l1 ++ l2 |}))
       = pendingReports (snd (run days {| pendingReports := l1 |}))
         ++ pendingReports (snd (run days {| pendingReports := l2 |})).
Proof.
  induction days as [|ships days IH]; intros l1 l2.
  - split; reflexivity.
  - cbn [run]. rewrite !StepReports_after.
    rewrite map_app, sweep_app. cbn [fst snd].
    set (k1 := snd (sweep (map (eliminate_all ships) l1))).
    set (k2 := snd (sweep (map (eliminate_all ships) l2))).
    destruct (IH k1 k2) as [IHr IHp].
    destruct (run days {| pendingReports := k1 ++ k2 |}) as [rs w].
    destruct (run days {| pendingReports := k1 |}) as [rs1 w1].
    destruct (run days {| pendingReports := k2 |}) as [rs2 w2].
    cbn [fst snd] in *. subst rs. split; [reflexivity|exact IHp].
Qed.

(** A report that cannot be suppressed, alone in the queue: whatever is
    eliminated, it is still pending, with its countdown alone changed, after
    fewer sweeps than its countdown, and no sweep has returned it. *)
Lemma run_not_suppressible_pending (days : list (list N)) :
  forall r,
    canBeSuppressed r = false ->
    Z.of_nat (length days) < framesRemaining r ->
    run days {| pendingReports := [r] |}
    = (repeat [] (length days),
       {| pendingReports :=
            [set_framesRemaining r
               (framesRemaining r - Z.of_nat (length days))] |}).
Proof.
  induction days as [|ships days IH]; intros r Hs Hlt.
  - simpl. rewrite Z.sub_0_r. destruct r; reflexivity.
  - cbn [run]. rewrite StepReports_after. cbn [map sweep].
    rewrite eliminate_all_not_suppressible by exact Hs.
    rewrite sweep_report_not_suppressible by exact Hs.
    cbn [length] in Hlt. rewrite Nat2Z.inj_succ in Hlt.
    destruct (Z.leb_spec (framesRemaining r) 1) as [H1|H1]; [lia|].
    cbn [fst snd]. rewrite IH; [|exact Hs|simpl; lia].
    cbn [length repeat]. do 3 f_equal.
    unfold set_framesRemaining. simpl. f_equal. lia.
Qed.

(** The sweep at which such a report is due returns it and takes it off the
    queue. *)
Lemma run_not_suppressible_due (ships : list N) (r : WitnessReport) :
  canBeSuppressed r = false ->
  framesRemaining r <= 1 ->
  run [ships] {| pendingReports := [r] |}
  = ([[if Z.ltb 0 (framesRemaining r) then set_framesRemaining r 0 else r]],
     {| pendingReports := [] |}).
Proof.
  intros Hs Hle. cbn [run]. rewrite StepReports_after. cbn [map sweep].
  rewrite eliminate_all_not_suppressible by exact Hs.
  rewrite sweep_report_not_suppressible by exact Hs.
  destruct (Z.leb_spec (framesRemaining r) 1) as [_|H1]; [|lia].
  cbn [fst snd].
  destruct (Z.ltb_spec 0 (framesRemaining r)) as [H0|H0]; [|reflexivity].
  replace (framesRemaining r - 1) with 0 by lia. reflexivity.
Qed.

Lemma run_days_app (days1 days2 : list (list N)) :
  forall w,
    run (days1 ++ days2) w
    = (fst (run days1 w) ++ fst (run days2 (snd (run days1 w))),
       snd (run days2 (snd (run days1 w)))).
Proof.
  induction days1 as [|ships days1 IH]; intros w.
  - simpl. destruct (run days2 w). reflexivity.
  - cbn [app run].
    destruct (StepReports (fold_left NotifyShipDestroyed ships w)) as [rd w1].
    rewrite IH. destruct (run days1 w1) as [rs w2]. cbn [fst snd].
    destruct (run days2 w2). reflexivity.
Qed.

(** C6, as the code has it. [activeWitnesses] is a vector, and
    [EliminateWitness] takes one entry of it away at a time. A suppressible
    report is discarded by the sweep that follows the eliminations [ships]
    exactly when they cover its witness list entry by entry (a ship listed
    [k] times has been eliminated [k] times); for a list that names no ship
    twice it is enough that every ship of the list has been eliminated. The
    sweep then returns and keeps what it would if the report had never been
    queued. On a report that is not suppressible, [EliminateWitness] changes
    nothing and answers false. In a run of [StepReports] with any
    eliminations in between, the reports of the queue do not influence one
    another, and a report that is not suppressible, with a countdown
    [n >= 1], is pending after each of the first [n - 1] sweeps, none of
    which returns it, and is returned as ready, with its witness list
    untouched, by sweep number [n], which takes it off the queue; with a
    countdown that is not positive it is returned by the first sweep. *)
Theorem witness_elimination (r : WitnessReport) :
  (canBeSuppressed r = true ->
   forall (ships : list N),
     (sweep_report (eliminate_all ships r) = Discarded
      <-> forall s, (count_occ N.eq_dec (activeWitnesses r) s
                     <= count_occ N.eq_dec ships s)%nat)
     /\ (NoDup (activeWitnesses r) ->
         (forall s, In s (activeWitnesses r) -> In s ships) ->
         forall s, (count_occ N.eq_dec (activeWitnesses r) s
                    <= count_occ N.eq_dec ships s)%nat)
     /\ ((forall s, (count_occ N.eq_dec (activeWitnesses r) s
                     <= count_occ N.eq_dec ships s)%nat) ->
         forall l1 l2 : list WitnessReport,
           StepReports
             (fold_left NotifyShipDestroyed ships
                {| pendingReports := l1 ++ r :: l2 |})
           = StepReports
               (fold_left NotifyShipDestroyed ships
                  {| pendingReports := l1 ++ l2 |})))
  /\
  (canBeSuppressed r = false ->
   (forall s, EliminateWitness r s = (r, false))
   /\ (forall (days : list (list N)) (l1 l2 : list WitnessReport),
         fst (run days {| pendingReports := l1 ++ r :: l2 |})
         = zip_with app (fst (run days {| pendingReports := l1 |}))
             (zip_with app (fst (run days {| pendingReports := [r] |}))
                (fst (run days {| pendingReports := l2 |})))
         /\ pendingReports (snd (run days {| pendingReports := l1 ++ r :: l2 |}))
            = pendingReports (snd (run days {| pendingReports := l1 |}))
              ++ pendingReports (snd (run days {| pendingReports := [r] |}))
              ++ pendingReports (snd (run days {| pendingReports := l2 |})))
   /\ (forall days : list (list N),
         Z.of_nat (length days) < framesRemaining r ->
         run days {| pendingReports := [r] |}
         = (repeat [] (length days),
            {| pendingReports :=
                 [set_framesRemaining r
                    (framesRemaining r - Z.of_nat (length days))] |}))
   /\ (forall (days : list (list N)) (ships : list N),
         Z.of_nat (length days) + 1 = framesRemaining r ->
         run (days ++ [ships]) {| pendingReports := [r] |}
         = (repeat [] (length days) ++ [[set_framesRemaining r 0]],
            {| pendingReports := [] |}))
   /\ (forall ships : list N,
         framesRemaining r <= 0 ->
         run [ships] {| pendingReports := [r] |}
         = ([[r]], {| pendingReports := [] |}))).
Proof.
  split.
  - intros Hs ships. split; [apply sweep_report_eliminated, Hs|]. split.
    + apply NoDup_covered.
    + intros Hall l1 l2. rewrite !StepReports_after.
      rewrite !map_app. simpl.
      rewrite sweep_discarded; [reflexivity|].
      apply sweep_report_eliminated; assumption.
  - intros Hs. split; [|split; [|split; [|split]]].
    + intros s. apply EliminateWitness_not_suppressible, Hs.
    + intros days l1 l2.
      destruct (run_app days l1 (r :: l2)) as [Hr Hp].
      destruct (run_app days [r] l2) as [Hr' Hp'].
      cbn [app] in Hr', Hp'. rewrite Hr, Hp, Hr', Hp'. split; reflexivity.
    + intros days Hlt. apply run_not_suppressible_pending; assumption.
    + intros days ships Hn. rewrite run_days_app.
      rewrite run_not_suppressible_pending; [|exact Hs|lia].
      cbn [fst snd].
      rewrite run_not_suppressible_due; [| exact Hs | simpl; lia ].
      cbn [fst snd]. f_equal. f_equal.
      replace (framesRemaining r - Z.of_nat (length days)) with 1 by lia.
      reflexivity.
    + intros ships Hle.
      rewrite run_not_suppressible_due; [|exact Hs|lia].
      destruct (Z.ltb_spec 0 (framesRemaining r)) as [H0|_]; [lia|].
      reflexivity.
Qed.

(** C9. A report that is queued suppressible and with an empty witness list,
    as the six-argument constructor builds it, is discarded by the first
    sweep whatever its countdown: the sweep returns and keeps exactly what it
    would if the report had never been queued, and nobody needs to have been
    eliminated. *)
Theorem StepReports_discards_unwitnessed (r : WitnessReport)
    (l1 l2 : list WitnessReport) :
  canBeSuppressed r = true ->
  activeWitnesses r = [] ->
  sweep_report r = Discarded
  /\ StepReports {| pendingReports := l1 ++ r :: l2 |}
     = StepReports {| pendingReports := l1 ++ l2 |}.
Proof.
  intros Hs Hw.
  pose proof (sweep_report_discarded r Hs Hw) as Hd.
  split; [exact Hd|]. unfold StepReports. simpl.
  rewrite (sweep_discarded l1 l2 r Hd). reflexivity.
Qed.

(** The constructor leaves the report suppressible and without witnesses. *)
Lemma WitnessReport_new_unwitnessed (reportingGov victimGov : N)
    (eventType frames : Z) (system : N) (impact : Q) :
  canBeSuppressed
    (WitnessReport_new reportingGov victimGov eventType frames system impact)
  = true
  /\ activeWitnesses
       (WitnessReport_new reportingGov victimGov eventType frames system impact)
     = [].
Proof. split; reflexivity. Qed.

(** The report of the unit test "WitnessSystem stepping reports", built by
    the constructor with a countdown of 2, is gone after the first sweep. *)
Lemma StepReports_discards_unwitnessed_witness :
  sweep_report (WitnessReport_new 0 0 0 2 0 (5 # 1)) = Discarded
  /\ StepReports
       {| pendingReports := [] ++ WitnessReport_new 0 0 0 2 0 (5 # 1) :: [] |}
     = StepReports {| pendingReports := [] ++ [] |}.
Proof.
  apply (StepReports_discards_unwitnessed
           (WitnessReport_new 0 0 0 2 0 (5 # 1)) [] []); reflexivity.
Defined.

Example StepReports_first_sweep :
  StepReports (QueueReport WitnessSystem_new
                 (WitnessReport_new 0 0 0 2 0 (5 # 1)))
  = ([], {| pendingReports := [] |}).
Proof. reflexivity. Qed.

(** A suppressible report that waits for the ships 11 and 12, and a report
    that cannot be suppressed. *)
Definition sample_report : WitnessReport :=
  set_activeWitnesses (WitnessReport_new 1 2 0 60 3 (5 # 1)) [11; 12]%N.

Definition sample_firm_report : WitnessReport :=
  {| reportingGov := 1; victimGov := 2; eventType := 0; framesRemaining := 3;
     system := 3; reputationImpact := 5 # 1; canBeSuppressed := false;
     activeWitnesses := [11; 12]%N |}.

Lemma witness_elimination_witness :
  StepReports
    (fold_left NotifyShipDestroyed [12; 11]%N
       {| pendingReports := [] ++ sample_report :: [] |})
  = StepReports
      (fold_left NotifyShipDestroyed [12; 11]%N {| pendingReports := [] ++ [] |})
  /\ EliminateWitness sample_firm_report 11%N = (sample_firm_report, false)
  /\ run ([[11%N]; [12%N]] ++ [[]]) {| pendingReports := [sample_firm_report] |}
     = (repeat [] 2 ++ [[set_framesRemaining sample_firm_report 0]],
        {| pendingReports := [] |}).
Proof.
  split; [|split].
  - apply (proj2 (proj2 (proj1 (witness_elimination sample_report) eq_refl
                           [12; 11]%N))).
    intros s. change (activeWitnesses sample_report) with [11; 12]%N.
    cbn [count_occ].
    destruct (N.eq_dec 11%N s); destruct (N.eq_dec 12%N s); lia.
  - apply (proj2 (witness_elimination sample_firm_report)). reflexivity.
  - apply (proj1 (proj2 (proj2 (proj2
             (proj2 (witness_elimination sample_firm_report) eq_refl))))).
    reflexivity.
Defined.

(** A suppressible report whose witness list names the ship 11 twice. *)
Definition twice_report : WitnessReport :=
  set_activeWitnesses (WitnessReport_new 1 2 0 60 3 (5 # 1)) [11; 11]%N.

(** C6, as stated, fails: the only ship that the report waits for, 11, is
    listed twice; once it has been eliminated, before the report matures,
    the next sweep does not discard the report: one entry is left on its
    list and the report stays in the queue, one frame closer to delivery. *)
Lemma witness_listed_twice_not_discarded :
  canBeSuppressed twice_report = true
  /\ (forall s, In s (activeWitnesses twice_report) -> s = 11%N)
  /\ StepReports
       (NotifyShipDestroyed {| pendingReports := [twice_report] |} 11%N)
     = ([], {| pendingReports :=
                 [set_framesRemaining
                    (set_activeWitnesses twice_report [11%N]) 59] |})
  /\ StepReports
       (NotifyShipDestroyed {| pendingReports := [twice_report] |} 11%N)
     <> StepReports (NotifyShipDestroyed {| pendingReports := [] |} 11%N).
Proof.
  split; [reflexivity|]. split.
  - simpl. intros s [H|[H|[]]]; symmetry; exact H.
  - split; [reflexivity|discriminate].
Qed.

(** *** Witness detection *)

Section WithPoint.

Context {Point : Type}.
Variable Distance : Point -> Point -> Q.

Local Abbreviation Ship := (Ship (Point := Point)).

(** The range that [CheckWitnesses] hands to [CanWitness] for the observer
    [s]: the argument [customRange] when it is positive, the observer's own
    range otherwise. *)
Definition effective_range (customRange : Q) (s : Ship) : Q :=
  if Qltb 0 customRange then customRange else GetWitnessRange s.

Lemma GetWitnessRange_cases (s : Ship) :
  GetWitnessRange s
  = if HasEnhancedSensors s
    then (DEFAULT_WITNESS_RANGE * SENSOR_RANGE_MULTIPLIER)%Q
    else DEFAULT_WITNESS_RANGE.
Proof. reflexivity. Qed.

Lemma CanWitness_iff (observer : Ship) (eventLocation : Point)
    (perpetrator : option Ship) (range : Q) :
  CanWitness Distance observer eventLocation perpetrator range = true <->
  (Distance (Position observer) eventLocation <= range)%Q
  /\ (Cloaking observer < OBSERVER_CLOAK_THRESHOLD)%Q
  /\ forall p, perpetrator = Some p ->
       (Cloaking p < CLOAK_WITNESS_THRESHOLD)%Q.
Proof.
  unfold CanWitness.
  destruct (Qltb range (Distance (Position observer) eventLocation)) eqn:E1;
    [apply Qltb_true in E1|apply Qltb_false in E1].
  { split; [discriminate|]. intros [H _]. exfalso.
    apply (Qlt_not_le _ _ E1 H). }
  destruct (Qle_bool OBSERVER_CLOAK_THRESHOLD (Cloaking observer)) eqn:E2;
    [apply Qle_bool_iff in E2|apply Qle_bool_false in E2].
  { split; [discriminate|]. intros (_ & H & _). exfalso.
    apply (Qlt_not_le _ _ H E2). }
  destruct perpetrator as [p|].
  - destruct (Qle_bool CLOAK_WITNESS_THRESHOLD (Cloaking p)) eqn:E3;
      [apply Qle_bool_iff in E3|apply Qle_bool_false in E3].
    + split; [discriminate|]. intros (_ & _ & H). exfalso.
      apply (Qlt_not_le _ _ (H p eq_refl) E3).
    + split; [|reflexivity]. intros _. repeat split; try assumption.
      intros p' Hp'. inversion Hp'; subst. exact E3.
  - split; [|reflexivity]. intros _. repeat split; try assumption.
    intros p' Hp'. discriminate Hp'.
Qed.

Lemma check_ship_ship (eventLocation : Point) (perpetrator victim : option Ship)
    (customRange : Q) (s : Ship) (w : WitnessInfo) :
  check_ship Distance eventLocation perpetrator victim customRange s = Some w ->
  ship w = s.
Proof.
  unfold check_ship. intros H.
  repeat match type of H with
  | (if ?b then _ else _) = _ => destruct b; try discriminate H
  end.
  inversion H. reflexivity.
Qed.

Lemma CheckWitnesses_fold (eventLocation : Point)
    (perpetrator victim : option Ship) (customRange : Q) (ships : list Ship) :
  forall (acc : WitnessResult) (w : WitnessInfo),
    In w (witnesses
            (fold_left
               (fun result s =>
                  match check_ship Distance eventLocation perpetrator victim
                          customRange s with
                  | Some w => AddWitness result w
                  | None => result
                  end)
               ships acc))
    <-> In w (witnesses acc)
        \/ exists s, In s ships
             /\ check_ship Distance eventLocation perpetrator victim
                  customRange s = Some w.
Proof.
  induction ships as [|s ships IH]; intros acc w; simpl.
  - split; [intros H; left; exact H|].
    intros [H|(s & [] & _)]. exact H.
  - rewrite IH. split.
    + intros [H|(s' & Hs' & Hc)].
      * destruct (check_ship Distance eventLocation perpetrator victim
                    customRange s) as [w'|] eqn:E; [|left; exact H].
        unfold AddWitness in H. simpl in H. apply in_app_or in H.
        destruct H as [H|[<-|[]]]; [left; exact H|].
        right. exists s. split; [left; reflexivity|exact E].
      * right. exists s'. split; [right; exact Hs'|exact Hc].
    + intros [H|(s' & [<-|Hs'] & Hc)].
      * left. destruct (check_ship Distance eventLocation perpetrator victim
                          customRange s); [|exact H].
        unfold AddWitness. simpl. apply in_or_app. left. exact H.
      * left. rewrite Hc. unfold AddWitness. simpl. apply in_or_app.
        right. left. reflexivity.
      * right. exists s'. split; assumption.
Qed.

(** What [CheckWitnesses] does. A candidate observer other than the
    perpetrator and the victim, neither destroyed nor disabled, is among the
    witnesses that [CheckWitnesses] returns if and only if its distance to
    the event is at most the range used, its own cloaking is below 0.8 and
    the cloaking of the perpetrator, when there is one, is below 0.5. The
    range used is the argument [customRange] whenever that is positive; the
    observer's own range, which is the base range multiplied by the sensor
    multiplier for an observer with scanning equipment, is used only for a
    [customRange] that is not positive. *)
Theorem CheckWitnesses_includes_iff (eventLocation : Point)
    (perpetrator victim : option Ship) (nearbyShips : list Ship)
    (customRange : Q) (s : Ship) :
  In s nearbyShips ->
  ship_addr s <> ship_ptr perpetrator ->
  ship_addr s <> ship_ptr victim ->
  IsDestroyed s = false ->
  IsDisabled s = false ->
  ((exists w,
      In w (witnesses (CheckWitnesses Distance eventLocation perpetrator victim
                         nearbyShips customRange))
      /\ ship w = s)
   <->
   (Distance (Position s) eventLocation
    <= (if Qltb 0 customRange then customRange
        else if HasEnhancedSensors s
             then DEFAULT_WITNESS_RANGE * SENSOR_RANGE_MULTIPLIER
             else DEFAULT_WITNESS_RANGE))%Q
   /\ (Cloaking s < OBSERVER_CLOAK_THRESHOLD)%Q
   /\ forall p, perpetrator = Some p ->
        (Cloaking p < CLOAK_WITNESS_THRESHOLD)%Q).
Proof.
  intros Hin Hperp Hvict Hdes Hdis.
  rewrite <- GetWitnessRange_cases.
  rewrite <- (CanWitness_iff s eventLocation perpetrator
                (if Qltb 0 customRange then customRange else GetWitnessRange s)).
  assert (Hcheck : forall w,
    check_ship Distance eventLocation perpetrator victim customRange s = Some w
    -> CanWitness Distance s eventLocation perpetrator
         (if Qltb 0 customRange then customRange else GetWitnessRange s) = true).
  { intros w Hc. unfold check_ship in Hc. cbv zeta in Hc.
    destruct (N.eqb (ship_addr s) (ship_ptr perpetrator)
              || N.eqb (ship_addr s) (ship_ptr victim)); [discriminate Hc|].
    destruct (IsDestroyed s || IsDisabled s); [discriminate Hc|].
    destruct (CanWitness Distance s eventLocation perpetrator _);
      [reflexivity|discriminate Hc]. }
  unfold CheckWitnesses. split.
  - intros (w & Hw & Hship).
    apply CheckWitnesses_fold in Hw.
    destruct Hw as [Hw|(s' & Hs' & Hc)]; [destruct Hw|].
    pose proof (check_ship_ship _ _ _ _ _ _ Hc) as Heq.
    rewrite Hship in Heq. subst s'. apply (Hcheck w Hc).
  - intros Hcan.
    assert (Hsome : exists w,
      check_ship Distance eventLocation perpetrator victim customRange s
      = Some w).
    { unfold check_ship.
      apply N.eqb_neq in Hperp, Hvict. rewrite Hperp, Hvict, Hdes, Hdis.
      simpl. rewrite Hcan. simpl. eexists. reflexivity. }
    destruct Hsome as [w Hw]. exists w. split.
    + apply CheckWitnesses_fold. right. exists s. split; assumption.
    + apply (check_ship_ship _ _ _ _ _ _ Hw).
Qed.

End WithPoint.

(** Positions on a line, with the distance between two of them. *)
Definition line_distance (a b : Q) : Q :=
  if Qle_bool b a then (a - b)%Q else (b - a)%Q.

Definition plain_ship (addr : N) (position : Q) : Ship (Point := Q) :=
  {| ship_addr := addr; IsDestroyed := false; IsDisabled := false;
     Position := position; Cloaking := 0; Attributes := fun _ => 0%Q;
     GetGovernment := None |}.

(** An observer 6000 away from the event that carries a cargo scanner. *)
Definition scanner_ship : Ship (Point := Q) :=
  {| ship_addr := 3; IsDestroyed := false; IsDisabled := false;
     Position := 6000 # 1; Cloaking := 0;
     Attributes := fun name =>
       if String.eqb name "cargo scan power" then 1%Q else 0%Q;
     GetGovernment := None |}.

(** C7 at the failing input. [CheckWitnesses] is called with the range
    argument that its declaration supplies by default, the base range 5000.
    An observer with scanning equipment is 6000 away from the event: inside
    its own range [GetWitnessRange], which is 5000 x 1.5 = 7500, uncloaked,
    facing an uncloaked perpetrator, neither destroyed nor disabled. It is
    not among the witnesses: the default argument is positive and replaces
    the range computed for the observer, the sensor multiplier with it. The
    range of the observer is used only when the caller passes a range that
    is not positive; the same observer is then a witness. *)
Theorem CheckWitnesses_default_range_ignores_sensors :
  ship_addr scanner_ship <> ship_ptr (Some (plain_ship 1 0))
  /\ ship_addr scanner_ship <> ship_ptr (Some (plain_ship 2 0))
  /\ IsDestroyed scanner_ship = false /\ IsDisabled scanner_ship = false
  /\ HasEnhancedSensors scanner_ship = true
  /\ (GetWitnessRange scanner_ship
      == DEFAULT_WITNESS_RANGE * SENSOR_RANGE_MULTIPLIER)%Q
  /\ (line_distance (Position scanner_ship) 0
      <= GetWitnessRange scanner_ship)%Q
  /\ (Cloaking scanner_ship < OBSERVER_CLOAK_THRESHOLD)%Q
  /\ (Cloaking (plain_ship 1 0) < CLOAK_WITNESS_THRESHOLD)%Q
  /\ witnesses
       (CheckWitnesses line_distance 0%Q (Some (plain_ship 1 0))
          (Some (plain_ship 2 0)) [scanner_ship] DEFAULT_WITNESS_RANGE)
     = []
  /\ map ship
       (witnesses
          (CheckWitnesses line_distance 0%Q (Some (plain_ship 1 0))
             (Some (plain_ship 2 0)) [scanner_ship] 0%Q))
     = [scanner_ship].
Proof.
  repeat split; try discriminate.
Qed.

Lemma CheckWitnesses_includes_iff_witness :
  (exists w,
     In w (witnesses
             (CheckWitnesses line_distance 0%Q (Some (plain_ship 1 0))
                (Some (plain_ship 2 0)) [scanner_ship] 0%Q))
     /\ ship w = scanner_ship)
  <->
  (line_distance (Position scanner_ship) 0
   <= (if Qltb 0 0 then 0
       else if HasEnhancedSensors scanner_ship
            then DEFAULT_WITNESS_RANGE * SENSOR_RANGE_MULTIPLIER
            else DEFAULT_WITNESS_RANGE))%Q
  /\ (Cloaking scanner_ship < OBSERVER_CLOAK_THRESHOLD)%Q
  /\ forall p, Some (plain_ship 1 0) = Some p ->
       (Cloaking p < CLOAK_WITNESS_THRESHOLD)%Q.
Proof.
  apply (CheckWitnesses_includes_iff line_distance 0%Q (Some (plain_ship 1 0))
           (Some (plain_ship 2 0)) [scanner_ship] 0%Q scanner_ship).
  - left. reflexivity.
  - discriminate.
  - discriminate.
  - reflexivity.
  - reflexivity.
Defined.

(** The design document's scenario: without cloaking and without scanners,
    the clarity is 1 at distance 0 and 0 at distance 5000, for the range
    5000. *)
Example CalculateClarity_scenario :
  (CalculateClarity line_distance (plain_ship 3 0) 0%Q None
     DEFAULT_WITNESS_RANGE == 1)%Q
  /\ (CalculateClarity line_distance (plain_ship 3 (5000 # 1)) 0%Q None
        DEFAULT_WITNESS_RANGE == 0)%Q.
Proof. split; reflexivity. Qed.

(** The unit test of [WitnessReport::Step]: a countdown of 3 is over at the
    third step. *)
Example Step_three_times :
  let r0 := WitnessReport_new 0 0 0 3 0 (10 # 1) in
  let '(r1, ready1) := Step r0 in
  let '(r2, ready2) := Step r1 in
  let '(r3, ready3) := Step r2 in
  (ready1, ready2, ready3) = (false, false, true).
Proof. reflexivity. Qed.

End WitnessFacts.

(** ** Further properties of the reputation engine *)

Module ReputationMore.
Import Reputation.

Section WithDate.

Context {Date : Type}.
Variable Date_bool : Date -> bool.
Variable Date_minus : Date -> Date -> Z.
Variable Date_default : Date.

Local Abbreviation Manager := (ReputationManager (Date := Date)).
Local Abbreviation State := (GovernmentReputationState (Date := Date)).

(** *** Decay *)

Lemma ApplyDecay_above (m : Manager) (gov : N) (cur : Q) (d : Date) :
  (neutralPoint (GetConfig m gov) < cur)%Q ->
  (neutralPoint (GetConfig m gov) <= ApplyDecay m gov cur d <= cur)%Q.
Proof.
  intros H. unfold ApplyDecay.
  pose proof (std_max_nonneg
    match states m !! gov with
    | Some state => _
    | None => positiveDecayRate (GetConfig m gov)
    end : (0 <= GetEffectiveDecayRate m gov)%Q) as Hrate.
  apply Qltb_true in H as Hb. rewrite Hb. split; [apply std_max_lower|].
  apply std_max_lub; [apply Qlt_le_weak, H|].
  assert (Hp : (0 <= (cur - neutralPoint (GetConfig m gov))
                     * GetEffectiveDecayRate m gov)%Q).
  { apply Qmult_le_0_compat; [lra|exact Hrate]. }
  lra.
Qed.

Lemma ApplyDecay_below (m : Manager) (gov : N) (cur : Q) (d : Date) :
  (cur < neutralPoint (GetConfig m gov))%Q ->
  (cur <= ApplyDecay m gov cur d <= neutralPoint (GetConfig m gov))%Q.
Proof.
  intros H. unfold ApplyDecay.
  pose proof (std_max_nonneg
    match states m !! gov with
    | Some state => _
    | None => negativeRecoveryRate (GetConfig m gov)
    end : (0 <= GetEffectiveRecoveryRate m gov)%Q) as Hrate.
  assert (Hn : Qltb (neutralPoint (GetConfig m gov)) cur = false).
  { apply Qltb_false. apply Qlt_le_weak. exact H. }
  rewrite Hn. apply Qltb_true in H as Hb. rewrite Hb.
  split; [|apply std_min_upper].
  apply std_min_glb; [apply Qlt_le_weak, H|].
  assert (Hp : (0 <= (neutralPoint (GetConfig m gov) - cur)
                     * GetEffectiveRecoveryRate m gov)%Q).
  { apply Qmult_le_0_compat; [lra|exact Hrate]. }
  lra.
Qed.

(** X1. A daily decay never moves a standing away from the neutral point: a
    standing above it does not grow, a standing below it does not shrink, a
    standing equal to it is returned as it is; and an effective decay rate
    of 1 or more puts a standing above the neutral point exactly on it. *)
Theorem ApplyDecay_toward_neutral (m : Manager) (gov : N) (cur : Q) (d : Date) :
  ((neutralPoint (GetConfig m gov) < cur)%Q ->
   (ApplyDecay m gov cur d <= cur)%Q
   /\ ((1 <= GetEffectiveDecayRate m gov)%Q ->
       (ApplyDecay m gov cur d == neutralPoint (GetConfig m gov))%Q))
  /\ ((cur < neutralPoint (GetConfig m gov))%Q ->
      (cur <= ApplyDecay m gov cur d)%Q)
  /\ ((cur == neutralPoint (GetConfig m gov))%Q ->
      ApplyDecay m gov cur d = cur).
Proof.
  split; [|split].
  - intros H. split; [apply (ApplyDecay_above m gov cur d H)|].
    intros Hrate. apply Qle_antisym; [|apply (ApplyDecay_above m gov cur d H)].
    unfold ApplyDecay. apply Qltb_true in H as Hb. rewrite Hb.
    apply std_max_lub; [apply Qle_refl|].
    set (np := neutralPoint (GetConfig m gov)) in *.
    set (r := GetEffectiveDecayRate m gov) in *.
    assert (Hp : (0 <= (cur - np) * (r - 1))%Q).
    { apply Qmult_le_0_compat; lra. }
    lra.
  - intros H. apply (ApplyDecay_below m gov cur d H).
  - intros H. unfold ApplyDecay.
    assert (H1 : Qltb (neutralPoint (GetConfig m gov)) cur = false).
    { apply Qltb_false. rewrite H. apply Qle_refl. }
    assert (H2 : Qltb cur (neutralPoint (GetConfig m gov)) = false).
    { apply Qltb_false. rewrite H. apply Qle_refl. }
    rewrite H1, H2. reflexivity.
Qed.

(** X2. The daily decay of a standing above the neutral point never lands in
    a higher threshold band, and the recovery of a standing below it never
    lands in a lower one: a crossing that the step reports goes toward the
    band of the neutral point. *)
Theorem ApplyDecay_threshold_direction (m : Manager) (gov : N) (cur : Q)
    (d : Date) :
  ((neutralPoint (GetConfig m gov) < cur)%Q ->
   threshold_int (GetThreshold (neutralPoint (GetConfig m gov)))
   <= threshold_int (GetThreshold (ApplyDecay m gov cur d))
   <= threshold_int (GetThreshold cur))
  /\ ((cur < neutralPoint (GetConfig m gov))%Q ->
      threshold_int (GetThreshold cur)
      <= threshold_int (GetThreshold (ApplyDecay m gov cur d))
      <= threshold_int (GetThreshold (neutralPoint (GetConfig m gov)))).
Proof.
  split; intros H.
  - destruct (ApplyDecay_above m gov cur d H) as [H1 H2].
    split; apply ReputationFacts.GetThreshold_monotone; assumption.
  - destruct (ApplyDecay_below m gov cur d H) as [H1 H2].
    split; apply ReputationFacts.GetThreshold_monotone; assumption.
Qed.

(** *** Effective rates *)

Lemma scale_between (x f lo : Q) :
  (0 <= x)%Q -> (lo <= f)%Q -> (f <= 1)%Q -> (0 <= lo)%Q ->
  (lo * x <= x * f /\ x * f <= x)%Q.
Proof.
  intros Hx Hlo Hf H0.
  assert (H1 : (0 <= x * (f - lo))%Q) by (apply Qmult_le_0_compat; lra).
  assert (H2 : (0 <= x * (1 - f))%Q) by (apply Qmult_le_0_compat; lra).
  split; lra.
Qed.

(** X3. For a government with a recorded state whose day counter is not
    negative, under a configuration with a non-negative decay rate and a
    memory strength within [[0, 1]]: good deeds and recent goodwill only slow
    the decay, never below 35% of the rate that the memory strength leaves.
    The effective decay rate lies between 0.35 x rate x (1 - memory) and
    rate x (1 - memory). *)
Theorem GetEffectiveDecayRate_bounds (m : Manager) (gov : N)
    (st : State) :
  states m !! gov = Some st ->
  (0 <= positiveDecayRate (GetConfig m gov))%Q ->
  (0 <= memoryStrength (GetConfig m gov) <= 1)%Q ->
  0 <= daysSincePositiveInteraction st ->
  ((35 # 100) * (positiveDecayRate (GetConfig m gov)
                 * (1 - memoryStrength (GetConfig m gov)))
   <= GetEffectiveDecayRate m gov)%Q
  /\ (GetEffectiveDecayRate m gov
      <= positiveDecayRate (GetConfig m gov)
         * (1 - memoryStrength (GetConfig m gov)))%Q.
Proof.
  intros Hst Hbase [Hm0 Hm1] Hdays.
  unfold GetEffectiveDecayRate. rewrite Hst.
  set (x := (positiveDecayRate (GetConfig m gov)
             * (1 - memoryStrength (GetConfig m gov)))%Q).
  assert (Hx : (0 <= x)%Q) by (apply Qmult_le_0_compat; lra).
  (* the factor of the good deeds *)
  set (y := if Z.ltb 0 (goodDeedCount st)
            then (x * (1 - std_min (1 # 2)
                           (inject_Z (goodDeedCount st) * (5 # 100))))%Q
            else x).
  assert (Hy : ((1 # 2) * x <= y /\ y <= x)%Q).
  { unfold y. destruct (Z.ltb_spec 0 (goodDeedCount st)) as [Hg|Hg];
      [|split; lra].
    apply scale_between; try lra.
    - pose proof (std_min_upper (1 # 2)
                    (inject_Z (goodDeedCount st) * (5 # 100))). lra.
    - assert (0 <= std_min (1 # 2) (inject_Z (goodDeedCount st) * (5 # 100)))%Q.
      { apply std_min_glb; [lra|].
        apply Qmult_le_0_compat; [|lra].
        change 0%Q with (inject_Z 0). rewrite <- Zle_Qle. lia. }
      lra. }
  (* the factor of the recent goodwill *)
  set (z := if Z.ltb (daysSincePositiveInteraction st) 7
            then (y * (1 - (3 # 10)
                           * (1 - inject_Z (daysSincePositiveInteraction st) / 7)))%Q
            else y).
  assert (Hy0 : (0 <= y)%Q) by lra.
  assert (Hz : ((7 # 10) * y <= z /\ z <= y)%Q).
  { unfold z. destruct (Z.ltb_spec (daysSincePositiveInteraction st) 7)
      as [Hd|Hd]; [|split; lra].
    assert (Hq : (0 <= inject_Z (daysSincePositiveInteraction st) / 7 /\
                  inject_Z (daysSincePositiveInteraction st) / 7 <= 1)%Q).
    { split.
      - apply Qle_shift_div_l; [reflexivity|].
        rewrite Qmult_0_l. change 0%Q with (inject_Z 0).
        rewrite <- Zle_Qle. exact Hdays.
      - apply Qle_shift_div_r; [reflexivity|].
        rewrite Qmult_1_l. change 7%Q with (inject_Z 7).
        rewrite <- Zle_Qle. lia. }
    apply scale_between; lra. }
  assert (Hz0 : (0 <= z)%Q) by lra.
  change (((35 # 100) * x <= std_max 0 z)%Q /\ (std_max 0 z <= x)%Q).
  rewrite (std_max_nonneg_eq z Hz0). split; lra.
Qed.

(** X4. Under a non-negative recovery rate the effective recovery rate lies
    between a tenth of the configured rate and one and a half times it; with
    a committed atrocity on record it is at most 15% of the configured rate,
    and without one it is never below the configured rate. *)
Theorem GetEffectiveRecoveryRate_bounds (m : Manager) (gov : N) :
  (0 <= negativeRecoveryRate (GetConfig m gov))%Q ->
  ((1 # 10) * negativeRecoveryRate (GetConfig m gov)
   <= GetEffectiveRecoveryRate m gov
   <= (15 # 10) * negativeRecoveryRate (GetConfig m gov))%Q
  /\ (forall st, states m !! gov = Some st ->
        (if hasCommittedAtrocity st
         then GetEffectiveRecoveryRate m gov
              <= (15 # 100) * negativeRecoveryRate (GetConfig m gov)
         else negativeRecoveryRate (GetConfig m gov)
              <= GetEffectiveRecoveryRate m gov)%Q).
Proof.
  intros Hbase. unfold GetEffectiveRecoveryRate.
  set (b := negativeRecoveryRate (GetConfig m gov)) in *.
  destruct (states m !! gov) as [st|] eqn:Hst.
  - set (y := if hasCommittedAtrocity st then (b * (1 # 10))%Q else b).
    assert (Hy : ((1 # 10) * b <= y /\ y <= b)%Q).
    { unfold y. destruct (hasCommittedAtrocity st); split; lra. }
    set (bonus := std_min (1 # 2)
                    (inject_Z (daysSincePositiveInteraction st - 30) * (1 # 100))).
    set (z := if Z.ltb 30 (daysSincePositiveInteraction st)
              then (y * (1 + bonus))%Q else y).
    assert (Hz : (y <= z /\ z <= (15 # 10) * y)%Q).
    { unfold z. destruct (Z.ltb_spec 30 (daysSincePositiveInteraction st))
        as [Hd|Hd]; [|split; lra].
      assert (Hb : (0 <= bonus /\ bonus <= 1 # 2)%Q).
      { split; [|apply std_min_upper].
        apply std_min_glb; [lra|].
        apply Qmult_le_0_compat; [|lra].
        change 0%Q with (inject_Z 0). rewrite <- Zle_Qle. lia. }
      assert (H1 : (0 <= y * bonus)%Q) by (apply Qmult_le_0_compat; lra).
      assert (H2 : (0 <= y * ((1 # 2) - bonus))%Q)
        by (apply Qmult_le_0_compat; lra).
      split; lra. }
    assert (Hz0 : (0 <= z)%Q) by lra.
    change (((1 # 10) * b <= std_max 0 z <= (15 # 10) * b)%Q
            /\ (forall st0, Some st = Some st0 ->
                  (if hasCommittedAtrocity st0
                   then std_max 0 z <= (15 # 100) * b
                   else b <= std_max 0 z)%Q)).
    pose proof (std_max_nonneg_eq z Hz0) as He.
    split; [split; lra|].
    intros st0 Heq. inversion Heq; subst st0.
    destruct (hasCommittedAtrocity st) eqn:Ea.
    + assert (Hya : (y == b * (1 # 10))%Q) by (unfold y; try rewrite Ea; reflexivity).
      lra.
    + assert (Hya : (y == b)%Q) by (unfold y; try rewrite Ea; reflexivity).
      lra.
  - pose proof (std_max_nonneg_eq b Hbase) as He. split; [split; lra|].
    intros st0 Heq. discriminate Heq.
Qed.

(** *** Configurations and states *)

(** X5. A configuration set for a non-null government is the one that
    [GetConfig] returns for it afterwards, the configurations of the other
    governments and all the states are untouched, and a government without a
    configuration of its own gets the default one; [SetConfig] on the null
    government changes nothing. *)
Theorem SetConfig_GetConfig (m : Manager) (gov g : N) (c : ReputationConfig) :
  (gov <> 0%N ->
   GetConfig (SetConfig m gov c) gov = c
   /\ (g <> gov -> GetConfig (SetConfig m gov c) g = GetConfig m g))
  /\ SetConfig m 0%N c = m
  /\ states (SetConfig m gov c) = states m
  /\ (configs m !! g = None -> GetConfig m g = defaultConfig m).
Proof.
  split; [|split; [reflexivity|split]].
  - intros Hgov. unfold SetConfig, is_null.
    destruct (N.eqb_spec gov 0) as [E|_]; [contradiction|].
    unfold GetConfig. simpl. rewrite lookup_insert_eq. split; [reflexivity|].
    intros Hne. rewrite lookup_insert_ne by congruence. reflexivity.
  - unfold SetConfig. destruct (is_null gov); reflexivity.
  - intros Hnone. unfold GetConfig. rewrite Hnone. reflexivity.
Qed.

(** X6. Trimming the history to a non-negative bound keeps the newest events,
    in order: what is left is a suffix of the history, of the length of the
    history or of the bound, whichever is smaller; nothing else of the state
    changes. *)
Theorem TrimEventHistory_keeps_newest (st : State)
    (maxEvents : Z) :
  0 <= maxEvents ->
  (exists oldest,
     recentEvents st = oldest ++ recentEvents (TrimEventHistory st maxEvents))
  /\ Z.of_nat (length (recentEvents (TrimEventHistory st maxEvents)))
     = Z.min (Z.of_nat (length (recentEvents st))) maxEvents
  /\ hasCommittedAtrocity (TrimEventHistory st maxEvents)
     = hasCommittedAtrocity st
  /\ goodDeedCount (TrimEventHistory st maxEvents) = goodDeedCount st
  /\ daysSincePositiveInteraction (TrimEventHistory st maxEvents)
     = daysSincePositiveInteraction st.
Proof.
  intros Hmax. unfold TrimEventHistory.
  destruct (Z.ltb_spec maxEvents 0) as [Hneg|_]; [lia|].
  destruct (Z.ltb_spec maxEvents (Z.of_nat (length (recentEvents st))))
    as [Hlt|Hge]; simpl.
  - split; [|split; [|repeat split]].
    + exists (take (Z.to_nat (Z.of_nat (length (recentEvents st)) - maxEvents))
                (recentEvents st)).
      symmetry. apply take_drop.
    + rewrite length_drop. lia.
  - split; [exists []; reflexivity|]. split; [lia|repeat split].
Qed.

Lemma GetConfig_set_states (m : Manager)
    (s : gmap N GovernmentReputationState) (g : N) :
  GetConfig (set_states m s) g = GetConfig m g.
Proof. reflexivity. Qed.

Lemma TrimEventHistory_fields (st : State) (n : Z) :
  hasCommittedAtrocity (TrimEventHistory st n) = hasCommittedAtrocity st
  /\ daysSincePositiveInteraction (TrimEventHistory st n)
     = daysSincePositiveInteraction st
  /\ goodDeedCount (TrimEventHistory st n) = goodDeedCount st
  /\ atrocityDate (TrimEventHistory st n) = atrocityDate st.
Proof.
  unfold TrimEventHistory.
  destruct (Z.ltb _ (Z.of_nat (length (recentEvents st))));
    repeat split.
Qed.

(** X7. What the daily step does to the state of one government: the day
    counter grows by one, the history is cut to at most 50 events, and the
    atrocity flag is still set afterwards exactly when it was set before and
    the step did not forgive it, that is, unless the configuration forgives
    atrocities, the date of the atrocity is set and at least the configured
    number of days separate it from the current date. The step never sets
    the flag. *)
Theorem StepDaily_entry_state (m : Manager) (gov : N)
    (st : State) (rep : Q) (today : Date) :
  let st' := snd (StepDaily_entry Date_bool Date_minus m gov st rep today) in
  daysSincePositiveInteraction st' = daysSincePositiveInteraction st + 1
  /\ (length (recentEvents st') <= 50)%nat
  /\ (hasCommittedAtrocity st' = true <->
      hasCommittedAtrocity st = true
      /\ ~ (forgivesAtrocities (GetConfig m gov) = true
            /\ Date_bool (atrocityDate st) = true
            /\ atrocityForgivenessDays (GetConfig m gov)
               <= Date_minus today (atrocityDate st))).
Proof.
  unfold StepDaily_entry. cbv zeta.
  destruct (CrossesThreshold rep _) as [[crossed from] to]. cbn [snd].
  match goal with
  | |- context [TrimEventHistory ?s _] => set (st2 := s)
  end.
  destruct (TrimEventHistory_fields st2 MAX_EVENT_HISTORY) as (Ha & Hd & _ & _).
  rewrite Ha, Hd. split; [reflexivity|]. split.
  - pose proof (TrimEventHistory_keeps_newest st2 MAX_EVENT_HISTORY) as Ht.
    destruct Ht as (_ & Hlen & _); [unfold MAX_EVENT_HISTORY; lia|].
    unfold MAX_EVENT_HISTORY in *. lia.
  - unfold st2. cbn [hasCommittedAtrocity atrocityDate].
    rewrite GetConfig_set_states.
    destruct (hasCommittedAtrocity st) eqn:Ea; cbn [andb].
    + destruct (forgivesAtrocities (GetConfig m gov)); cbn [andb].
      * destruct (Date_bool (atrocityDate st)); cbn [andb].
        -- destruct (Z.leb_spec (atrocityForgivenessDays (GetConfig m gov))
                       (Date_minus today (atrocityDate st))) as [Hle|Hgt].
           ++ split; [discriminate|]. intros [_ Hn]. exfalso. apply Hn.
              repeat split. exact Hle.
           ++ split; [|reflexivity]. intros _. split; [reflexivity|].
              intros (_ & _ & Hle). lia.
        -- split; [|reflexivity]. intros _. split; [reflexivity|].
           intros (_ & Hf & _). discriminate Hf.
      * split; [|reflexivity]. intros _. split; [reflexivity|].
        intros (Hf & _). discriminate Hf.
    + split; [discriminate|]. intros [Hf _]. discriminate Hf.
Qed.

(** X8. [RecordGoodDeed] on a non-null government creates its state if there
    is none and leaves it with one good deed more, a day counter of 0 and the
    date of the deed as last interaction; the atrocity flag, the states of
    the other governments and the configurations are untouched. On the null
    government it changes nothing and creates no state. *)
Theorem RecordGoodDeed_counts (m : Manager) (gov g : N) (d : Date) :
  (gov <> 0%N ->
   exists st',
     GetState (RecordGoodDeed Date_default m gov d) gov = Some st'
     /\ goodDeedCount st'
        = goodDeedCount
            (default (GovernmentReputationState_default Date_default)
               (GetState m gov)) + 1
     /\ daysSincePositiveInteraction st' = 0
     /\ lastInteraction st' = d
     /\ hasCommittedAtrocity st'
        = hasCommittedAtrocity
            (default (GovernmentReputationState_default Date_default)
               (GetState m gov)))
  /\ (g <> gov ->
      GetState (RecordGoodDeed Date_default m gov d) g = GetState m g)
  /\ GetConfig (RecordGoodDeed Date_default m gov d) g = GetConfig m g
  /\ RecordGoodDeed Date_default m 0%N d = m.
Proof.
  unfold RecordGoodDeed, GetState, GetOrCreateState, is_null.
  split; [|split; [|split; [|reflexivity]]].
  - intros Hgov. destruct (N.eqb_spec gov 0) as [E|_]; [contradiction|].
    destruct (states m !! gov) as [st|]; simpl; rewrite lookup_insert_eq;
      eexists; split; try reflexivity; repeat split.
  - intros Hne. destruct (N.eqb gov 0); [reflexivity|].
    destruct (states m !! gov) as [st|]; simpl;
      rewrite ?lookup_insert_ne by congruence; reflexivity.
  - destruct (N.eqb gov 0); [reflexivity|].
    destruct (states m !! gov); reflexivity.
Qed.

(** X9. [RecordChange] on a non-null government appends the event to the
    history as its newest entry, and afterwards the recorded peak is at least
    the current standing and the former peak, the recorded trough at most
    the current standing and the former trough; the atrocity flag is set if
    the event is an atrocity and otherwise kept. On the null government it
    changes nothing. *)
Theorem RecordChange_tracks (m : Manager) (gov : N) (currentRep : Q)
    (d : Date) (chg : Q) (why : string) (atrocity witnessed : bool) :
  (gov <> 0%N ->
   let old := default (GovernmentReputationState_default Date_default)
                (GetState m gov) in
   exists st',
     GetState (RecordChange Date_default m gov currentRep d chg why atrocity
                 witnessed) gov = Some st'
     /\ recentEvents st'
        = recentEvents old
          ++ [{| date := d; change := chg; reason := why;
                 wasAtrocity := atrocity; wasWitnessed := witnessed |}]
     /\ (currentRep <= peakReputation st')%Q
     /\ (peakReputation old <= peakReputation st')%Q
     /\ (troughReputation st' <= currentRep)%Q
     /\ (troughReputation st' <= troughReputation old)%Q
     /\ hasCommittedAtrocity st' = atrocity || hasCommittedAtrocity old)
  /\ RecordChange Date_default m 0%N currentRep d chg why atrocity witnessed
     = m.
Proof.
  split; [|reflexivity].
  intros Hgov old.
  unfold RecordChange, GetState, GetOrCreateState, is_null in *.
  destruct (N.eqb_spec gov 0) as [E|_]; [contradiction|].
  assert (Hpeak : forall p : Q,
    (currentRep <= (if Qltb p currentRep then currentRep else p))%Q
    /\ (p <= (if Qltb p currentRep then currentRep else p))%Q).
  { intros p. destruct (Qltb p currentRep) eqn:E;
      [apply Qltb_true in E|apply Qltb_false in E]; split; lra. }
  assert (Htrough : forall p : Q,
    ((if Qltb currentRep p then currentRep else p) <= currentRep)%Q
    /\ ((if Qltb currentRep p then currentRep else p) <= p)%Q).
  { intros p. destruct (Qltb currentRep p) eqn:E;
      [apply Qltb_true in E|apply Qltb_false in E]; split; lra. }
  subst old.
  destruct (states m !! gov) as [st|]; simpl; rewrite lookup_insert_eq;
    eexists; (split; [reflexivity|]); simpl;
    (split; [reflexivity|]);
    (split; [apply Hpeak|]); (split; [apply Hpeak|]);
    (split; [apply Htrough|]); (split; [apply Htrough|]);
    destruct atrocity; reflexivity.
Qed.

(** X10. The governments that [GetKnownGovernments] lists are exactly the
    non-null governments that have a state, each listed once. *)
Theorem GetKnownGovernments_spec (m : Manager) (gov : N) :
  (In gov (GetKnownGovernments m) <->
   gov <> 0%N /\ is_Some (GetState m gov))
  /\ NoDup (GetKnownGovernments m).
Proof.
  unfold GetKnownGovernments, GetState. split.
  - rewrite filter_In. rewrite in_map_iff. unfold is_null. split.
    + intros [((g & st) & Hfst & Hin) Hnn]. simpl in Hfst. subst g.
      apply list_elem_of_In, elem_of_map_to_list in Hin.
      split; [|exists st; exact Hin].
      destruct (N.eqb_spec gov 0); [discriminate|assumption].
    + intros [Hnn [st Hst]]. split.
      * exists (gov, st). split; [reflexivity|].
        apply list_elem_of_In, elem_of_map_to_list. exact Hst.
      * destruct (N.eqb_spec gov 0); [contradiction|reflexivity].
  - apply NoDup_ListNoDup. apply List.NoDup_filter. apply NoDup_ListNoDup.
    apply NoDup_fst_map_to_list.
Qed.

(** *** The daily step over all governments *)

(** The body of the loop of [StepDaily] on the accumulated crossings, the
    manager and the table of standings. *)
Definition step_government (today : Date)
    (acc : list ThresholdCrossing * Manager * gmap N Q)
    (entry : N * State) : list ThresholdCrossing * Manager * gmap N Q :=
  let '(crossings, m0, rep) := acc in
  let gov := fst entry in
  if is_null gov then acc
  else
    match states m0 !! gov with
    | None => acc
    | Some state =>
        let '(crossing, setRep, state') :=
          StepDaily_entry Date_bool Date_minus m0 gov state
            (default 0%Q (rep !! gov)) today in
        (crossings ++ match crossing with Some c => [c] | None => [] end,
         set_states m0 (<[gov := state']> (states m0)),
         match setRep with
         | Some r => <[gov := r]> rep
         | None => rep
         end)
    end.

Lemma StepDaily_fold (m : Manager) (rep : gmap N Q) (today : Date) :
  StepDaily Date_bool Date_minus m rep today
  = fold_left (step_government today) (map_to_list (states m)) ([], m, rep).
Proof. reflexivity. Qed.

(** The step of one government reads the manager only through the
    configurations. *)
Lemma StepDaily_entry_configs (m0 m : Manager) (gov : N) (st : State)
    (r : Q) (today : Date) :
  configs m0 = configs m -> defaultConfig m0 = defaultConfig m ->
  StepDaily_entry Date_bool Date_minus m0 gov st r today
  = StepDaily_entry Date_bool Date_minus m gov st r today.
Proof.
  intros Hc Hd.
  unfold StepDaily_entry, ApplyDecay, GetEffectiveDecayRate,
    GetEffectiveRecoveryRate, GetConfig, set_states. simpl.
  rewrite !lookup_insert_eq, Hc, Hd. reflexivity.
Qed.

(** The standing that the step hands to [SetReputation], written to the
    table. *)
Definition standing_after (setRep : option Q) (before : option Q)
  : option Q :=
  match setRep with
  | Some r => Some r
  | None => before
  end.

Lemma step_government_fold (m : Manager) (rep : gmap N Q) (today : Date)
    (l : list (N * State)) :
  forall cs m0 rep0,
    NoDup (map fst l) ->
    (forall g st, In (g, st) l ->
       states m0 !! g = Some st /\ rep0 !! g = rep !! g) ->
    configs m0 = configs m -> defaultConfig m0 = defaultConfig m ->
    let result := fold_left (step_government today) l (cs, m0, rep0) in
    configs (snd (fst result)) = configs m
    /\ defaultConfig (snd (fst result)) = defaultConfig m
    /\ (forall g, ~ In g (map fst l) \/ g = 0%N ->
          states (snd (fst result)) !! g = states m0 !! g
          /\ snd result !! g = rep0 !! g)
    /\ (forall g st, In (g, st) l -> g <> 0%N ->
          let e := StepDaily_entry Date_bool Date_minus m g st
                     (default 0%Q (rep !! g)) today in
          states (snd (fst result)) !! g = Some (snd e)
          /\ snd result !! g = standing_after (snd (fst e)) (rep !! g)).
Proof.
  induction l as [|[g0 st0] l IH]; intros cs m0 rep0 Hnd Hl Hc Hd.
  - simpl. split; [exact Hc|]. split; [exact Hd|]. split.
    + intros g _. split; reflexivity.
    + intros g st [].
  - cbn [map fst] in Hnd. apply NoDup_cons in Hnd. destruct Hnd as [Hg0 Hnd].
    rewrite list_elem_of_In in Hg0.
    destruct (Hl g0 st0 (or_introl eq_refl)) as [Hst0 Hrep0].
    cbn [fold_left].
    destruct (N.eq_dec g0 0%N) as [Hz|Hnz].
    + (* the null key is skipped *)
      assert (Hstep : step_government today (cs, m0, rep0) (g0, st0)
                      = (cs, m0, rep0)).
      { unfold step_government, is_null. cbn [fst].
        rewrite (proj2 (N.eqb_eq g0 0%N) Hz). reflexivity. }
      rewrite Hstep.
      specialize (IH cs m0 rep0 Hnd
                    (fun g st H => Hl g st (or_intror H)) Hc Hd).
      cbv zeta in IH. destruct IH as (IH1 & IH2 & IH3 & IH4).
      split; [exact IH1|]. split; [exact IH2|]. split.
      * intros g Hg. apply IH3.
        destruct Hg as [Hg|Hg]; [left|right; exact Hg].
        intros Hin. apply Hg. right. exact Hin.
      * intros g st [Heq|Hin] Hgz; [inversion Heq; congruence|].
        apply (IH4 g st Hin Hgz).
    + destruct (StepDaily_entry Date_bool Date_minus m g0 st0
                  (default 0%Q (rep !! g0)) today)
        as [[crossing setRep] st'] eqn:He.
      set (m1 := set_states m0 (<[g0 := st']> (states m0))).
      set (rep1 := match setRep with
                   | Some r => <[g0 := r]> rep0
                   | None => rep0
                   end).
      assert (Hstep : step_government today (cs, m0, rep0) (g0, st0)
                      = (cs ++ match crossing with
                               | Some c => [c]
                               | None => []
                               end, m1, rep1)).
      { unfold step_government, is_null. cbn [fst].
        rewrite (proj2 (N.eqb_neq g0 0%N) Hnz). rewrite Hst0.
        rewrite (StepDaily_entry_configs m0 m g0 st0 _ today Hc Hd).
        rewrite Hrep0, He. reflexivity. }
      rewrite Hstep.
      assert (Hrep1 : forall g, g <> g0 -> rep1 !! g = rep0 !! g).
      { intros g Hg. unfold rep1. destruct setRep; [|reflexivity].
        rewrite lookup_insert_ne by congruence. reflexivity. }
      assert (Hrep1' : rep1 !! g0 = standing_after setRep (rep !! g0)).
      { unfold rep1, standing_after. destruct setRep.
        - apply lookup_insert_eq.
        - exact Hrep0. }
      assert (Hl1 : forall g st, In (g, st) l ->
                states m1 !! g = Some st /\ rep1 !! g = rep !! g).
      { intros g st Hin.
        assert (Hg : g <> g0).
        { intros ->. apply Hg0. apply in_map_iff. exists (g0, st).
          split; [reflexivity|exact Hin]. }
        destruct (Hl g st (or_intror Hin)) as [H1 H2].
        unfold m1. simpl. rewrite lookup_insert_ne by congruence.
        rewrite (Hrep1 g Hg). split; assumption. }
      specialize (IH (cs ++ match crossing with Some c => [c] | None => [] end)
                    m1 rep1 Hnd Hl1 Hc Hd).
      cbv zeta in IH. destruct IH as (IH1 & IH2 & IH3 & IH4).
      split; [exact IH1|]. split; [exact IH2|]. split.
      * intros g Hg.
        assert (Hne : g <> g0).
        { destruct Hg as [Hg|Hg]; [|congruence]. intros ->. apply Hg.
          left. reflexivity. }
        destruct (IH3 g) as [H1 H2].
        { destruct Hg as [Hg|Hg]; [left|right; exact Hg].
          intros Hin. apply Hg. right. exact Hin. }
        rewrite H1, H2. unfold m1. simpl.
        rewrite lookup_insert_ne by congruence.
        rewrite (Hrep1 g Hne). split; reflexivity.
      * intros g st [Heq|Hin] Hgz.
        -- inversion Heq; subst g st. rewrite He. simpl.
           destruct (IH3 g0 (or_introl Hg0)) as [H1 H2].
           rewrite H1, H2. unfold m1. simpl. rewrite lookup_insert_eq.
           split; [reflexivity|exact Hrep1'].
        -- apply (IH4 g st Hin Hgz).
Qed.

(** X11. The daily step decays every government on its own. For a non-null
    government with a state, the state afterwards and the standing written
    back are those of the step of that government alone, computed from the
    manager and the standings as they were before the step; a government
    without a state, and the null key, keep their state and standing; the
    configurations are not changed. *)
Theorem StepDaily_per_government (m : Manager) (rep : gmap N Q)
    (today : Date) (gov : N) :
  let result := StepDaily Date_bool Date_minus m rep today in
  configs (snd (fst result)) = configs m
  /\ (forall st, gov <> 0%N -> states m !! gov = Some st ->
        let e := StepDaily_entry Date_bool Date_minus m gov st
                   (default 0%Q (rep !! gov)) today in
        states (snd (fst result)) !! gov = Some (snd e)
        /\ snd result !! gov = standing_after (snd (fst e)) (rep !! gov))
  /\ (gov = 0%N \/ states m !! gov = None ->
      states (snd (fst result)) !! gov = states m !! gov
      /\ snd result !! gov = rep !! gov).
Proof.
  cbv zeta. rewrite StepDaily_fold.
  pose proof (step_government_fold m rep today (map_to_list (states m))
                [] m rep) as H.
  cbv zeta in H. destruct H as (H1 & _ & H3 & H4).
  - apply NoDup_fst_map_to_list.
  - intros g st Hin. split; [|reflexivity].
    apply elem_of_map_to_list, list_elem_of_In. exact Hin.
  - reflexivity.
  - reflexivity.
  - split; [exact H1|]. split.
    + intros st Hnz Hst. apply H4; [|exact Hnz].
      apply list_elem_of_In, elem_of_map_to_list. exact Hst.
    + intros [Hz|Hnone]; apply H3.
      * right. exact Hz.
      * left. intros Hin. apply in_map_iff in Hin.
        destruct Hin as ([g st] & Hfst & Hin). simpl in Hfst. subst g.
        apply list_elem_of_In, elem_of_map_to_list in Hin. congruence.
Qed.

End WithDate.

(** Dates as day numbers, 0 for the date that is not set. *)
Definition day_set (d : Z) : bool := negb (Z.eqb d 0).
Definition day_minus (a b : Z) : Z := a - b.

(** The sample manager after one good deed toward the government 7 on day
    5, and the state it holds for that government. *)
Definition good_manager : ReputationManager (Date := Z) :=
  RecordGoodDeed 0 ReputationFacts.sample_manager 7%N 5.

Definition good_state : GovernmentReputationState (Date := Z) :=
  {| lastInteraction := 5; hasCommittedAtrocity := false; atrocityDate := 0;
     goodDeedCount := 1; recentEvents := []; peakReputation := 0;
     troughReputation := 0; daysSincePositiveInteraction := 0 |}.

Lemma ApplyDecay_toward_neutral_witness :
  ((ApplyDecay ReputationFacts.sample_manager 7%N (20 # 1) 0%Z <= 20 # 1)%Q
   /\ (ApplyDecay ReputationFacts.sample_manager 7%N (20 # 1) 0%Z == 0)%Q)
  /\ (-20 # 1 <= ApplyDecay ReputationFacts.sample_manager 7%N (-20 # 1) 0%Z)%Q
  /\ ApplyDecay ReputationFacts.sample_manager 7%N 0%Q 0%Z = 0%Q.
Proof.
  split; [|split].
  - destruct (proj1 (ApplyDecay_toward_neutral ReputationFacts.sample_manager
                       7%N (20 # 1) 0%Z)) as [H1 H2]; [reflexivity|].
    split; [exact H1|]. apply H2. discriminate.
  - apply (proj1 (proj2 (ApplyDecay_toward_neutral
                           ReputationFacts.sample_manager 7%N (-20 # 1) 0%Z))).
    reflexivity.
  - apply (proj2 (proj2 (ApplyDecay_toward_neutral
                           ReputationFacts.sample_manager 7%N 0%Q 0%Z))).
    reflexivity.
Defined.

Lemma ApplyDecay_threshold_direction_witness :
  threshold_int (GetThreshold 0%Q)
  <= threshold_int
       (GetThreshold (ApplyDecay ReputationFacts.sample_manager 7%N (30 # 1) 0%Z))
  <= threshold_int (GetThreshold (30 # 1))
  /\ threshold_int (GetThreshold (-30 # 1))
     <= threshold_int
          (GetThreshold
             (ApplyDecay ReputationFacts.sample_manager 7%N (-30 # 1) 0%Z))
     <= threshold_int (GetThreshold 0%Q).
Proof.
  split.
  - apply (proj1 (ApplyDecay_threshold_direction
                    ReputationFacts.sample_manager 7%N (30 # 1) 0%Z)).
    reflexivity.
  - apply (proj2 (ApplyDecay_threshold_direction
                    ReputationFacts.sample_manager 7%N (-30 # 1) 0%Z)).
    reflexivity.
Defined.

Lemma GetEffectiveDecayRate_bounds_witness :
  ((35 # 100) * (positiveDecayRate (GetConfig good_manager 7%N)
                 * (1 - memoryStrength (GetConfig good_manager 7%N)))
   <= GetEffectiveDecayRate good_manager 7%N)%Q
  /\ (GetEffectiveDecayRate good_manager 7%N
      <= positiveDecayRate (GetConfig good_manager 7%N)
         * (1 - memoryStrength (GetConfig good_manager 7%N)))%Q.
Proof.
  apply (GetEffectiveDecayRate_bounds good_manager 7%N good_state).
  - reflexivity.
  - discriminate.
  - split; discriminate.
  - simpl. lia.
Defined.

Lemma GetEffectiveRecoveryRate_bounds_witness :
  ((1 # 10) * negativeRecoveryRate (GetConfig good_manager 7%N)
   <= GetEffectiveRecoveryRate good_manager 7%N
   <= (15 # 10) * negativeRecoveryRate (GetConfig good_manager 7%N))%Q.
Proof.
  apply (GetEffectiveRecoveryRate_bounds good_manager 7%N).
  discriminate.
Defined.

Lemma SetConfig_GetConfig_witness :
  GetConfig (SetConfig (ReputationManager_new (Date := Z)) 7%N
               ReputationFacts.sample_config) 7%N
  = ReputationFacts.sample_config
  /\ GetConfig (SetConfig (ReputationManager_new (Date := Z)) 7%N
                  ReputationFacts.sample_config) 8%N
     = GetConfig (ReputationManager_new (Date := Z)) 8%N.
Proof.
  destruct (proj1 (SetConfig_GetConfig (ReputationManager_new (Date := Z))
                     7%N 8%N ReputationFacts.sample_config)) as [H1 H2].
  - discriminate.
  - split; [exact H1|]. apply H2. discriminate.
Defined.

(** A state with three events in its history. *)
Definition busy_state : GovernmentReputationState (Date := Z) :=
  State_RecordEvent
    (State_RecordEvent
       (State_RecordEvent (GovernmentReputationState_default 0)
          {| date := 1; change := -1 # 1; reason := "first";
             wasAtrocity := false; wasWitnessed := true |})
       {| date := 2; change := -2 # 1; reason := "second";
          wasAtrocity := false; wasWitnessed := true |})
    {| date := 3; change := 3 # 1; reason := "third";
       wasAtrocity := false; wasWitnessed := true |}.

Lemma TrimEventHistory_keeps_newest_witness :
  (exists oldest,
     recentEvents busy_state
     = oldest ++ recentEvents (TrimEventHistory busy_state 2))
  /\ Z.of_nat (length (recentEvents (TrimEventHistory busy_state 2)))
     = Z.min (Z.of_nat (length (recentEvents busy_state))) 2.
Proof.
  destruct (TrimEventHistory_keeps_newest busy_state 2) as (H1 & H2 & _).
  - lia.
  - split; assumption.
Defined.

Lemma RecordGoodDeed_counts_witness :
  exists st',
    GetState (RecordGoodDeed 0 good_manager 7%N 9) 7%N = Some st'
    /\ goodDeedCount st'
       = goodDeedCount
           (default (GovernmentReputationState_default 0)
              (GetState good_manager 7%N)) + 1
    /\ daysSincePositiveInteraction st' = 0
    /\ lastInteraction st' = 9
    /\ hasCommittedAtrocity st'
       = hasCommittedAtrocity
           (default (GovernmentReputationState_default 0)
              (GetState good_manager 7%N)).
Proof.
  apply (proj1 (RecordGoodDeed_counts 0 good_manager 7%N 7%N 9)).
  discriminate.
Defined.

Lemma RecordChange_tracks_witness :
  exists st',
    GetState (RecordChange 0 good_manager 7%N (40 # 1) 9 (10 # 1) "escort"
                false true) 7%N = Some st'
    /\ (40 # 1 <= peakReputation st')%Q.
Proof.
  destruct (proj1 (RecordChange_tracks 0 good_manager 7%N (40 # 1) 9 (10 # 1)
                     "escort" false true)) as (st' & H1 & _ & H3 & _).
  - discriminate.
  - exists st'. split; assumption.
Defined.

Lemma StepDaily_per_government_witness :
  states (snd (fst (StepDaily day_set day_minus good_manager
                      {[7%N := 20 # 1]} 6))) !! 7%N
  = Some (snd (StepDaily_entry day_set day_minus good_manager 7%N good_state
                 (default 0%Q (({[7%N := 20 # 1]} : gmap N Q) !! 7%N)) 6)).
Proof.
  apply (proj1 (proj2 (StepDaily_per_government day_set day_minus good_manager
                         {[7%N := 20 # 1]} 6 7%N))).
  - discriminate.
  - reflexivity.
Defined.

(** The day after a good deed, a standing of 20 under the sample
    configuration (rate 3, no memory) is back on the neutral point, which
    the step reports as no crossing since both are NEUTRAL. *)
Example StepDaily_sample :
  let result := StepDaily day_set day_minus good_manager {[7%N := 20 # 1]} 6 in
  fst (fst result) = []
  /\ snd result !! 7%N = Some 0%Q.
Proof. vm_compute. split; reflexivity. Qed.

End ReputationMore.

(** ** Further properties of the economic state machine *)

Module EconomyMore.
Import Economy.

(** Turns the outcome of every comparison of the goal into an order fact. *)
Ltac order_cases :=
  repeat match goal with
  | |- context [Qle_bool ?a ?b] =>
      let E := fresh "E" in
      destruct (Qle_bool a b) eqn:E;
      [apply Qle_bool_iff in E | apply Qle_bool_false in E]
  end.

(** X15. A better standing never gives a worse price: the modifier on the
    price paid does not grow with the standing, the modifier on the price
    received does not shrink, and both stay within [[0.8, 1.2]]. *)
Theorem GetReputationModifier_monotone (r1 r2 : Q) :
  (r1 <= r2)%Q ->
  (GetReputationModifier r2 true <= GetReputationModifier r1 true)%Q
  /\ (GetReputationModifier r1 false <= GetReputationModifier r2 false)%Q
  /\ (forall buying,
        (80 # 100 <= GetReputationModifier r1 buying <= 120 # 100)%Q).
Proof.
  intros Hle. split; [|split].
  - unfold GetReputationModifier. order_cases; try discriminate; exfalso; lra.
  - unfold GetReputationModifier. order_cases; try discriminate; exfalso; lra.
  - intros buying. unfold GetReputationModifier.
    destruct buying; order_cases; split; discriminate.
Qed.

Lemma GetReputationModifier_monotone_witness :
  (GetReputationModifier (150 # 1) true <= GetReputationModifier (-20 # 1) true)%Q
  /\ (GetReputationModifier (-20 # 1) false
      <= GetReputationModifier (150 # 1) false)%Q.
Proof.
  destruct (GetReputationModifier_monotone (-20 # 1) (150 # 1)) as (H1 & H2 & _).
  - discriminate.
  - split; assumption.
Defined.

Section WithDate.

Context {Date : Type}.
Variable Date_default : Date.

Local Abbreviation Economy := (SystemEconomy (Date := Date)).

(** *** Recording events *)

(** X12. [RecordEvent] puts the event at the end of the history and keeps a
    history of at most 100 events at most 100 long by dropping the oldest
    one; it never touches the state, its strength, the affected commodity or
    the configuration. *)
Theorem RecordEvent_history (e : Economy) (ty : EconomicEventType) (mag : Z)
    (com : string) (player : bool) :
  let e' := RecordEvent Date_default e ty mag com player in
  (exists older,
     recentEvents e'
     = older ++ [{| date := Date_default; type := ty; magnitude := mag;
                    commodity := com; description := EmptyString;
                    playerCaused := player |}]
     /\ (older = recentEvents e \/ older = drop 1 (recentEvents e)))
  /\ ((length (recentEvents e) <= 100)%nat ->
      (length (recentEvents e') <= 100)%nat)
  /\ state e' = state e /\ stateStrength e' = stateStrength e
  /\ affectedCommodity e' = affectedCommodity e /\ config e' = config e.
Proof.
  cbv zeta. unfold RecordEvent, RecordEvent_event, MAX_EVENT_HISTORY.
  cbn [type magnitude].
  set (ev := Build_EconomicEvent _ _ _ _ _ _).
  assert (Hfields : forall l : list EconomicEvent,
    (exists older, l = older ++ [ev]
       /\ (older = recentEvents e \/ older = drop 1 (recentEvents e))) ->
    ((length (recentEvents e) <= 100)%nat -> (length l <= 100)%nat) ->
    let e1 := set_recentEvents e l in
    let e2 :=
      match ty with
      | MERCHANT_DESTROYED =>
          set_counters e1 (merchantLosses e1 + inject_Z mag) (pirateLosses e1)
            (tradeVolume e1) (smugglingLevel e1)
      | PIRATE_DESTROYED =>
          set_counters e1 (merchantLosses e1) (pirateLosses e1 + inject_Z mag)
            (tradeVolume e1) (smugglingLevel e1)
      | TRADE_COMPLETED | LARGE_PURCHASE | LARGE_SALE =>
          set_counters e1 (merchantLosses e1) (pirateLosses e1)
            (tradeVolume e1 + inject_Z mag) (smugglingLevel e1)
      | SMUGGLING_DETECTED =>
          set_counters e1 (merchantLosses e1) (pirateLosses e1)
            (tradeVolume e1) (smugglingLevel e1 + inject_Z mag)
      | _ => e1
      end in
    (exists older, recentEvents e2 = older ++ [ev]
       /\ (older = recentEvents e \/ older = drop 1 (recentEvents e)))
    /\ ((length (recentEvents e) <= 100)%nat ->
        (length (recentEvents e2) <= 100)%nat)
    /\ state e2 = state e /\ stateStrength e2 = stateStrength e
    /\ affectedCommodity e2 = affectedCommodity e /\ config e2 = config e).
  { intros l Hl Hlen. destruct ty; simpl; repeat split; assumption. }
  destruct (Nat.ltb_spec 100 (length (recentEvents e ++ [ev]))) as [Hlong|Hok].
  - apply Hfields.
    + rewrite length_app in Hlong. simpl in Hlong.
      destruct (recentEvents e) as [|x l]; [simpl in Hlong; lia|].
      exists l. split; [reflexivity|]. right. reflexivity.
    + intros Hlen. rewrite length_drop, length_app. simpl. lia.
  - apply Hfields.
    + exists (recentEvents e). split; [reflexivity|left; reflexivity].
    + intros _. exact Hok.
Qed.

(** The daily step does not read the history of events. *)
Ltac split_ifs :=
  repeat match goal with
  | |- context [if ?b then _ else _] =>
      lazymatch b with
      | context [if _ then _ else _] => fail
      | _ => destruct b; cbn
      end
  end.

(** The same, a known value of the state being put back wherever it shows
    up again. *)
Ltac split_ifs_at H :=
  repeat (cbn; repeat (rewrite H; cbn);
          match goal with
          | |- context [if ?b then _ else _] =>
              lazymatch b with
              | context [if _ then _ else _] => fail
              | _ => destruct b
              end
          end);
  cbn; repeat (rewrite H; cbn).

Lemma SimulateNPCActivity_history (e : Economy) (l : list EconomicEvent)
    (d : Date) (system : option System) (rnd : NPCRandom) :
  SimulateNPCActivity (set_recentEvents e l) d system rnd
  = set_recentEvents (SimulateNPCActivity e d system rnd) l.
Proof.
  unfold SimulateNPCActivity. destruct system as [s|]; [|reflexivity].
  cbn. split_ifs; destruct (state e); reflexivity.
Qed.

Lemma EvaluateStateTransition_history (e : Economy) (l : list EconomicEvent)
    (d : Date) (system : option System) :
  EvaluateStateTransition (set_recentEvents e l) d system
  = (set_recentEvents (fst (EvaluateStateTransition e d system)) l,
     snd (EvaluateStateTransition e d system)).
Proof.
  unfold EvaluateStateTransition, GenerateNewsHeadline. cbn.
  destruct (state e); cbn; split_ifs; reflexivity.
Qed.

Lemma ApplyRecovery_history (e : Economy) (l : list EconomicEvent) (d : Date) :
  ApplyRecovery (set_recentEvents e l) d
  = (set_recentEvents (fst (ApplyRecovery e d)) l, snd (ApplyRecovery e d)).
Proof.
  unfold ApplyRecovery, GenerateNewsHeadline, recoveryDays. cbn.
  destruct (state e); cbn; split_ifs; reflexivity.
Qed.

Lemma StepDaily_history (e : Economy) (l : list EconomicEvent) (d : Date)
    (system : option System) (rnd : NPCRandom) :
  StepDaily (set_recentEvents e l) d system rnd
  = (set_recentEvents (fst (StepDaily e d system rnd)) l,
     snd (StepDaily e d system rnd)).
Proof.
  unfold StepDaily.
  change (set_counters (set_recentEvents e l)
            (merchantLosses (set_recentEvents e l) * DAILY_COUNTER_DECAY)
            (pirateLosses (set_recentEvents e l) * DAILY_COUNTER_DECAY)
            (tradeVolume (set_recentEvents e l) * DAILY_COUNTER_DECAY)
            (smugglingLevel (set_recentEvents e l) * DAILY_COUNTER_DECAY))
    with (set_recentEvents
            (set_counters e (merchantLosses e * DAILY_COUNTER_DECAY)
               (pirateLosses e * DAILY_COUNTER_DECAY)
               (tradeVolume e * DAILY_COUNTER_DECAY)
               (smugglingLevel e * DAILY_COUNTER_DECAY)) l).
  rewrite SimulateNPCActivity_history, EvaluateStateTransition_history.
  destruct (EvaluateStateTransition _ d system) as [e3 changed]. cbn [fst snd].
  change (state (set_recentEvents e3 l)) with (state e3).
  destruct (negb changed && negb (EconomicStateType_eqb (state e3) STABLE)).
  - rewrite ApplyRecovery_history.
    destruct (ApplyRecovery e3 d) as [e4 changed']. reflexivity.
  - reflexivity.
Qed.

(** X13. Six types of event feed a counter, by the magnitude of the event:
    merchant losses, pirate losses, the three kinds of trade and smuggling.
    The other five (attacked convoy, blockade, relief, start and end of a
    war) change no counter: apart from the history, the next daily step
    gives the same economy and the same answer with or without them. *)
Theorem RecordEvent_counters (e : Economy) (ty : EconomicEventType) (mag : Z)
    (com : string) (player : bool) :
  let e' := RecordEvent Date_default e ty mag com player in
  let fed (hit : bool) (before : Q) : Q :=
    if hit then (before + inject_Z mag)%Q else before in
  merchantLosses e'
  = fed match ty with MERCHANT_DESTROYED => true | _ => false end
      (merchantLosses e)
  /\ pirateLosses e'
     = fed match ty with PIRATE_DESTROYED => true | _ => false end
         (pirateLosses e)
  /\ tradeVolume e'
     = fed match ty with
           | TRADE_COMPLETED | LARGE_PURCHASE | LARGE_SALE => true
           | _ => false
           end (tradeVolume e)
  /\ smugglingLevel e'
     = fed match ty with SMUGGLING_DETECTED => true | _ => false end
         (smugglingLevel e)
  /\ (match ty with
      | CONVOY_ATTACKED | BLOCKADE_ACTIVE | RELIEF_DELIVERED
      | WAR_STARTED | WAR_ENDED =>
          forall d system rnd,
            set_recentEvents (fst (StepDaily e' d system rnd)) []
            = set_recentEvents (fst (StepDaily e d system rnd)) []
            /\ snd (StepDaily e' d system rnd) = snd (StepDaily e d system rnd)
      | _ => True
      end).
Proof.
  cbv zeta. unfold RecordEvent, RecordEvent_event. cbn [type magnitude].
  destruct ty; (repeat (split; [reflexivity|])); try exact I;
    intros d system rnd; rewrite StepDaily_history; cbn [fst snd];
    split; reflexivity.
Qed.

(** *** Prices *)

Lemma blend_between (mo : Q) (s : Z) :
  0 <= s <= 100 ->
  ((1 <= mo -> 1 <= 1 + (mo - 1) * (inject_Z s / 100) <= mo)
   /\ (mo <= 1 -> mo <= 1 + (mo - 1) * (inject_Z s / 100) <= 1))%Q.
Proof.
  intros [H0 H100].
  assert (Hf0 : (0 <= inject_Z s / 100)%Q).
  { apply Qle_shift_div_l; [reflexivity|]. rewrite Qmult_0_l.
    change 0%Q with (inject_Z 0). rewrite <- Zle_Qle. exact H0. }
  assert (Hf1 : (inject_Z s / 100 <= 1)%Q).
  { apply Qle_shift_div_r; [reflexivity|]. rewrite Qmult_1_l.
    change 100%Q with (inject_Z 100). rewrite <- Zle_Qle. exact H100. }
  set (f := (inject_Z s / 100)%Q) in *.
  split; intros Hmo.
  - assert (Ha : (0 <= (mo - 1) * f)%Q) by (apply Qmult_le_0_compat; lra).
    assert (Hb : (0 <= (mo - 1) * (1 - f))%Q) by (apply Qmult_le_0_compat; lra).
    split; lra.
  - assert (Ha : (0 <= (1 - mo) * f)%Q) by (apply Qmult_le_0_compat; lra).
    assert (Hb : (0 <= (1 - mo) * (1 - f))%Q) by (apply Qmult_le_0_compat; lra).
    split; lra.
Qed.

(** X14. The price modifier of an economy blends 1 with the modifier that
    its state has at full strength, in proportion to the strength: for a
    strength between 0 and 100 it lies between the two; it is 1 for a STABLE
    or LOCKDOWN economy and at strength 0, and the full modifier at strength
    100. *)
Theorem GetPriceModifier_blend (e : Economy) (com : string) (buying : bool) :
  0 <= stateStrength e <= 100 ->
  let full := GetPriceModifier (set_stateStrength e 100) com buying in
  let now := GetPriceModifier e com buying in
  ((1 <= full -> 1 <= now <= full)
   /\ (full <= 1 -> full <= now <= 1)
   /\ (state e = STABLE \/ state e = LOCKDOWN \/ stateStrength e = 0%Z ->
       now == 1)
   /\ (stateStrength e = 100%Z -> now == full))%Q.
Proof.
  intros Hs. cbv zeta. unfold GetPriceModifier, set_stateStrength, set_condition.
  cbn [state config affectedCommodity stateStrength].
  set (mo := match state e with STABLE => 1%Q | _ => _ end).
  assert (Hfull : (1 + (mo - 1) * (inject_Z 100 / 100) == mo)%Q) by field.
  destruct (blend_between mo (stateStrength e) Hs) as [Hup Hdown].
  split; [|split; [|split]].
  - intros H. rewrite Hfull in H |- *. apply Hup, H.
  - intros H. rewrite Hfull in H |- *. apply Hdown, H.
  - intros [H|[H|H]].
    + subst mo. rewrite H. field.
    + subst mo. rewrite H. field.
    + rewrite H. field.
  - intros H. rewrite H. reflexivity.
Qed.

(** *** The daily step *)

Lemma GenerateNewsHeadline_fields (e : Economy) (o n : EconomicStateType)
    (system : option System) :
  newsHeadline (GenerateNewsHeadline e o n system) <> EmptyString
  /\ set_recentEvents (SetNewsHeadline (GenerateNewsHeadline e o n system)
                         (newsHeadline e)) (recentEvents e) = e.
Proof.
  split.
  - unfold GenerateNewsHeadline. destruct n, o; cbn; discriminate.
  - destruct e. reflexivity.
Qed.

Lemma SimulateNPCActivity_keeps (e : Economy) (d : Date)
    (system : option System) (rnd : NPCRandom) :
  let e' := SimulateNPCActivity e d system rnd in
  state e' = state e /\ stateStrength e' = stateStrength e
  /\ affectedCommodity e' = affectedCommodity e
  /\ config e' = config e /\ recentEvents e' = recentEvents e
  /\ newsHeadline e' = newsHeadline e
  /\ smugglingLevel e' = smugglingLevel e.
Proof.
  cbv zeta. unfold SimulateNPCActivity. destruct system as [s|].
  - cbn. split_ifs; repeat split; reflexivity.
  - repeat split; reflexivity.
Qed.

Lemma EvaluateStateTransition_keeps (e : Economy) (d : Date)
    (system : option System) :
  let e' := fst (EvaluateStateTransition e d system) in
  let changed := snd (EvaluateStateTransition e d system) in
  (changed = true <-> state e' <> state e)
  /\ (state e' = state e \/ state e' = LOCKDOWN
      \/ (state e = STABLE /\ (state e' = BUST \/ state e' = BOOM)))
  /\ (changed = true -> newsHeadline e' <> EmptyString)
  /\ (changed = false -> newsHeadline e' = newsHeadline e)
  /\ merchantLosses e' = merchantLosses e
  /\ pirateLosses e' = pirateLosses e
  /\ tradeVolume e' = tradeVolume e
  /\ smugglingLevel e' = smugglingLevel e
  /\ affectedCommodity e' = affectedCommodity e
  /\ config e' = config e /\ recentEvents e' = recentEvents e.
Proof.
  cbv zeta. unfold EvaluateStateTransition, GenerateNewsHeadline. cbn.
  destruct (state e) eqn:Hst; split_ifs_at Hst;
    repeat match goal with |- _ /\ _ => split end;
    try reflexivity; try (split; congruence); try (intros; discriminate);
    try (intros _; reflexivity); auto.
Qed.

Lemma EvaluateStateTransition_lockdown (e : Economy) (d : Date)
    (system : option System) :
  (inject_Z (smugglingThreshold (config e)) <= smugglingLevel e)%Q ->
  let e' := fst (EvaluateStateTransition e d system) in
  state e' = LOCKDOWN
  /\ stateStrength e' = Z.min 100 (static_cast_int (smugglingLevel e * 2)).
Proof.
  intros Hle. apply Qle_bool_iff in Hle.
  cbv zeta. unfold EvaluateStateTransition, GenerateNewsHeadline. cbn.
  destruct (state e) eqn:Hst; split_ifs_at Hst; try discriminate;
    split; reflexivity.
Qed.

Lemma EvaluateStateTransition_idle (e : Economy) (d : Date)
    (system : option System) :
  (smugglingLevel e < inject_Z (smugglingThreshold (config e)))%Q ->
  state e = SHORTAGE \/ state e = SURPLUS \/ state e = LOCKDOWN ->
  EvaluateStateTransition e d system = (e, false).
Proof.
  intros Hlt Hst. apply Qle_bool_false in Hlt.
  unfold EvaluateStateTransition.
  destruct Hst as [H|[H|H]]; rewrite H; cbv [EconomicStateType_eqb orb];
    rewrite H, Hlt, H; reflexivity.
Qed.

(** X16. What the evaluation of the thresholds can do to the state. It
    reports a change exactly when the state is not the one it started from.
    The state it leaves is the old one, LOCKDOWN, or, from STABLE only,
    BUST or BOOM: it never starts a SHORTAGE or a SURPLUS, and a BOOM never
    turns into a BUST or back. Smuggling at its threshold always gives a
    LOCKDOWN; below it, a SHORTAGE, a SURPLUS and a LOCKDOWN are left
    exactly as they are. The counters, the configuration and the history
    are never written. *)
Theorem EvaluateStateTransition_outcome (e : Economy) (d : Date)
    (system : option System) :
  let e' := fst (EvaluateStateTransition e d system) in
  let changed := snd (EvaluateStateTransition e d system) in
  (changed = true <-> state e' <> state e)
  /\ (state e' = state e \/ state e' = LOCKDOWN
      \/ (state e = STABLE /\ (state e' = BUST \/ state e' = BOOM)))
  /\ ((inject_Z (smugglingThreshold (config e)) <= smugglingLevel e)%Q ->
      state e' = LOCKDOWN
      /\ stateStrength e'
         = Z.min 100 (static_cast_int (smugglingLevel e * 2)))
  /\ ((smugglingLevel e < inject_Z (smugglingThreshold (config e)))%Q ->
      state e = SHORTAGE \/ state e = SURPLUS \/ state e = LOCKDOWN ->
      e' = e /\ changed = false)
  /\ merchantLosses e' = merchantLosses e
  /\ pirateLosses e' = pirateLosses e
  /\ tradeVolume e' = tradeVolume e
  /\ smugglingLevel e' = smugglingLevel e
  /\ config e' = config e /\ recentEvents e' = recentEvents e.
Proof.
  cbv zeta.
  destruct (EvaluateStateTransition_keeps e d system)
    as (Hflag & Hto & _ & _ & Hml & Hpl & Htv & Hsl & _ & Hc & Hr).
  split; [exact Hflag|]. split; [exact Hto|].
  split; [apply EvaluateStateTransition_lockdown|].
  split.
  { intros Hlt Hst.
    rewrite (EvaluateStateTransition_idle e d system Hlt Hst).
    split; reflexivity. }
  repeat (split; [assumption|]). assumption.
Qed.

Lemma ApplyRecovery_keeps (e : Economy) (d : Date) :
  state e <> STABLE ->
  let e' := fst (ApplyRecovery e d) in
  let changed := snd (ApplyRecovery e d) in
  (changed = true <-> state e' <> state e)
  /\ (state e' = state e \/ state e' = STABLE)
  /\ (changed = true -> newsHeadline e' <> EmptyString)
  /\ (changed = false -> newsHeadline e' = newsHeadline e)
  /\ config e' = config e /\ recentEvents e' = recentEvents e.
Proof.
  intros Hst. cbv zeta. unfold ApplyRecovery, GenerateNewsHeadline.
  apply EconomyFacts.EconomicStateType_eqb_neq in Hst. rewrite Hst.
  apply EconomyFacts.EconomicStateType_eqb_neq in Hst.
  cbn. split_ifs; cbn;
    repeat match goal with |- _ /\ _ => split end;
    try reflexivity; try (intros; discriminate); try (intros _; reflexivity);
    try (split; congruence); auto.
  intros _. destruct (state e); cbn; discriminate.
Qed.

(** X17. The answer of the daily step of an economy is true exactly when
    the step has changed the state, and it is what the step stores as the
    significant change. A step that changes the state leaves a headline
    that is not empty, a step that does not leaves the headline alone. The
    state after the step is the old one, STABLE, LOCKDOWN, or, from STABLE,
    BUST or BOOM. The step never writes the configuration nor the
    history. *)
Theorem StepDaily_outcome (e : Economy) (d : Date) (system : option System)
    (rnd : NPCRandom) :
  let e' := fst (StepDaily e d system rnd) in
  let changed := snd (StepDaily e d system rnd) in
  significantChange e' = changed
  /\ (changed = true <-> state e' <> state e)
  /\ (state e' = state e \/ state e' = STABLE \/ state e' = LOCKDOWN
      \/ (state e = STABLE /\ (state e' = BUST \/ state e' = BOOM)))
  /\ (changed = true -> newsHeadline e' <> EmptyString)
  /\ (changed = false -> newsHeadline e' = newsHeadline e)
  /\ config e' = config e /\ recentEvents e' = recentEvents e.
Proof.
  cbv zeta. unfold StepDaily.
  set (e1 := set_counters e _ _ _ _).
  destruct (SimulateNPCActivity_keeps e1 d system rnd)
    as (Hs2 & _ & _ & Hc2 & Hr2 & Hn2 & _).
  set (e2 := SimulateNPCActivity e1 d system rnd) in *.
  change (state e1) with (state e) in Hs2.
  change (config e1) with (config e) in Hc2.
  change (recentEvents e1) with (recentEvents e) in Hr2.
  change (newsHeadline e1) with (newsHeadline e) in Hn2.
  destruct (EvaluateStateTransition_keeps e2 d system)
    as (Hflag & Hto & Hnews & Hsame & _ & _ & _ & _ & _ & Hc3 & Hr3).
  destruct (EvaluateStateTransition e2 d system) as [e3 changed].
  cbn [fst snd] in *.
  rewrite Hs2 in Hflag, Hto. rewrite Hc2 in Hc3. rewrite Hr2 in Hr3.
  rewrite Hn2 in Hsame.
  destruct changed; cbn [negb andb].
  - cbn. split; [reflexivity|]. split; [exact Hflag|].
    split; [tauto|]. split; [exact Hnews|].
    split; [intros; discriminate|]. split; assumption.
  - assert (Hs3 : state e3 = state e).
    { destruct (EconomicStateType_eqb (state e3) (state e)) eqn:E.
      - apply EconomyFacts.EconomicStateType_eqb_eq, E.
      - apply EconomyFacts.EconomicStateType_eqb_neq in E.
        apply Hflag in E. discriminate. }
    destruct (EconomicStateType_eqb (state e3) STABLE) eqn:Est; cbn [negb].
    + cbn. split; [reflexivity|]. rewrite Hs3.
      split; [split; [discriminate|congruence]|].
      split; [left; reflexivity|]. split; [intros; discriminate|].
      split; [intros _; apply Hsame; reflexivity|]. split; assumption.
    + apply EconomyFacts.EconomicStateType_eqb_neq in Est.
      destruct (ApplyRecovery_keeps e3 d Est)
        as (Hflag4 & Hto4 & Hnews4 & Hsame4 & Hc4 & Hr4).
      destruct (ApplyRecovery e3 d) as [e4 changed4]. cbn [fst snd] in *.
      cbn. rewrite Hs3 in Hflag4, Hto4.
      split; [reflexivity|]. split; [exact Hflag4|].
      split; [tauto|]. split; [exact Hnews4|].
      split; [intros H; rewrite (Hsame4 H); apply Hsame; reflexivity|].
      split; congruence.
Qed.

(** *** Recovery, day after day *)

(** [n] calls of [ApplyRecovery] in a row. *)
Fixpoint recover (n : nat) (e : Economy) (d : Date) : Economy :=
  match n with
  | O => e
  | S n => recover n (fst (ApplyRecovery e d)) d
  end.

(** The local [dailyRecovery] of [ApplyRecovery]. *)
Definition dailyRecovery (e : Economy) : Z :=
  Z.max 1 (Z.quot 100 (recoveryDays e)).

Lemma ApplyRecovery_day (e : Economy) (d : Date) :
  state e <> STABLE ->
  let e' := fst (ApplyRecovery e d) in
  (dailyRecovery e < stateStrength e ->
   state e' = state e /\ config e' = config e
   /\ affectedCommodity e' = affectedCommodity e
   /\ stateStrength e' = stateStrength e - dailyRecovery e)
  /\ (stateStrength e <= dailyRecovery e ->
      state e' = STABLE /\ stateStrength e' = 0
      /\ affectedCommodity e' = EmptyString).
Proof.
  intros Hst. cbv zeta. unfold ApplyRecovery.
  apply EconomyFacts.EconomicStateType_eqb_neq in Hst. rewrite Hst.
  fold (dailyRecovery e). cbn.
  destruct (Z.leb_spec (Z.max 0 (stateStrength e - dailyRecovery e)) 0)
    as [H0|H0]; cbn; split; intros H; try lia; repeat split; lia.
Qed.

(** X18. Recovery is a countdown on the strength of the state. With a
    daily recovery of [max(1, 100 / recoveryDays)], an economy that is not
    STABLE and whose strength is more than [k] daily recoveries and at most
    [k + 1] keeps its state, its commodity and its configuration for [k]
    calls of [ApplyRecovery], its strength going down by the daily recovery
    each time; the next call makes it STABLE with strength 0 and no
    affected commodity. *)
Theorem ApplyRecovery_countdown (e : Economy) (d : Date) (k : nat) :
  state e <> STABLE ->
  recoveryDays e <> 0 ->
  Z.of_nat k * dailyRecovery e < stateStrength e
    <= (Z.of_nat k + 1) * dailyRecovery e ->
  (forall j, (j <= k)%nat ->
     state (recover j e d) = state e
     /\ affectedCommodity (recover j e d) = affectedCommodity e
     /\ stateStrength (recover j e d)
        = stateStrength e - Z.of_nat j * dailyRecovery e)
  /\ state (recover (S k) e d) = STABLE
  /\ stateStrength (recover (S k) e d) = 0
  /\ affectedCommodity (recover (S k) e d) = EmptyString.
Proof.
  intros Hst _. revert e Hst. induction k as [|k IH]; intros e Hst Hk.
  - destruct (ApplyRecovery_day e d Hst) as [_ Hlast]. split.
    + intros j Hj. assert (j = 0%nat) as -> by lia. cbn.
      repeat split. lia.
    + cbn [recover]. apply Hlast. lia.
  - destruct (ApplyRecovery_day e d Hst) as [Hday _].
    assert (Hd : 1 <= dailyRecovery e) by (unfold dailyRecovery; lia).
    destruct Hday as (Hs1 & Hc1 & Ha1 & Hv1); [nia|].
    set (e1 := fst (ApplyRecovery e d)) in *.
    assert (Hd1 : dailyRecovery e1 = dailyRecovery e).
    { unfold dailyRecovery, recoveryDays. rewrite Hs1, Hc1. reflexivity. }
    destruct (IH e1) as (Hkeep & Hend).
    { rewrite Hs1. exact Hst. }
    { rewrite Hd1, Hv1. nia. }
    split.
    + intros [|j] Hj.
      * cbn. repeat split. lia.
      * cbn [recover]. fold e1.
        destruct (Hkeep j) as (Hs & Ha & Hv); [lia|].
        rewrite Hs, Ha, Hv, Hs1, Ha1, Hv1, Hd1. repeat split. lia.
    + cbn [recover]. fold e1. exact Hend.
Qed.

End WithDate.

(** A booming economy at full strength under the default configuration
    (14 recovery days, so 7 a day) is STABLE after 15 calls, not before. *)
Definition boom_100 : SystemEconomy (Date := Z) :=
  SetState (SystemEconomy_new 0) BOOM EmptyString 100.

Lemma GetPriceModifier_blend_witness :
  (1 <= GetPriceModifier (set_stateStrength boom_100 50) EmptyString false
   <= GetPriceModifier (set_stateStrength boom_100 100) EmptyString false)%Q.
Proof.
  apply (GetPriceModifier_blend (set_stateStrength boom_100 50) EmptyString
           false).
  - cbn. lia.
  - discriminate.
Defined.

Lemma ApplyRecovery_countdown_witness :
  state (recover 14 boom_100 0) = BOOM
  /\ stateStrength (recover 14 boom_100 0) = 2
  /\ state (recover 15 boom_100 0) = STABLE.
Proof.
  destruct (ApplyRecovery_countdown boom_100 0 14) as (Hkeep & Hend & _).
  - discriminate.
  - discriminate.
  - change (14 * 7 < 100 <= (14 + 1) * 7). lia.
  - destruct (Hkeep 14%nat (Nat.le_refl _)) as (Hs & _ & Hv).
    split; [exact Hs|]. split; [exact Hv|exact Hend].
Defined.

End EconomyMore.
